(** * RAG-agent: the tool-use orchestration loop of [agent/agent.py]
      and the capability [search_recent_executive_orders] of
      [agent/tools.py], embedded in Rocq.

    Python values are modelled by the inductive [value]; exceptions by
    the error monad [outcome]; the mutable [self.chat_history], the
    network and the database by explicit state passing. *)

From Stdlib Require Import ZArith List String Ascii Bool Arith Lia.
From Stdlib Require Import Numbers.DecimalString.
Import ListNotations.
Set Warnings "-register-all".
Open Scope string_scope.

(** ** Python values *)

(** The values that flow through the agent: what [json.loads] and
    [response.json()] produce and what the handlers return.  A float is
    kept as the literal it was read from; no arithmetic is done on
    floats here.  A dict is an association list in insertion order
    (Python dicts keep insertion order); lookups take the first binding
    and [dict_set] keeps keys unique. *)
Inductive value : Type :=
| VNone
| VBool (b : bool)
| VInt (z : Z)
| VFloat (lit : string)
| VStr (s : string)
| VList (l : list value)
| VDict (d : list (string * value)).

Definition dict := list (string * value).

(** [d.get(k)] as an option, [None] when the key is absent. *)
Fixpoint dict_get (k : string) (d : dict) : option value :=
  match d with
  | [] => None
  | (k', v) :: d' => if String.eqb k k' then Some v else dict_get k d'
  end.

(** [k in d] *)
Definition dict_has (k : string) (d : dict) : bool :=
  match dict_get k d with Some _ => true | None => false end.

(** [d[k] = v]: overwrite in place, or append a new key at the end. *)
Fixpoint dict_set (k : string) (v : value) (d : dict) : dict :=
  match d with
  | [] => [(k, v)]
  | (k', v') :: d' =>
      if String.eqb k k' then (k', v) :: d' else (k', v') :: dict_set k v d'
  end.

(** [d.get(k, default)] *)
Definition py_get (k : string) (default : value) (d : dict) : value :=
  match dict_get k d with Some v => v | None => default end.

Definition keys (d : dict) : list string := map fst d.

(** A float literal denotes zero when its mantissa has a digit and all
    its mantissa digits are 0 (literals that underflow are not told
    apart). *)
Fixpoint mantissa_digits (s : string) : list ascii :=
  match s with
  | EmptyString => []
  | String c s' =>
      if Ascii.eqb c "e" || Ascii.eqb c "E" then []
      else if (48 <=? nat_of_ascii c)%nat && (nat_of_ascii c <=? 57)%nat
           then c :: mantissa_digits s'
           else mantissa_digits s'
  end.

Definition float_is_zero (lit : string) : bool :=
  match mantissa_digits lit with
  | [] => false
  | ds => forallb (fun c => Ascii.eqb c "0") ds
  end.

(** Python truthiness, [bool(v)]. *)
Definition truthy (v : value) : bool :=
  match v with
  | VNone => false
  | VBool b => b
  | VInt z => negb (z =? 0)%Z
  | VFloat lit => negb (float_is_zero lit)
  | VStr s => negb (String.eqb s EmptyString)
  | VList l => match l with [] => false | _ => true end
  | VDict d => match d with [] => false | _ => true end
  end.

(** [isinstance(v, dict)], [isinstance(v, list)], [isinstance(v, str)] *)
Definition is_dict (v : value) : bool :=
  match v with VDict _ => true | _ => false end.
Definition is_list (v : value) : bool :=
  match v with VList _ => true | _ => false end.
Definition is_str (v : value) : bool :=
  match v with VStr _ => true | _ => false end.

(** Lists and dicts are unhashable: using one as a dict key, also in a
    membership test [v in some_dict], raises TypeError. *)
Definition hashable (v : value) : bool :=
  match v with VList _ | VDict _ => false | _ => true end.

(** ** Exceptions *)

(** An exception (a subclass of [Exception]) with its class name and
    the text [str(e)]. *)
Record exn : Type := Exn { exn_type : string; exn_msg : string }.

Inductive outcome (A : Type) : Type :=
| Return (a : A)
| Raise (e : exn).
Arguments Return {A} a.
Arguments Raise {A} e.

Definition TypeError (m : string) : exn := Exn "TypeError" m.
Definition AttributeError (m : string) : exn := Exn "AttributeError" m.

(** ** The regular expression of [_extract_tool_calls] *)

(** [\s] on a str pattern, for characters below 256: tab to carriage
    return, the separators 0x1c to 0x1f, space, NEL and NBSP. *)
Definition is_space (c : ascii) : bool :=
  let n := nat_of_ascii c in
  ((9 <=? n) && (n <=? 13) || (28 <=? n) && (n <=? 32)
   || (n =? 133) || (n =? 160))%nat.

Fixpoint strip_prefix (p s : string) : option string :=
  match p with
  | EmptyString => Some s
  | String a p' =>
      match s with
      | String b s' => if Ascii.eqb a b then strip_prefix p' s' else None
      | EmptyString => None
      end
  end.

Definition fence_open : string := "```json".
Definition fence_close : string := "```".

(** The tail [\s*```] of the pattern: the greedy [\s*] takes a
    whitespace character first and gives it back when the rest fails. *)
Fixpoint match_close (s : string) : option string :=
  match s with
  | String c s' =>
      if is_space c then
        match match_close s' with
        | Some r => Some r
        | None => strip_prefix fence_close s
        end
      else strip_prefix fence_close s
  | EmptyString => strip_prefix fence_close s
  end.

(** The group [([\s\S]*?)] followed by the tail: the lazy star tries
    the tail first and takes one more character when it fails.  Returns
    the captured group and what follows the match. *)
Fixpoint match_group (s : string) : option (string * string) :=
  match match_close s with
  | Some r => Some (EmptyString, r)
  | None =>
      match s with
      | String c s' =>
          match match_group s' with
          | Some (g, r) => Some (String c g, r)
          | None => None
          end
      | EmptyString => None
      end
  end.

(** The greedy [\s*] that follows the opening fence. *)
Fixpoint match_open_ws (s : string) : option (string * string) :=
  match s with
  | String c s' =>
      if is_space c then
        match match_open_ws s' with
        | Some r => Some r
        | None => match_group s
        end
      else match_group s
  | EmptyString => match_group s
  end.

(** The whole pattern [```json\s*([\s\S]*?)\s*```] anchored at the
    start of [s]. *)
Definition match_here (s : string) : option (string * string) :=
  match strip_prefix fence_open s with
  | Some s1 => match_open_ws s1
  | None => None
  end.

(** [re.findall]: leftmost matches, scanning on after each match; with
    one group the result is the list of captured groups.  A match
    consumes at least the two fences, so [fuel] above the length of the
    text is never exhausted. *)
Fixpoint findall_from (fuel : nat) (s : string) : list string :=
  match fuel with
  | O => []
  | S fuel' =>
      match match_here s with
      | Some (g, rest) => g :: findall_from fuel' rest
      | None =>
          match s with
          | String _ s' => findall_from fuel' s'
          | EmptyString => []
          end
      end
  end.

Definition re_findall (s : string) : list string :=
  findall_from (S (String.length s)) s.

(** ** A reader for JSON texts *)

(** [json.loads] on texts (strict mode, characters below 256): the
    grammar of the standard decoder, with its extensions [NaN],
    [Infinity] and [-Infinity]; [None] stands for JSONDecodeError.  An
    escape [\uXXXX] above 255 is outside the modelled character range
    and is not read. *)

Definition dquote : ascii := "034"%char.
Definition backslash : ascii := "\"%char.

Definition is_json_ws (c : ascii) : bool :=
  Ascii.eqb c " " || Ascii.eqb c "009" || Ascii.eqb c "010" || Ascii.eqb c "013".

Fixpoint skip_json_ws (s : string) : string :=
  match s with
  | String c s' => if is_json_ws c then skip_json_ws s' else s
  | EmptyString => s
  end.

Definition is_digit (c : ascii) : bool :=
  ((48 <=? nat_of_ascii c) && (nat_of_ascii c <=? 57))%nat.

Definition hex_digit (c : ascii) : option nat :=
  let n := nat_of_ascii c in
  if ((48 <=? n) && (n <=? 57))%nat then Some (n - 48)%nat
  else if ((97 <=? n) && (n <=? 102))%nat then Some (n - 87)%nat
  else if ((65 <=? n) && (n <=? 70))%nat then Some (n - 55)%nat
  else None.

Definition hex4 (a b c d : ascii) : option nat :=
  match hex_digit a, hex_digit b, hex_digit c, hex_digit d with
  | Some x, Some y, Some z, Some w => Some (((x * 16 + y) * 16 + z) * 16 + w)%nat
  | _, _, _, _ => None
  end.

(** The character a one-letter escape stands for. *)
Definition unescape (e : ascii) : option ascii :=
  if Ascii.eqb e dquote then Some dquote
  else if Ascii.eqb e backslash then Some backslash
  else if Ascii.eqb e "/" then Some "/"%char
  else if Ascii.eqb e "b" then Some "008"%char
  else if Ascii.eqb e "f" then Some "012"%char
  else if Ascii.eqb e "n" then Some "010"%char
  else if Ascii.eqb e "r" then Some "013"%char
  else if Ascii.eqb e "t" then Some "009"%char
  else None.

(** The body of a string literal, after its opening quote: the decoded
    text and what follows the closing quote. *)
Fixpoint scan_string (s : string) : option (string * string) :=
  match s with
  | EmptyString => None
  | String c s' =>
      if Ascii.eqb c dquote then Some (EmptyString, s')
      else if Ascii.eqb c backslash then
        match s' with
        | EmptyString => None
        | String e s'' =>
            match unescape e with
            | Some ch =>
                match scan_string s'' with
                | Some (t, r) => Some (String ch t, r)
                | None => None
                end
            | None =>
                if Ascii.eqb e "u" then
                  match s'' with
                  | String h1 (String h2 (String h3 (String h4 s4))) =>
                      match hex4 h1 h2 h3 h4 with
                      | Some n =>
                          if (n <? 256)%nat then
                            match scan_string s4 with
                            | Some (t, r) => Some (String (ascii_of_nat n) t, r)
                            | None => None
                            end
                          else None
                      | None => None
                      end
                  | _ => None
                  end
                else None
            end
        end
      else if (nat_of_ascii c <? 32)%nat then None
      else
        match scan_string s' with
        | Some (t, r) => Some (String c t, r)
        | None => None
        end
  end.

(** The longest run of decimal digits at the start of [s]. *)
Fixpoint take_digits (s : string) : string * string :=
  match s with
  | String c s' =>
      if is_digit c then let (ds, r) := take_digits s' in (String c ds, r)
      else (EmptyString, s)
  | EmptyString => (EmptyString, s)
  end.

Fixpoint Z_of_digits (acc : Z) (ds : string) : Z :=
  match ds with
  | String c ds' => Z_of_digits (10 * acc + Z.of_nat (nat_of_ascii c - 48)) ds'
  | EmptyString => acc
  end.

(** The integer part of a number: an optional minus sign, then a
    single 0 or a digit from 1 to 9 followed by digits. *)
Definition scan_int_part (s : string) : option (string * string) :=
  let (sign, s1) :=
    match s with
    | String c s' => if Ascii.eqb c "-" then ("-", s') else (EmptyString, s)
    | EmptyString => (EmptyString, s)
    end in
  match s1 with
  | String c s' =>
      if Ascii.eqb c "0" then Some (sign ++ "0", s')
      else if is_digit c then
        let (ds, r) := take_digits s1 in Some (sign ++ ds, r)
      else None
  | EmptyString => None
  end.

(** The optional fraction: a dot and at least one digit. *)
Definition scan_frac (s : string) : string * string :=
  match s with
  | String c s' =>
      if Ascii.eqb c "." then
        match take_digits s' with
        | (EmptyString, _) => (EmptyString, s)
        | (ds, r) => (String c ds, r)
        end
      else (EmptyString, s)
  | EmptyString => (EmptyString, s)
  end.

(** The optional exponent: e or E, an optional sign, at least one
    digit. *)
Definition scan_exp (s : string) : string * string :=
  match s with
  | String c s' =>
      if Ascii.eqb c "e" || Ascii.eqb c "E" then
        let (sg, s1) :=
          match s' with
          | String d s'' =>
              if Ascii.eqb d "-" || Ascii.eqb d "+"
              then (String d EmptyString, s'') else (EmptyString, s')
          | EmptyString => (EmptyString, s')
          end in
        match take_digits s1 with
        | (EmptyString, _) => (EmptyString, s)
        | (ds, r) => (String c (sg ++ ds), r)
        end
      else (EmptyString, s)
  | EmptyString => (EmptyString, s)
  end.

Definition scan_number (s : string) : option (value * string) :=
  match scan_int_part s with
  | None => None
  | Some (ip, r1) =>
      let (fp, r2) := scan_frac r1 in
      let (ep, r3) := scan_exp r2 in
      match fp, ep with
      | EmptyString, EmptyString =>
          match ip with
          | String "-" ds => Some (VInt (- Z_of_digits 0 ds), r3)
          | _ => Some (VInt (Z_of_digits 0 ip), r3)
          end
      | _, _ => Some (VFloat (ip ++ fp ++ ep), r3)
      end
  end.

(** The literals and numbers, tried in the order of the decoder. *)
Definition scan_atom (s : string) : option (value * string) :=
  match strip_prefix "null" s with
  | Some r => Some (VNone, r)
  | None =>
  match strip_prefix "true" s with
  | Some r => Some (VBool true, r)
  | None =>
  match strip_prefix "false" s with
  | Some r => Some (VBool false, r)
  | None =>
  match scan_number s with
  | Some vr => Some vr
  | None =>
  match strip_prefix "NaN" s with
  | Some r => Some (VFloat "nan", r)
  | None =>
  match strip_prefix "Infinity" s with
  | Some r => Some (VFloat "inf", r)
  | None =>
  match strip_prefix "-Infinity" s with
  | Some r => Some (VFloat "-inf", r)
  | None => None
  end end end end end end end.

(** One value; the members of an object after the opening brace or a
    comma; the elements of an array.  Every call consumes a character,
    so fuel above the length of the text is never exhausted. *)
Fixpoint scan_once (fuel : nat) (s : string) : option (value * string) :=
  match fuel with
  | O => None
  | S n =>
      match s with
      | EmptyString => None
      | String c s' =>
          if Ascii.eqb c dquote then
            match scan_string s' with
            | Some (t, r) => Some (VStr t, r)
            | None => None
            end
          else if Ascii.eqb c "{" then
            match skip_json_ws s' with
            | String "}" r => Some (VDict [], r)
            | s1 =>
                match scan_members n [] s1 with
                | Some (d, r) => Some (VDict d, r)
                | None => None
                end
            end
          else if Ascii.eqb c "[" then
            match skip_json_ws s' with
            | String "]" r => Some (VList [], r)
            | s1 =>
                match scan_elements n s1 with
                | Some (l, r) => Some (VList l, r)
                | None => None
                end
            end
          else scan_atom s
      end
  end
with scan_members (fuel : nat) (acc : dict) (s : string)
  : option (dict * string) :=
  match fuel with
  | O => None
  | S n =>
      match s with
      | String q s' =>
          if Ascii.eqb q dquote then
            match scan_string s' with
            | None => None
            | Some (k, r1) =>
                match skip_json_ws r1 with
                | String ":" r2 =>
                    match scan_once n (skip_json_ws r2) with
                    | None => None
                    | Some (v, r3) =>
                        match skip_json_ws r3 with
                        | String "}" r4 => Some (dict_set k v acc, r4)
                        | String "," r4 =>
                            scan_members n (dict_set k v acc) (skip_json_ws r4)
                        | _ => None
                        end
                    end
                | _ => None
                end
            end
          else None
      | EmptyString => None
      end
  end
with scan_elements (fuel : nat) (s : string) : option (list value * string) :=
  match fuel with
  | O => None
  | S n =>
      match scan_once n s with
      | None => None
      | Some (v, r1) =>
          match skip_json_ws r1 with
          | String "]" r2 => Some ([v], r2)
          | String "," r2 =>
              match scan_elements n (skip_json_ws r2) with
              | Some (l, r3) => Some (v :: l, r3)
              | None => None
              end
          | _ => None
          end
      end
  end.

(** [json.loads(s)]: one value between optional whitespace, and
    nothing after it. *)
Definition json_loads_text (s : string) : option value :=
  match scan_once (2 * S (String.length s)) (skip_json_ws s) with
  | Some (v, r) =>
      match skip_json_ws r with
      | EmptyString => Some v
      | _ => None
      end
  | None => None
  end.

(** ** The Python runtime and the world around the agent *)

(** Library functions of the Python runtime that the agent calls and
    that are kept abstract: the JSON codec and the conversions of
    values that are not a str or an int.  The resource limits of the
    interpreter (recursion depth, memory) are not modelled. *)
Class Python : Type := {
  (** [json.loads]; [None] stands for JSONDecodeError *)
  json_loads : string -> option value;
  (** [json.dumps(v, default=str)], which returns on every value
      modelled here *)
  json_dumps : value -> string;
  (** [str(v)] for a value that is not a str *)
  py_repr : value -> string;
  (** [int(v)] for a value that is neither an int nor a bool *)
  py_int_conv : value -> outcome Z
}.

(** [str(v)], as in an f-string. *)
Definition py_str `{Python} (v : value) : string :=
  match v with VStr s => s | _ => py_repr v end.

(** [int(v)] *)
Definition py_int `{Python} (v : value) : outcome Z :=
  match v with
  | VInt z => Return z
  | VBool b => Return (if b then 1 else 0)%Z
  | _ => py_int_conv v
  end.

(** [obj[k]] with a str key: KeyError when a dict lacks the key,
    TypeError on a value that is not a dict. *)
Definition getitem (obj : value) (k : string) : outcome value :=
  match obj with
  | VDict d =>
      match dict_get k d with
      | Some v => Return v
      | None => Raise (Exn "KeyError" k)
      end
  | _ => Raise (TypeError "indices must be integers, or not subscriptable")
  end.

(** [obj.get(k, default)]: only a dict has the method. *)
Definition method_get (obj : value) (k : string) (default : value)
  : outcome value :=
  match obj with
  | VDict d => Return (py_get k default d)
  | _ => Raise (AttributeError "object has no attribute 'get'")
  end.

(** Everything outside the agent object: the model server reached over
    HTTP, the database behind the tools, the clock.  A call takes the
    state of the world and returns the next one; it returns a value or
    raises. *)
Class Platform : Type := {
  World : Type;
  (** [datetime.now()] as a proleptic Gregorian ordinal, [toordinal()] *)
  now_ordinal : World -> Z;
  (** [session.post(endpoint, json=payload)], [raise_for_status()] and
      [response.json()] *)
  http_post_json : string -> value -> World -> outcome value * World;
  (** [config.OLLAMA_BASE_URL], [config.OLLAMA_MODEL] *)
  OLLAMA_BASE_URL : string;
  OLLAMA_MODEL : string;
  (** the bound methods of [FederalRegistryTools] in the registry,
      called as [tool_func( **parameters)] *)
  tool_search_documents : value -> World -> outcome value * World;
  tool_get_recent_documents : value -> World -> outcome value * World;
  tool_get_document_by_id : value -> World -> outcome value * World;
  tool_get_document_types : value -> World -> outcome value * World;
  tool_get_agencies : value -> World -> outcome value * World;
  tool_get_topics : value -> World -> outcome value * World;
  tool_get_presidential_document_types :
    value -> World -> outcome value * World;
  tool_search_recent_executive_orders :
    value -> World -> outcome value * World;
  tool_search_documents_by_date_range :
    value -> World -> outcome value * World;
  tool_search_by_agency_and_topic : value -> World -> outcome value * World;
  (** [DatabaseManager]: [if not self.pool: await self.connect()] *)
  db_ensure_pool : World -> outcome unit * World;
  (** [DatabaseManager.search_documents] from [cursor.execute(sql,
      params)] on: the rows with their agencies, topics and dates *)
  db_fetch_documents : string -> list value -> World -> outcome value * World
}.

(** ** Stateful computations that may raise *)

(** A computation on a state [S]: it changes the state and returns or
    raises.  What was changed before a raise stays changed. *)
Definition St (S A : Type) : Type := S -> outcome A * S.

Definition ret {S A : Type} (a : A) : St S A :=
  fun s => (Return a, s).

Definition bind {S A B : Type} (m : St S A) (k : A -> St S B) : St S B :=
  fun s =>
    match m s with
    | (Return a, s') => k a s'
    | (Raise e, s') => (Raise e, s')
    end.

Definition lift {S A : Type} (o : outcome A) : St S A :=
  fun s => (o, s).

(** [try: body except Exception as e: handler(e)] *)
Definition try_except {S A : Type} (body : St S A) (handler : exn -> St S A)
  : St S A :=
  fun s =>
    match body s with
    | (Return a, s') => (Return a, s')
    | (Raise e, s') => handler e s'
    end.

Declare Scope st_scope.
Delimit Scope st_scope with st.
Notation "x <- m ;; k" := (bind m (fun x => k))
  (at level 61, m at next level, right associativity) : st_scope.
Notation "m ;;; k" := (bind m (fun _ => k))
  (at level 61, right associativity) : st_scope.
Open Scope st_scope.

(** A computation in the world, and a tool of the registry. *)
Definition IO `{Platform} (A : Type) : Type := St World A.
Definition handler `{Platform} : Type := value -> IO value.

(** ** Dates *)

Definition DAYS_BEFORE_MONTH (month : Z) : Z :=
  nth (Z.to_nat month) [0; 0; 31; 59; 90; 120; 151; 181; 212; 243; 273; 304; 334]%Z 0%Z.

Definition DAYS_IN_MONTH (month : Z) : Z :=
  nth (Z.to_nat month) [0; 31; 28; 31; 30; 31; 30; 31; 31; 30; 31; 30; 31]%Z 0%Z.

(** [date.fromordinal]: year, month and day of an ordinal, where day 1
    is 0001-01-01. *)
Definition ord2ymd (ordinal : Z) : Z * Z * Z :=
  let n := (ordinal - 1)%Z in
  let n400 := (n / 146097)%Z in let n := (n mod 146097)%Z in
  let year := (n400 * 400 + 1)%Z in
  let n100 := (n / 36524)%Z in let n := (n mod 36524)%Z in
  let n4 := (n / 1461)%Z in let n := (n mod 1461)%Z in
  let n1 := (n / 365)%Z in let n := (n mod 365)%Z in
  let year := (year + n100 * 100 + n4 * 4 + n1)%Z in
  if ((n1 =? 4) || (n100 =? 4))%Z then ((year - 1)%Z, 12%Z, 31%Z)
  else
    let leapyear := ((n1 =? 3) && (negb (n4 =? 24) || (n100 =? 3)))%Z in
    let month := Z.shiftr (n + 50) 5 in
    let preceding :=
      (DAYS_BEFORE_MONTH month + (if (2 <? month) && leapyear then 1 else 0))%Z in
    if (n <? preceding)%Z then
      let month := (month - 1)%Z in
      let preceding :=
        (preceding
         - (DAYS_IN_MONTH month + (if (month =? 2) && leapyear then 1 else 0)))%Z in
      (year, month, (n - preceding + 1)%Z)
    else (year, month, (n - preceding + 1)%Z).

Definition digit (n : Z) : ascii := ascii_of_nat (48 + Z.to_nat (n mod 10)).

Definition digits2 (n : Z) : string :=
  String (digit (n / 10)) (String (digit n) EmptyString).

Definition digits4 (n : Z) : string :=
  String (digit (n / 1000)) (String (digit (n / 100)) (digits2 n)).

(** [strftime('%Y-%m-%d')] of a date given by its ordinal, for the
    years 1000 to 9999 (the C library does not pad a shorter year). *)
Definition strftime_ymd (ordinal : Z) : string :=
  let '(y, m, d) := ord2ymd ordinal in
  digits4 y ++ String "-" (digits2 m ++ String "-" (digits2 d)).


(** [datetime.now().strftime('%Y-%m-%d')] *)
Definition now_strftime `{Platform} : IO string :=
  fun w => (Return (strftime_ymd (now_ordinal w)), w).

(** The date of [datetime.now()]. *)
Definition now `{Platform} : IO Z := fun w => (Return (now_ordinal w), w).


(** ** agent/agent.py: the extractor *)

(** [isinstance(tool_call, dict) and 'name' in tool_call and
    'parameters' in tool_call] *)
Definition is_tool_call (tool_call : value) : bool :=
  is_dict tool_call &&
  match tool_call with
  | VDict d => dict_has "name" d && dict_has "parameters" d
  | _ => false
  end.

(** The loop over the matches: a match that does not parse is logged
    and skipped. *)
Fixpoint parse_matches `{Python} (matches : list string) : list value :=
  match matches with
  | [] => []
  | m :: rest =>
      match json_loads m with
      | Some tool_call =>
          if is_tool_call tool_call
          then tool_call :: parse_matches rest
          else parse_matches rest
      | None => parse_matches rest
      end
  end.

(** [re.findall(json_pattern, text)] raises TypeError on anything that
    is not a str. *)
Definition _extract_tool_calls `{Python} (text : value)
  : outcome (list value) :=
  match text with
  | VStr s => Return (parse_matches (re_findall s))
  | _ => Raise (TypeError "expected string or bytes-like object")
  end.

(** ** agent/agent.py: the projection of document lists *)

Definition simplify_doc (doc : dict) : dict :=
  let simplified_doc : dict :=
    [ ("id", py_get "id" VNone doc);
      ("document_number", py_get "document_number" VNone doc);
      ("document_type", py_get "document_type" VNone doc);
      ("title", py_get "title" VNone doc);
      ("publication_date", py_get "publication_date" VNone doc);
      ("abstract", py_get "abstract" VNone doc) ] in
  let simplified_doc :=
    if truthy (py_get "presidential_document_type" VNone doc)
    then dict_set "presidential_document_type"
           (py_get "presidential_document_type" VNone doc) simplified_doc
    else simplified_doc in
  let simplified_doc :=
    if truthy (py_get "executive_order_number" VNone doc)
    then dict_set "executive_order_number"
           (py_get "executive_order_number" VNone doc) simplified_doc
    else simplified_doc in
  let simplified_doc :=
    if dict_has "agencies" doc
    then dict_set "agencies" (py_get "agencies" VNone doc) simplified_doc
    else simplified_doc in
  let simplified_doc :=
    if dict_has "topics" doc
    then dict_set "topics" (py_get "topics" VNone doc) simplified_doc
    else simplified_doc in
  simplified_doc.

(** The loop [for doc in result]: [doc.get] raises AttributeError on an
    element that is not a dict. *)
Fixpoint simplify_documents (result : list value) : outcome (list value) :=
  match result with
  | [] => Return []
  | doc :: rest =>
      match doc with
      | VDict d =>
          match simplify_documents rest with
          | Return simplified_result =>
              Return (VDict (simplify_doc d) :: simplified_result)
          | Raise e => Raise e
          end
      | _ => Raise (AttributeError "object has no attribute 'get'")
      end
  end.

(** [isinstance(result, list) and result and isinstance(result[0],
    dict) and 'document_number' in result[0]] *)
Definition is_document_list (result : value) : bool :=
  is_list result && truthy result &&
  match result with
  | VList (r0 :: _) =>
      is_dict r0 &&
      match r0 with VDict d => dict_has "document_number" d | _ => false end
  | _ => false
  end.

(** ** agent/agent.py: the agent object and its methods *)

(** One call of [_ollama_chat_completion]: the [messages] argument
    and what the call returned or raised. *)
Record gateway_call : Type := GatewayCall {
  sent : list value;
  received : outcome value
}.

(** The agent with the world it runs in.  [gateway_log] is a ghost
    field: every [_ollama_chat_completion] call so far, oldest first. *)
Record agent `{Platform} : Type := Agent {
  chat_history : list value;
  world : World;
  gateway_log : list gateway_call
}.

(** A method of the agent. *)
Definition M `{Platform} (A : Type) : Type := St agent A.

Definition get_history `{Platform} : M (list value) :=
  fun s => (Return (chat_history s), s).

Definition set_history `{Platform} (h : list value) : M unit :=
  fun s => (Return tt, Agent _ h (world s) (gateway_log s)).

(** [self.chat_history.append(m)] *)
Definition append_history `{Platform} (m : value) : M unit :=
  fun s => (Return tt, Agent _ (chat_history s ++ [m]) (world s) (gateway_log s)).

(** A call into the world. *)
Definition call_world `{Platform} {A : Type} (f : IO A) : M A :=
  fun s =>
    let (o, w) := f (world s) in
    (o, Agent _ (chat_history s) w (gateway_log s)).

(** Ghost: run a gateway call and record it with its outcome. *)
Definition logged `{Platform} (messages : list value) (call : M value)
  : M value :=
  fun s =>
    let (o, s') := call s in
    (o, Agent _ (chat_history s') (world s')
          (gateway_log s' ++ [GatewayCall messages o])).

Definition message (role : string) (content : value) : value :=
  VDict [("role", VStr role); ("content", content)].

Definition _ollama_chat_completion `{Platform} (messages : list value)
  : M value :=
  let endpoint := OLLAMA_BASE_URL ++ "/api/chat" in
  let payload :=
    VDict [ ("model", VStr OLLAMA_MODEL);
            ("messages", VList messages);
            ("stream", VBool false);
            ("options", VDict [ ("temperature", VFloat "0.7");
                                ("top_p", VFloat "0.9");
                                ("num_predict", VInt 1000) ]) ] in
  logged messages
    (data <- call_world (http_post_json endpoint payload) ;;
     if is_dict data
        && match data with VDict d => dict_has "message" d | _ => false end
     then
       msg <- lift (getitem data "message") ;;
       content <- lift (method_get msg "content" (VStr EmptyString)) ;;
       role <- lift (method_get msg "role" (VStr "assistant")) ;;
       ret (VDict [("message", VDict [("content", content); ("role", role)])])
     else ret data).

Definition available_tools `{Platform} : list (string * handler) :=
  [ ("search_documents", tool_search_documents);
    ("get_recent_documents", tool_get_recent_documents);
    ("get_document_by_id", tool_get_document_by_id);
    ("get_document_types", tool_get_document_types);
    ("get_agencies", tool_get_agencies);
    ("get_topics", tool_get_topics);
    ("get_presidential_document_types", tool_get_presidential_document_types);
    ("search_recent_executive_orders", tool_search_recent_executive_orders);
    ("search_documents_by_date_range", tool_search_documents_by_date_range);
    ("search_by_agency_and_topic", tool_search_by_agency_and_topic) ].

Fixpoint assoc {A : Type} (k : string) (l : list (string * A)) : option A :=
  match l with
  | [] => None
  | (k', a) :: l' => if String.eqb k k' then Some a else assoc k l'
  end.

(** [self.available_tools[tool_name]] guarded by [tool_name not in
    self.available_tools]: the keys are strs, so a hashable value that
    is not a str is absent, and a list or a dict cannot be hashed. *)
Definition lookup_tool `{Platform} (tool_name : value) : outcome (option handler) :=
  match tool_name with
  | VStr s => Return (assoc s available_tools)
  | VList _ => Raise (TypeError "unhashable type: 'list'")
  | VDict _ => Raise (TypeError "unhashable type: 'dict'")
  | _ => Return None
  end.

Definition error_payload (m : string) : value := VDict [("error", VStr m)].

Definition _execute_tool `{Python} `{Platform} (tool_name parameters : value)
  : M value :=
  found <- lift (lookup_tool tool_name) ;;
  match found with
  | None => ret (error_payload ("Tool not found: " ++ py_str tool_name))
  | Some tool_func =>
      try_except
        (result <- call_world (tool_func parameters) ;;
         if is_document_list result
         then
           match result with
           | VList docs =>
               simplified_result <- lift (simplify_documents docs) ;;
               ret (VList simplified_result)
           | _ => ret result
           end
         else ret result)
        (fun e =>
           ret (error_payload
                  ("Error executing tool " ++ py_str tool_name ++ ": " ++ exn_msg e)))
  end.

(** The loop [for tool_call in tool_calls] of [process_message]. *)
Fixpoint run_tool_calls `{Python} `{Platform} (tool_calls : list value)
  : M (list value) :=
  match tool_calls with
  | [] => ret []
  | tool_call :: rest =>
      tool_name <- lift (method_get tool_call "name" VNone) ;;
      parameters <- lift (method_get tool_call "parameters" (VDict [])) ;;
      result <- _execute_tool tool_name parameters ;;
      tool_results <- run_tool_calls rest ;;
      ret (VDict [ ("tool_name", tool_name);
                   ("parameters", parameters);
                   ("result", result) ] :: tool_results)
  end.

Definition Q : string := String dquote EmptyString.

Definition system_prompt_head : string :=
  "You are a helpful assistant that can access and search through the Federal Registry database.
            Your goal is to help users find information about federal documents, executive orders, rules, and notices.
            
            You have access to the following tools:
            1. search_documents - Search for documents with various filters
               Parameters: keywords, date_from, date_to, document_type, agency, topic, presidential_doc_type, executive_order, limit, offset
            2. get_recent_documents - Get the most recent documents
               Parameters: limit
            3. get_document_by_id - Get a specific document by ID
               Parameters: document_id
            4. get_document_types - Get all document types
            5. get_agencies - Get all agencies
            6. get_topics - Get all topics
            7. get_presidential_document_types - Get all presidential document types
            8. search_recent_executive_orders - Search for recent executive orders
               Parameters: days, limit
            9. search_documents_by_date_range - Search documents within a date range
               Parameters: start_date, end_date, limit
            10. search_by_agency_and_topic - Search documents by agency and topic
                Parameters: agency, topic, limit

            To use a tool, format your tool call as follows:
            ```json
            {
                " ++ Q ++ "name" ++ Q ++ ": " ++ Q ++ "tool_name" ++ Q ++ ",
                " ++ Q ++ "parameters" ++ Q ++ ": {
                    " ++ Q ++ "param1" ++ Q ++ ": " ++ Q ++ "value1" ++ Q ++ ",
                    " ++ Q ++ "param2" ++ Q ++ ": " ++ Q ++ "value2" ++ Q ++ "
                }
            }
            ```

            Examples:
            1. To search documents from a specific date:
            ```json
            {
                " ++ Q ++ "name" ++ Q ++ ": " ++ Q ++ "search_documents" ++ Q ++ ",
                " ++ Q ++ "parameters" ++ Q ++ ": {
                    " ++ Q ++ "date_from" ++ Q ++ ": " ++ Q ++ "2025-01-01" ++ Q ++ ",
                    " ++ Q ++ "date_to" ++ Q ++ ": " ++ Q ++ "2025-01-31" ++ Q ++ "
                }
            }
            ```

            2. To search recent executive orders:
            ```json
            {
                " ++ Q ++ "name" ++ Q ++ ": " ++ Q ++ "search_recent_executive_orders" ++ Q ++ ",
                " ++ Q ++ "parameters" ++ Q ++ ": {
                    " ++ Q ++ "days" ++ Q ++ ": 30,
                    " ++ Q ++ "limit" ++ Q ++ ": 10
                }
            }
            ```

            Always use these exact tool names and parameters. Do not invent new tool names.
            The current date is ".

Definition system_prompt_tail : string :=
  ".
            ".

Definition system_message (today : string) : value :=
  message "system" (VStr (system_prompt_head ++ today ++ system_prompt_tail)).

Definition apology : string :=
  "I'm sorry, but I encountered an error while processing your request. Please try again later.".

(** [chat_id in self.chat_history]: list membership compares the id, a
    str or None, with every element. *)
Definition eq_chat_id (chat_id : option string) (m : value) : bool :=
  match chat_id, m with
  | Some c, VStr s => String.eqb c s
  | None, VNone => true
  | _, _ => false
  end.

Definition chat_id_in (chat_id : option string) (h : list value) : bool :=
  existsb (eq_chat_id chat_id) h.

(** The chained lookup [response.get('message', {}).get('content', '')]. *)
Definition reply_content (response : value) : outcome value :=
  match method_get response "message" (VDict []) with
  | Return msg => method_get msg "content" (VStr EmptyString)
  | Raise e => Raise e
  end.

Definition tool_results_message `{Python} (tool_results : list value) : value :=
  message "system" (VStr ("Tool call results: " ++ json_dumps (VList tool_results))).

(** The branch [if tool_calls:] of [process_message]. *)
Definition answer_with_tools `{Python} `{Platform}
  (messages : list value) (model_response : value) (tool_calls : list value)
  : M value :=
  tool_results <- run_tool_calls tool_calls ;;
  append_history (message "assistant" model_response) ;;;
  append_history (tool_results_message tool_results) ;;;
  final_response <-
    _ollama_chat_completion
      (messages ++ [ message "assistant" model_response;
                     tool_results_message tool_results ]) ;;
  assistant_message <- lift (reply_content final_response) ;;
  append_history (message "assistant" assistant_message) ;;;
  ret assistant_message.

(** The body of the [try] of [process_message]. *)
Definition try_block `{Python} `{Platform} (messages : list value) : M value :=
  response <- _ollama_chat_completion messages ;;
  model_response <- lift (reply_content response) ;;
  tool_calls <- lift (_extract_tool_calls model_response) ;;
  if truthy (VList tool_calls)
  then answer_with_tools messages model_response tool_calls
  else
    append_history (message "assistant" model_response) ;;;
    ret model_response.

Definition process_message `{Python} `{Platform}
  (user_text : string) (chat_id : option string) : M value :=
  h <- get_history ;;
  (if negb (chat_id_in chat_id h) then set_history [] else ret tt) ;;;
  today <- call_world now_strftime ;;
  append_history (message "user" (VStr user_text)) ;;;
  h <- get_history ;;
  let messages := system_message today :: h in
  try_except (try_block messages) (fun e => ret (VStr apology)).

Definition reset_chat `{Platform} : M unit := set_history [].

(** A new agent, as [__init__] leaves it. *)
Definition new_agent `{Platform} (w : World) : agent := Agent _ [] w [].

(** ** database/db_manager.py *)

Module DatabaseManager.

Definition select_documents : string :=
  "
            SELECT DISTINCT d.*
            FROM documents d
            LEFT JOIN document_agencies da ON d.id = da.document_id
            LEFT JOIN agencies a ON da.agency_id = a.id
            LEFT JOIN document_topics dt ON d.id = dt.document_id
            LEFT JOIN topics t ON dt.topic_id = t.id
            WHERE 1=1
        ".

(** [search_documents(query_params)] up to the execution of the query:
    the filters present in [query_params] become conditions of the
    WHERE clause, in this order. *)
Definition search_documents `{Python} `{Platform} (query_params : dict)
  : IO value :=
  call_pool <- db_ensure_pool ;;
  let sql := select_documents in
  let params : list value := [] in
  let '(sql, params) :=
    if truthy (py_get "date_from" VNone query_params)
    then (sql ++ " AND d.publication_date >= %s",
          (params ++ [py_get "date_from" VNone query_params])%list)
    else (sql, params) in
  let '(sql, params) :=
    if truthy (py_get "date_to" VNone query_params)
    then (sql ++ " AND d.publication_date <= %s",
          (params ++ [py_get "date_to" VNone query_params])%list)
    else (sql, params) in
  let '(sql, params) :=
    if truthy (py_get "document_type" VNone query_params)
    then (sql ++ " AND d.document_type = %s",
          (params ++ [py_get "document_type" VNone query_params])%list)
    else (sql, params) in
  let '(sql, params) :=
    if truthy (py_get "agency" VNone query_params)
    then (sql ++ " AND a.agency_name LIKE %s",
          (params ++ [VStr ("%" ++ py_str (py_get "agency" VNone query_params) ++ "%")])%list)
    else (sql, params) in
  let '(sql, params) :=
    if truthy (py_get "topic" VNone query_params)
    then (sql ++ " AND t.topic_name LIKE %s",
          (params ++ [VStr ("%" ++ py_str (py_get "topic" VNone query_params) ++ "%")])%list)
    else (sql, params) in
  let '(sql, params) :=
    if truthy (py_get "presidential_doc_type" VNone query_params)
    then (sql ++ " AND d.presidential_document_type LIKE %s",
          (params ++ [VStr ("%" ++ py_str (py_get "presidential_doc_type" VNone query_params) ++ "%")])%list)
    else (sql, params) in
  let '(sql, params) :=
    if truthy (py_get "keywords" VNone query_params)
    then
      let keywords := py_get "keywords" VNone query_params in
      (sql ++ " AND (d.title LIKE %s OR d.abstract LIKE %s)",
       (params ++ [VStr ("%" ++ py_str keywords ++ "%");
                  VStr ("%" ++ py_str keywords ++ "%")])%list)
    else (sql, params) in
  let '(sql, params) :=
    if truthy (py_get "executive_order" VNone query_params)
    then (sql ++ " AND d.executive_order_number = %s",
          (params ++ [py_get "executive_order" VNone query_params])%list)
    else (sql, params) in
  let sql := sql ++ " ORDER BY d.publication_date DESC" in
  limit <- lift (py_int (py_get "limit" (VInt 10) query_params)) ;;
  offset <- lift (py_int (py_get "offset" (VInt 0) query_params)) ;;
  let sql := sql ++ " LIMIT %s OFFSET %s" in
  let params := (params ++ [VInt limit; VInt offset])%list in
  db_fetch_documents sql params.

(** [get_recent_documents(limit)] *)
Definition get_recent_documents `{Python} `{Platform} (limit : value)
  : IO value :=
  search_documents [("limit", limit); ("offset", VInt 0)].

End DatabaseManager.

(** ** agent/tools.py *)

Module FederalRegistryTools.

Definition is_not_None (v : value) : bool :=
  match v with VNone => false | _ => true end.

Definition search_documents `{Python} `{Platform}
  (keywords date_from date_to document_type agency topic
   presidential_doc_type executive_order limit offset : value) : IO value :=
  let query_params : dict :=
    [ ("keywords", keywords);
      ("date_from", date_from);
      ("date_to", date_to);
      ("document_type", document_type);
      ("agency", agency);
      ("topic", topic);
      ("presidential_doc_type", presidential_doc_type);
      ("executive_order", executive_order);
      ("limit", limit);
      ("offset", offset) ] in
  let query_params := filter (fun kv => is_not_None (snd kv)) query_params in
  try_except
    (documents <- DatabaseManager.search_documents query_params ;;
     ret documents)
    (fun e => ret (VList [])).


(** [get_recent_documents(limit)] *)
Definition get_recent_documents `{Python} `{Platform} (limit : value)
  : IO value :=
  try_except
    (DatabaseManager.get_recent_documents limit)
    (fun e => ret (VList [])).

(** [search_documents_by_date_range(start_date, end_date, limit)] *)
Definition search_documents_by_date_range `{Python} `{Platform}
  (start_date end_date limit : value) : IO value :=
  search_documents VNone start_date end_date VNone VNone VNone VNone VNone
    limit (VInt 0).

(** [search_by_agency_and_topic(agency, topic, limit)] *)
Definition search_by_agency_and_topic `{Python} `{Platform}
  (agency topic limit : value) : IO value :=
  search_documents VNone VNone VNone VNone agency topic VNone VNone
    limit (VInt 0).

End FederalRegistryTools.

(** ** api/main.py *)

(** [SearchResponse(response=v)], the validation of the response model
    with its one field of type str: a str is taken as it is; what
    pydantic does with another value (conversion or ValidationError)
    depends on its version and is left open. *)
Class Pydantic : Type := {
  validate_str : value -> outcome string
}.

Module Api.

(** What the endpoint gives back: the response model, or the
    HTTPException it raises. *)
Inductive result : Type :=
| SearchResponse (response : string)
| HTTPException (status_code : Z) (detail : string).

Definition make_response `{Pydantic} (v : value) : outcome string :=
  match v with
  | VStr s => Return s
  | _ => validate_str v
  end.

(** [sub in s] for two strs *)
Fixpoint str_contains (sub s : string) : bool :=
  match strip_prefix sub s with
  | Some _ => true
  | None =>
      match s with
      | EmptyString => false
      | String _ s' => str_contains sub s'
      end
  end.

(** [k in container] for a str [k]: a key of a dict, an element of a
    list, a part of a str; TypeError on a value that is not
    iterable. *)
Definition py_in (k : string) (container : value) : outcome bool :=
  match container with
  | VDict d => Return (dict_has k d)
  | VList l =>
      Return (existsb (fun x => match x with
                                | VStr s => String.eqb k s
                                | _ => false
                                end) l)
  | VStr s => Return (str_contains k s)
  | _ => Raise (TypeError "argument is not iterable")
  end.

(** The test ['message' in response and 'content' in response['message']]
    on a dict. *)
Definition has_message_content (response : value) (d : dict) : outcome bool :=
  if dict_has "message" d then
    match getitem response "message" with
    | Return m => py_in "content" m
    | Raise e => Raise e
    end
  else Return false.

(** The body of the [try] of [search]. *)
Definition search_body `{Python} `{Platform} `{Pydantic}
  (query : string) (chat_id : option string) : M string :=
  response <- process_message query chat_id ;;
  match response with
  | VDict d =>
      nested <- lift (has_message_content response d) ;;
      if nested then
        m <- lift (getitem response "message") ;;
        content <- lift (getitem m "content") ;;
        lift (make_response content)
      else if dict_has "content" d then
        content <- lift (getitem response "content") ;;
        lift (make_response content)
      else lift (make_response (VStr (py_str response)))
  | VStr _ => lift (make_response response)
  | _ => lift (make_response (VStr (py_str response)))
  end.

(** [search(request)] with [request.query] and [request.chat_id]. *)
Definition search `{Python} `{Platform} `{Pydantic}
  (query : string) (chat_id : option string) (s : agent) : result * agent :=
  match search_body query chat_id s with
  | (Return response, s') => (SearchResponse response, s')
  | (Raise e, s') => (HTTPException 500 (exn_msg e), s')
  end.

End Api.

(** ** A concrete runtime and a scripted world, to run the agent *)

Definition Z_to_string (z : Z) : string := NilZero.string_of_int (Z.to_int z).

(** A JSON string literal as [json.dumps] writes it (ensure_ascii). *)
Definition hex_char (n : nat) : ascii :=
  if (n <? 10)%nat then ascii_of_nat (48 + n) else ascii_of_nat (87 + n).

Fixpoint escape_chars (s : string) : string :=
  match s with
  | EmptyString => EmptyString
  | String c s' =>
      let n := nat_of_ascii c in
      if Ascii.eqb c dquote then String backslash (String dquote (escape_chars s'))
      else if Ascii.eqb c backslash
      then String backslash (String backslash (escape_chars s'))
      else if (n =? 10)%nat then String backslash (String "n" (escape_chars s'))
      else if (n =? 13)%nat then String backslash (String "r" (escape_chars s'))
      else if (n =? 9)%nat then String backslash (String "t" (escape_chars s'))
      else if (n =? 8)%nat then String backslash (String "b" (escape_chars s'))
      else if (n =? 12)%nat then String backslash (String "f" (escape_chars s'))
      else if ((n <? 32) || (126 <? n))%nat
      then String backslash
             (String "u" (String "0" (String "0"
                (String (hex_char (n / 16)) (String (hex_char (n mod 16))
                   (escape_chars s'))))))
      else String c (escape_chars s')
  end.

Definition dumps_string (s : string) : string := Q ++ escape_chars s ++ Q.

(** [json.dumps] with the default separators; a float is written as
    the literal it was read from. *)
Fixpoint dumps (v : value) : string :=
  match v with
  | VNone => "null"
  | VBool true => "true"
  | VBool false => "false"
  | VInt z => Z_to_string z
  | VFloat lit => lit
  | VStr s => dumps_string s
  | VList l =>
      "[" ++
      (fix items (l : list value) : string :=
         match l with
         | [] => EmptyString
         | [x] => dumps x
         | x :: l' => dumps x ++ ", " ++ items l'
         end) l ++ "]"
  | VDict d =>
      "{" ++
      (fix items (d : list (string * value)) : string :=
         match d with
         | [] => EmptyString
         | [(k, x)] => dumps_string k ++ ": " ++ dumps x
         | (k, x) :: d' => dumps_string k ++ ": " ++ dumps x ++ ", " ++ items d'
         end) d ++ "}"
  end.

(** [str(v)] for the values of the examples: None, bools and ints are
    exact; the other cases only stand in for Python's repr. *)
Definition repr_simple (v : value) : string :=
  match v with
  | VNone => "None"
  | VBool true => "True"
  | VBool false => "False"
  | VInt z => Z_to_string z
  | VFloat lit => lit
  | _ => dumps v
  end.

Definition text_python : Python := {|
  json_loads := json_loads_text;
  json_dumps := dumps;
  py_repr := repr_simple;
  py_int_conv := fun _ => Raise (TypeError "int() argument")
|}.

(** A world that follows a script: the replies of the model server in
    the order of the requests, one behaviour for every tool, one for
    the database, and the date. *)
Record script : Type := Script {
  today_is : Z;
  replies : list (outcome value);
  tool_behaviour : value -> outcome value;
  rows : outcome value
}.

Definition ConnectionError : exn := Exn "ClientConnectorError" "Cannot connect to host".

Definition next_reply (endpoint : string) (payload : value) (w : script)
  : outcome value * script :=
  match replies w with
  | [] => (Raise ConnectionError, w)
  | r :: rest => (r, Script (today_is w) rest (tool_behaviour w) (rows w))
  end.

Definition scripted_tool (parameters : value) (w : script)
  : outcome value * script :=
  (tool_behaviour w parameters, w).

Definition scripted : Platform := {|
  World := script;
  now_ordinal := today_is;
  http_post_json := next_reply;
  OLLAMA_BASE_URL := "http://localhost:11434";
  OLLAMA_MODEL := "llama3";
  tool_search_documents := scripted_tool;
  tool_get_recent_documents := scripted_tool;
  tool_get_document_by_id := scripted_tool;
  tool_get_document_types := scripted_tool;
  tool_get_agencies := scripted_tool;
  tool_get_topics := scripted_tool;
  tool_get_presidential_document_types := scripted_tool;
  tool_search_recent_executive_orders := scripted_tool;
  tool_search_documents_by_date_range := scripted_tool;
  tool_search_by_agency_and_topic := scripted_tool;
  db_ensure_pool := fun w => (Return tt, w);
  db_fetch_documents := fun sql params w => (rows w, w)
|}.

(** The reply of the model server with the given content. *)
Definition reply (content : value) : outcome value :=
  Return (VDict [("message", VDict [("role", VStr "assistant");
                                     ("content", content)])]).

(** A fenced block as the model writes it. *)
Definition fenced (body : string) : string :=
  fence_open ++ body ++ fence_close.

(** ** Notions used to state the properties *)

(** No occurrence of [fence] starts inside [s], not even one that the
    fence following [s] would complete. *)
Fixpoint free_of (fence s : string) : bool :=
  match s with
  | EmptyString => true
  | String c s' =>
      match strip_prefix fence (s ++ fence) with
      | Some _ => false
      | None => free_of fence s'
      end
  end.

Fixpoint all_space (s : string) : bool :=
  match s with
  | EmptyString => true
  | String c s' => is_space c && all_space s'
  end.

(** A text without its leading, its trailing, its surrounding
    whitespace. *)
Fixpoint lstrip (s : string) : string :=
  match s with
  | String c s' => if is_space c then lstrip s' else s
  | EmptyString => s
  end.

Fixpoint rstrip (s : string) : string :=
  match s with
  | String c s' => if all_space s then EmptyString else String c (rstrip s')
  | EmptyString => s
  end.

Definition strip (s : string) : string := rstrip (lstrip s).

(** A reply made of fenced blocks with prose around them: the prose
    before the first block, then every block with the prose after it. *)
Fixpoint assemble (prose : string) (blocks : list (string * string)) : string :=
  match blocks with
  | [] => prose
  | (body, after) :: rest => prose ++ fenced body ++ assemble after rest
  end.

(** The fences are exactly the delimiters of the blocks: no closing
    fence starts inside the content of a block, no opening fence inside
    the prose. *)
Definition clean_blocks (blocks : list (string * string)) : Prop :=
  Forall (fun bg => free_of fence_close (fst bg) = true
                    /\ free_of fence_open (snd bg) = true)
         blocks.

(** What may follow a stretch of prose: the end of the text or the
    opening fence of a block. *)
Definition fence_or_end (X : string) : Prop :=
  X = EmptyString \/ exists Z, X = fence_open ++ Z.




(** The wire format in the words of the specification: an object with
    exactly the two fields name, a text, and parameters, an object. *)
Definition is_wire_format (v : value) : bool :=
  match v with
  | VDict d =>
      (List.length d =? 2)%nat
      && match dict_get "name" d with Some (VStr _) => true | _ => false end
      && match dict_get "parameters" d with Some (VDict _) => true | _ => false end
  | _ => false
  end.


(** A non-empty list whose first element is a mapping with the key
    document_number. *)
Definition looks_like_documents (result : value) : Prop :=
  exists d rest,
    result = VList (VDict d :: rest) /\ dict_has "document_number" d = true.

Definition required_fields : list string :=
  ["id"; "document_number"; "document_type"; "title"; "publication_date";
   "abstract"].

Definition summary_fields : list string :=
  required_fields ++
  ["presidential_document_type"; "executive_order_number"; "agencies"; "topics"].

(** The history a turn starts from, with the user message appended,
    the prompt of the first completion, and the agent at that point. *)
Definition turn_history (user_text : string) (chat_id : option string)
  (h : list value) : list value :=
  (if chat_id_in chat_id h then h else []) ++ [message "user" (VStr user_text)].

Definition turn_messages `{Platform}
  (user_text : string) (chat_id : option string) (s : agent) : list value :=
  system_message (strftime_ymd (now_ordinal (world s)))
  :: turn_history user_text chat_id (chat_history s).

Definition start_turn `{Platform}
  (user_text : string) (chat_id : option string) (s : agent) : agent :=
  Agent _ (turn_history user_text chat_id (chat_history s)) (world s) (gateway_log s).

Definition failed (c : gateway_call) : bool :=
  match received c with Raise _ => true | Return _ => false end.



(** ** Notions of the dispatcher and of a turn *)

Section Notions.
Context `{Python} `{Platform}.

Definition with_world (s : agent) (w : World) : agent :=
  Agent _ (chat_history s) w (gateway_log s).

(** What [_execute_tool] returns for a registered tool whose handler
    returned [result]. *)
Definition stored_result (tool_name result : value) : value :=
  if is_document_list result then
    match result with
    | VList docs =>
        match simplify_documents docs with
        | Return simplified => VList simplified
        | Raise e =>
            error_payload
              ("Error executing tool " ++ py_str tool_name ++ ": " ++ exn_msg e)
        end
    | _ => result
    end
  else result.

(** The payload stored for one request, and the world after it. *)
Inductive tool_result_of (w : World) (tool_name parameters : value)
  : value -> World -> Prop :=
| result_not_found :
    lookup_tool tool_name = Return None ->
    tool_result_of w tool_name parameters
      (error_payload ("Tool not found: " ++ py_str tool_name)) w
| result_returned (tool_func : handler) (result : value) (w' : World) :
    lookup_tool tool_name = Return (Some tool_func) ->
    tool_func parameters w = (Return result, w') ->
    tool_result_of w tool_name parameters (stored_result tool_name result) w'
| result_raised (tool_func : handler) (e : exn) (w' : World) :
    lookup_tool tool_name = Return (Some tool_func) ->
    tool_func parameters w = (Raise e, w') ->
    tool_result_of w tool_name parameters
      (error_payload
         ("Error executing tool " ++ py_str tool_name ++ ": " ++ exn_msg e))
      w'.

(** The requests are served one after the other, each in the world
    the one before it left, and each gets one result. *)
Inductive dispatched : World -> list value -> list value -> World -> Prop :=
| dispatched_nil (w : World) : dispatched w [] [] w
| dispatched_cons (w w1 w2 : World) (d : dict) (payload : value)
    (rest results : list value) :
    tool_result_of w (py_get "name" VNone d)
      (py_get "parameters" (VDict []) d) payload w1 ->
    dispatched w1 rest results w2 ->
    dispatched w (VDict d :: rest)
      (VDict [ ("tool_name", py_get "name" VNone d);
               ("parameters", py_get "parameters" (VDict []) d);
               ("result", payload) ] :: results)
      w2.

Definition hashable_request (tool_call : value) : Prop :=
  exists d, tool_call = VDict d /\ hashable (py_get "name" VNone d) = true.

(** The ways through the [try] block: what it returns or raises, the
    agent it leaves and the gateway calls it makes. *)
Inductive try_block_run (messages : list value) (s : agent)
  : outcome value -> agent -> list gateway_call -> Prop :=
| first_call_failed (e : exn) (w1 : World) :
    try_block_run messages s (Raise e)
      (Agent _ (chat_history s) w1
         (gateway_log s ++ [GatewayCall messages (Raise e)]))
      [GatewayCall messages (Raise e)]
| first_reply_unusable (response : value) (e : exn) (w1 : World) :
    (reply_content response = Raise e
     \/ exists model_response,
          reply_content response = Return model_response
          /\ _extract_tool_calls model_response = Raise e) ->
    try_block_run messages s (Raise e)
      (Agent _ (chat_history s) w1
         (gateway_log s ++ [GatewayCall messages (Return response)]))
      [GatewayCall messages (Return response)]
| no_tool_calls (response : value) (text : string) (w1 : World) :
    reply_content response = Return (VStr text) ->
    _extract_tool_calls (VStr text) = Return [] ->
    try_block_run messages s (Return (VStr text))
      (Agent _ (chat_history s ++ [message "assistant" (VStr text)]) w1
         (gateway_log s ++ [GatewayCall messages (Return response)]))
      [GatewayCall messages (Return response)]
| dispatch_raised (response : value) (text : string)
    (tool_calls : list value) (e : exn) (w1 w2 : World) :
    reply_content response = Return (VStr text) ->
    _extract_tool_calls (VStr text) = Return tool_calls ->
    tool_calls <> [] ->
    fst (run_tool_calls tool_calls
           (Agent _ (chat_history s) w1
              (gateway_log s ++ [GatewayCall messages (Return response)])))
    = Raise e ->
    try_block_run messages s (Raise e)
      (Agent _ (chat_history s) w2
         (gateway_log s ++ [GatewayCall messages (Return response)]))
      [GatewayCall messages (Return response)]
| second_call_failed (response : value) (text : string)
    (tool_calls tool_results : list value) (e : exn) (w1 w3 : World) :
    reply_content response = Return (VStr text) ->
    _extract_tool_calls (VStr text) = Return tool_calls ->
    tool_calls <> [] ->
    fst (run_tool_calls tool_calls
           (Agent _ (chat_history s) w1
              (gateway_log s ++ [GatewayCall messages (Return response)])))
    = Return tool_results ->
    let synthesis :=
      [message "assistant" (VStr text); tool_results_message tool_results] in
    try_block_run messages s (Raise e)
      (Agent _ (chat_history s ++ synthesis) w3
         (gateway_log s ++ [GatewayCall messages (Return response);
                            GatewayCall (messages ++ synthesis) (Raise e)]))
      [GatewayCall messages (Return response);
       GatewayCall (messages ++ synthesis) (Raise e)]
| second_reply_unusable (response final : value) (text : string)
    (tool_calls tool_results : list value) (e : exn) (w1 w3 : World) :
    reply_content response = Return (VStr text) ->
    _extract_tool_calls (VStr text) = Return tool_calls ->
    tool_calls <> [] ->
    fst (run_tool_calls tool_calls
           (Agent _ (chat_history s) w1
              (gateway_log s ++ [GatewayCall messages (Return response)])))
    = Return tool_results ->
    reply_content final = Raise e ->
    let synthesis :=
      [message "assistant" (VStr text); tool_results_message tool_results] in
    try_block_run messages s (Raise e)
      (Agent _ (chat_history s ++ synthesis) w3
         (gateway_log s ++ [GatewayCall messages (Return response);
                            GatewayCall (messages ++ synthesis) (Return final)]))
      [GatewayCall messages (Return response);
       GatewayCall (messages ++ synthesis) (Return final)]
| second_call_answered (response final answer : value) (text : string)
    (tool_calls tool_results : list value) (w1 w3 : World) :
    reply_content response = Return (VStr text) ->
    _extract_tool_calls (VStr text) = Return tool_calls ->
    tool_calls <> [] ->
    fst (run_tool_calls tool_calls
           (Agent _ (chat_history s) w1
              (gateway_log s ++ [GatewayCall messages (Return response)])))
    = Return tool_results ->
    reply_content final = Return answer ->
    let synthesis :=
      [message "assistant" (VStr text); tool_results_message tool_results] in
    try_block_run messages s (Return answer)
      (Agent _ (chat_history s ++ synthesis ++ [message "assistant" answer]) w3
         (gateway_log s ++ [GatewayCall messages (Return response);
                            GatewayCall (messages ++ synthesis) (Return final)]))
      [GatewayCall messages (Return response);
       GatewayCall (messages ++ synthesis) (Return final)].

(** What the caller gets from the outcome of the [try] block. *)
Definition answer_of (o : outcome value) : value :=
  match o with Return v => v | Raise _ => VStr apology end.

End Notions.

(** The history holds message dicts only. *)
Definition all_dicts (h : list value) : Prop :=
  Forall (fun m => is_dict m = true) h.



(** ** Scenarios *)

Definition quoted (s : string) : string := Q ++ s ++ Q.

(** The text of a request object with the given name and parameters,
    both as JSON texts. *)
Definition call_text (name_json parameters_json : string) : string :=
  "{" ++ quoted "name" ++ ": " ++ name_json ++ ", "
  ++ quoted "parameters" ++ ": " ++ parameters_json ++ "}".

Definition get_topics_call : string := call_text (quoted "get_topics") "{}".

Definition translate_call : string := call_text (quoted "translate") "{}".

(** A request whose name is a list. *)
Definition list_name_call : string := call_text "[]" "{}".

(** An object with a number as name, a list as parameters and a third
    key. *)
Definition loose_call : string :=
  "{" ++ quoted "name" ++ ": 5, " ++ quoted "parameters" ++ ": [], "
  ++ quoted "extra" ++ ": true}".

(** The world on 2025-01-01, with the replies of the model server and
    the behaviour of the tools. *)
Definition january (rs : list (outcome value))
  (tools : value -> outcome value) : script :=
  Script 739252 rs tools (Return (VList [])).

Definition topics_tool (parameters : value) : outcome value :=
  Return (VList [VStr "Energy"; VStr "Trade"]).

Definition fresh_agent (w : script) : @agent scripted := @new_agent scripted w.

Definition run (user_text : string) (chat_id : option string)
  (s : @agent scripted) : outcome value * @agent scripted :=
  @process_message text_python scripted user_text chat_id s.


(** The model asks for a tool, and its second reply has no text. *)
Definition null_content_turn : outcome value * @agent scripted :=
  run "Which topics exist?" None
    (fresh_agent
       (january [reply (VStr (fenced get_topics_call)); reply VNone]
          topics_tool)).

(** The model asks for a tool, and the server is gone for the second
    call. *)
Definition second_call_fails_turn : outcome value * @agent scripted :=
  run "Which topics exist?" None
    (fresh_agent
       (january [reply (VStr (fenced get_topics_call))] topics_tool)).

(** The model asks for a tool and then for one whose name is a list. *)
Definition list_name_reply : string :=
  "First " ++ fenced get_topics_call ++ " then " ++ fenced list_name_call.

Definition list_name_turn : outcome value * @agent scripted :=
  run "Which topics exist?" None
    (fresh_agent
       (january [reply (VStr list_name_reply); reply (VStr "Done.")]
          topics_tool)).

(** Two turns of one session. *)
Definition two_turns_world : script :=
  january [reply (VStr "Paris."); reply (VStr "About two million.")]
    topics_tool.

Definition first_turn : outcome value * @agent scripted :=
  run "What is the capital of France?" (Some "s1") (fresh_agent two_turns_world).

Definition second_turn : outcome value * @agent scripted :=
  run "How many people live there?" (Some "s1") (snd first_turn).

(** A reply with two well-formed blocks and a malformed one between
    them. *)
Definition mixed_blocks : list (string * string) :=
  [ (get_topics_call, " and `this`: ");
    ("{not json", " and ");
    (translate_call, " at last.") ].



(** Two records: one with fields outside a summary, one empty. *)
Definition sample_records : list dict :=
  [ [ ("document_number", VStr "2025-00001");
      ("title", VStr "Order");
      ("html_url", VStr "u");
      ("presidential_document_type", VStr "Executive Order");
      ("agencies", VList []) ];
    [] ].

(** ** Tactics *)

(** The ten lookups a summary is built from. *)
Ltac name_fields doc :=
  generalize (py_get "id" VNone doc)
             (py_get "document_number" VNone doc)
             (py_get "document_type" VNone doc)
             (py_get "title" VNone doc)
             (py_get "publication_date" VNone doc)
             (py_get "abstract" VNone doc)
             (py_get "presidential_document_type" VNone doc)
             (py_get "executive_order_number" VNone doc)
             (py_get "agencies" VNone doc)
             (py_get "topics" VNone doc)
             (dict_has "agencies" doc)
             (dict_has "topics" doc);
  intros v_id v_number v_type v_title v_date v_abstract v_pdt v_eon
         v_agencies v_topics has_agencies has_topics.

(** ** data_pipeline/processor.py *)

(** The files and the clock of the pipeline.  A call takes the state of
    the disk and returns the next one. *)
Class Files : Type := {
  Disk : Type;
  (** [async with aiofiles.open(path, 'r') as f: await f.read()] *)
  read_text : string -> Disk -> outcome string * Disk;
  (** [async with aiofiles.open(path, 'w') as f: await f.write(text)] *)
  write_text : string -> string -> Disk -> outcome unit * Disk;
  (** [datetime.now().isoformat()] *)
  now_isoformat : Disk -> outcome string * Disk;
  (** [os.path.basename(path)], [os.path.join(directory, name)] *)
  basename : string -> string;
  path_join : string -> string -> string;
  (** [json.dumps(v, indent=2)] *)
  json_dumps_indent : value -> string;
  (** [config.PROCESSED_DATA_DIR] *)
  PROCESSED_DATA_DIR : string
}.

Module FederalRegistryProcessor.

(** ** The regular expressions of [_clean_text]

    Texts are strings of characters below 256, and the classes [\w]
    and [\s] are those of a str pattern on these characters. *)

(** [re.sub(pattern, repl, text)] for a pattern that matches no empty
    text, given by [match_here]: the rest of the text after a match at
    its start, if there is one.  The text is scanned from the left; a
    match is replaced and the scan goes on after it, a character where
    no match starts is kept. *)
Fixpoint sub_from (match_here : string -> option string) (repl : string)
  (fuel : nat) (s : string) : string :=
  match fuel with
  | O => s
  | S fuel' =>
      match match_here s with
      | Some rest => repl ++ sub_from match_here repl fuel' rest
      | None =>
          match s with
          | EmptyString => EmptyString
          | String c s' => String c (sub_from match_here repl fuel' s')
          end
      end
  end.

Definition re_sub (match_here : string -> option string) (repl s : string)
  : string :=
  sub_from match_here repl (S (String.length s)) s.

(** The tail of the pattern of a tag: characters other than the
    greater-than sign, as many as there are, and a greater-than sign.
    When the text ends first, no shorter run helps. *)
Fixpoint tag_end (s : string) : option string :=
  match s with
  | EmptyString => None
  | String c s' => if Ascii.eqb c ">" then Some s' else tag_end s'
  end.

(** The pattern of a tag: a less-than sign, one or more characters
    other than the greater-than sign, a greater-than sign. *)
Definition match_tag (s : string) : option string :=
  match s with
  | String c0 (String c1 s') =>
      if Ascii.eqb c0 "<" && negb (Ascii.eqb c1 ">") then tag_end s' else None
  | _ => None
  end.

(** The pattern [\s+]: one or more whitespace characters, as many as
    there are. *)
Definition match_spaces (s : string) : option string :=
  match s with
  | String c s' => if is_space c then Some (lstrip s') else None
  | EmptyString => None
  end.

(** [\w] for characters below 256: digits, letters, the underscore,
    and the letters and numbers of Latin-1. *)
Definition is_word (c : ascii) : bool :=
  let n := nat_of_ascii c in
  ((48 <=? n) && (n <=? 57) || (65 <=? n) && (n <=? 90) || (n =? 95)
   || (97 <=? n) && (n <=? 122) || (n =? 170) || (178 <=? n) && (n <=? 179)
   || (n =? 181) || (185 <=? n) && (n <=? 186) || (188 <=? n) && (n <=? 190)
   || (192 <=? n) && (n <=? 214) || (216 <=? n) && (n <=? 246)
   || (248 <=? n) && (n <=? 255))%nat.

(** The punctuation the last pattern keeps: . , ; : ! ? - *)
Definition is_punctuation (c : ascii) : bool :=
  let n := nat_of_ascii c in
  ((n =? 46) || (n =? 44) || (n =? 59) || (n =? 58) || (n =? 33)
   || (n =? 63) || (n =? 45))%nat.

(** The pattern of a special character: one character that is neither
    a word character nor whitespace nor kept punctuation. *)
Definition is_special (c : ascii) : bool :=
  negb (is_word c || is_space c || is_punctuation c).

Definition match_special (s : string) : option string :=
  match s with
  | String c s' => if is_special c then Some s' else None
  | EmptyString => None
  end.

(** [text.split()]: the maximal runs of characters that are not
    whitespace; [word] is the run read so far. *)
Fixpoint split_from (word s : string) : list string :=
  match s with
  | EmptyString =>
      match word with EmptyString => [] | _ => [word] end
  | String c s' =>
      if is_space c then
        match word with
        | EmptyString => split_from EmptyString s'
        | _ => word :: split_from EmptyString s'
        end
      else split_from (word ++ String c EmptyString) s'
  end.

Definition split (s : string) : list string := split_from EmptyString s.

(** [_clean_text(text)] *)
Definition _clean_text (text : value) : outcome string :=
  if negb (truthy text) then Return EmptyString
  else
    match text with
    | VStr text =>
        let text := re_sub match_tag " " text in
        let text := re_sub match_spaces " " text in
        let text := re_sub match_special " " text in
        let text := String.concat " " (split text) in
        Return (strip text)
    | _ => Raise (TypeError "expected string or bytes-like object")
    end.

(** ** [process_data] *)

(** [for x in v]: the elements of a list, the keys of a dict, the
    characters of a str; TypeError on another value. *)
Definition py_iter (v : value) : outcome (list value) :=
  match v with
  | VList l => Return l
  | VDict d => Return (map VStr (keys d))
  | VStr s =>
      Return (map (fun c => VStr (String c EmptyString)) (list_ascii_of_string s))
  | _ => Raise (TypeError "object is not iterable")
  end.

(** [[agency.get('name') for agency in agencies]] *)
Fixpoint names_of (agencies : list value) : outcome (list value) :=
  match agencies with
  | [] => Return []
  | agency :: rest =>
      match method_get agency "name" VNone with
      | Return name =>
          match names_of rest with
          | Return names => Return (name :: names)
          | Raise e => Raise e
          end
      | Raise e => Raise e
      end
  end.

Definition agency_names (doc : dict) : outcome (list value) :=
  match py_iter (py_get "agencies" (VList []) doc) with
  | Return agencies => names_of agencies
  | Raise e => Raise e
  end.

(** The loop over the text fields: each one is replaced by its clean
    text, in the place it has in the dict. *)
Fixpoint clean_fields (fields : list string) (processed_doc : dict)
  : outcome dict :=
  match fields with
  | [] => Return processed_doc
  | field :: rest =>
      if dict_has field processed_doc then
        match getitem (VDict processed_doc) field with
        | Return text =>
            match _clean_text text with
            | Return clean =>
                clean_fields rest (dict_set field (VStr clean) processed_doc)
            | Raise e => Raise e
            end
        | Raise e => Raise e
        end
      else clean_fields rest processed_doc
  end.

(** The body of the [try] of the loop over the documents. *)
Definition process_doc `{Files} (doc : value) : St Disk value :=
  match doc with
  | VDict d =>
      agencies <- lift (agency_names d) ;;
      processed_at <- now_isoformat ;;
      let processed_doc : dict :=
        [ ("document_number", py_get "document_number" VNone d);
          ("publication_date", py_get "publication_date" VNone d);
          ("title", py_get "title" VNone d);
          ("type", py_get "type" VNone d);
          ("abstract", py_get "abstract" (VStr EmptyString) d);
          ("html_url", py_get "html_url" VNone d);
          ("pdf_url", py_get "pdf_url" VNone d);
          ("full_text_xml_url", py_get "full_text_xml_url" VNone d);
          ("agencies", VList agencies);
          ("docket_ids", py_get "docket_ids" (VList []) d);
          ("regulation_id_numbers", py_get "regulation_id_numbers" (VList []) d);
          ("comments_close_date", py_get "comments_close_date" VNone d);
          ("effective_date", py_get "effective_date" VNone d);
          ("citation", py_get "citation" VNone d);
          ("page_length", py_get "page_length" VNone d);
          ("start_page", py_get "start_page" VNone d);
          ("end_page", py_get "end_page" VNone d);
          ("raw_text", py_get "raw_text" (VStr EmptyString) d);
          ("processed_at", VStr processed_at) ] in
      processed_doc <- lift (clean_fields ["title"; "abstract"; "raw_text"]
                               processed_doc) ;;
      ret (VDict processed_doc)
  | _ => lift (Raise (AttributeError "object has no attribute 'get'"))
  end.

(** The loop over the documents: a document whose body raises is left
    out, after the handler has read its number for the log. *)
Fixpoint process_documents `{Files} (documents : list value)
  : St Disk (list value) :=
  match documents with
  | [] => ret []
  | doc :: rest =>
      processed <- try_except
                     (processed_doc <- process_doc doc ;;
                      ret (Some processed_doc))
                     (fun e =>
                        lift (method_get doc "document_number" VNone) ;;;
                        ret None) ;;
      processed_docs <- process_documents rest ;;
      ret (match processed with
           | Some processed_doc => processed_doc :: processed_docs
           | None => processed_docs
           end)
  end.

Definition JSONDecodeError : exn := Exn "JSONDecodeError" "Expecting value".

(** The body of the loop over the files: the path of the processed
    file, or None when nothing was written. *)
Definition process_path `{Python} `{Files} (file_path : string)
  : St Disk (option string) :=
  try_except
    (content <- read_text file_path ;;
     data <- lift (match json_loads content with
                   | Some data => Return data
                   | None => Raise JSONDecodeError
                   end) ;;
     results <- lift (method_get data "results" (VList [])) ;;
     documents <- lift (py_iter results) ;;
     processed_docs <- process_documents documents ;;
     match processed_docs with
     | [] => ret None
     | _ =>
         let file_name := basename file_path in
         let processed_file_path :=
           path_join PROCESSED_DATA_DIR ("processed_" ++ file_name) in
         write_text processed_file_path
           (json_dumps_indent (VList processed_docs)) ;;;
         ret (Some processed_file_path)
     end)
    (fun e => ret None).

(** [process_data(file_paths)] *)
Fixpoint process_data `{Python} `{Files} (file_paths : list string)
  : St Disk (list string) :=
  match file_paths with
  | [] => ret []
  | file_path :: rest =>
      processed <- process_path file_path ;;
      processed_file_paths <- process_data rest ;;
      ret (match processed with
           | Some processed_file_path => processed_file_path :: processed_file_paths
           | None => processed_file_paths
           end)
  end.

End FederalRegistryProcessor.

(** * More notions, for the further properties *)

(** ** agent/agent.py: requests, replies and reachable agents *)

(** The request [_ollama_chat_completion] posts. *)
Definition chat_endpoint `{Platform} : string := OLLAMA_BASE_URL ++ "/api/chat".

Definition chat_payload `{Platform} (messages : list value) : value :=
  VDict [ ("model", VStr OLLAMA_MODEL);
          ("messages", VList messages);
          ("stream", VBool false);
          ("options", VDict [ ("temperature", VFloat "0.7");
                              ("top_p", VFloat "0.9");
                              ("num_predict", VInt 1000) ]) ].

(** The text a completion yields to [process_message], when it yields
    one: the content of the message of the body, the empty text when
    the body is an object without a message or the message has no
    content. *)
Definition text_content (o : outcome value) : option string :=
  match o with
  | Return (VDict body) =>
      match dict_get "message" body with
      | None => Some EmptyString
      | Some (VDict msg) =>
          match py_get "content" (VStr EmptyString) msg with
          | VStr text => Some text
          | _ => None
          end
      | Some _ => None
      end
  | _ => None
  end.

(** No occurrence of [fence] anywhere in [s]. *)
Fixpoint lacks (fence s : string) : bool :=
  match strip_prefix fence s with
  | Some _ => false
  | None =>
      match s with
      | EmptyString => true
      | String _ s' => lacks fence s'
      end
  end.

(** The names of the registry. *)
Definition tool_names `{Platform} : list string := map fst available_tools.

Definition registered `{Platform} (tool_name : value) : Prop :=
  exists s, tool_name = VStr s /\ In s tool_names.

(** A message of the history: a dict with a role and a content, the
    role being one of the three the agent writes. *)
Definition is_message (m : value) : Prop :=
  exists role content,
    m = message role content /\ In role ["user"; "assistant"; "system"].

(** The agents a program can get: a new one, then any sequence of
    turns and resets, the world moving on in between. *)
Inductive reachable `{Python} `{Platform} : agent -> Prop :=
| reach_new (w : World) : reachable (new_agent w)
| reach_turn (s : agent) (user_text : string) (chat_id : option string) :
    reachable s -> reachable (snd (process_message user_text chat_id s))
| reach_reset (s : agent) : reachable s -> reachable (snd (reset_chat s))
| reach_world (s : agent) (w : World) : reachable s -> reachable (with_world s w).

(** ** More scenarios *)

(** A body of the model server with more than the message, and a
    message with more than the content. *)
Definition verbose_body : dict :=
  [ ("model", VStr "llama3");
    ("message", VDict [("content", VStr "Hi"); ("thinking", VStr "...")]);
    ("done", VBool true) ].

Definition verbose_agent : @agent scripted :=
  fresh_agent (january [Return (VDict verbose_body)] topics_tool).

(** A body without a message, as the server sends on an error. *)
Definition error_body : dict := [("error", VStr "model not found")].

Definition error_body_agent : @agent scripted :=
  fresh_agent (january [Return (VDict error_body)] topics_tool).

(** The content of the first reply is a number. *)
Definition number_content_agent : @agent scripted :=
  fresh_agent (january [reply (VInt 5)] topics_tool).

(** A handler result that starts with a document and holds a text. *)
Definition broken_documents : list value :=
  [ VDict [("document_number", VStr "2025-00001"); ("title", VStr "Order")];
    VStr "note" ].

Definition broken_documents_agent : @agent scripted :=
  fresh_agent (january [] (fun _ => Return (VList broken_documents))).

(** Two requests, the second for a tool that does not exist. *)
Definition two_requests : list value :=
  [ VDict [("name", VStr "get_topics"); ("parameters", VDict [])];
    VDict [("name", VStr "translate"); ("parameters", VDict [])] ].

(** ** database/db_manager.py and agent/tools.py: the query of a search *)

(** The number of placeholders of a query, and the number of its
    percent signs. *)
Fixpoint placeholders (sql : string) : nat :=
  match sql with
  | EmptyString => 0
  | String c rest =>
      match strip_prefix "%s" sql with
      | Some _ => S (placeholders rest)
      | None => placeholders rest
      end
  end.

Fixpoint percent_signs (sql : string) : nat :=
  match sql with
  | EmptyString => 0
  | String c rest =>
      if Ascii.eqb c "%" then S (percent_signs rest) else percent_signs rest
  end.

(** How the value of a filter becomes parameters of the query: as it
    is, or between two percent signs, once or twice. *)
Inductive param_form : Type := Exact | Contains | ContainsTwice.

(** The filters of a search in the order of their tests, each with its
    condition. *)
Definition filter_table : list (string * (string * param_form)) :=
  [ ("date_from", (" AND d.publication_date >= %s", Exact));
    ("date_to", (" AND d.publication_date <= %s", Exact));
    ("document_type", (" AND d.document_type = %s", Exact));
    ("agency", (" AND a.agency_name LIKE %s", Contains));
    ("topic", (" AND t.topic_name LIKE %s", Contains));
    ("presidential_doc_type",
     (" AND d.presidential_document_type LIKE %s", Contains));
    ("keywords", (" AND (d.title LIKE %s OR d.abstract LIKE %s)", ContainsTwice));
    ("executive_order", (" AND d.executive_order_number = %s", Exact)) ].

Definition filter_keys : list string := map fst filter_table.

Definition params_of `{Python} (form : param_form) (v : value) : list value :=
  match form with
  | Exact => [v]
  | Contains => [VStr ("%" ++ py_str v ++ "%")]
  | ContainsTwice =>
      [VStr ("%" ++ py_str v ++ "%"); VStr ("%" ++ py_str v ++ "%")]
  end.

(** The filters of [query_params] with a truthy value. *)
Definition active (query_params : dict) : list (string * (string * param_form)) :=
  filter (fun entry => truthy (py_get (fst entry) VNone query_params))
    filter_table.

Definition where_clause (query_params : dict) : string :=
  String.concat EmptyString (map (fun entry => fst (snd entry)) (active query_params)).

Definition where_params `{Python} (query_params : dict) : list value :=
  flat_map (fun entry =>
              params_of (snd (snd entry)) (py_get (fst entry) VNone query_params))
    (active query_params).

Definition order_limit : string :=
  " ORDER BY d.publication_date DESC LIMIT %s OFFSET %s".

(** An argument of a search as the query sees it: a falsy filter
    counts as None, a limit or an offset None as its default. *)
Definition given (v : value) : value := if truthy v then v else VNone.

Definition or_default (v default : value) : value :=
  match v with VNone => default | _ => v end.

(** The arguments of the search of the tools, before the None values
    are dropped. *)
Definition search_arguments
  (keywords date_from date_to document_type agency topic
   presidential_doc_type executive_order limit offset : value) : dict :=
  [ ("keywords", keywords);
    ("date_from", date_from);
    ("date_to", date_to);
    ("document_type", document_type);
    ("agency", agency);
    ("topic", topic);
    ("presidential_doc_type", presidential_doc_type);
    ("executive_order", executive_order);
    ("limit", limit);
    ("offset", offset) ].

(** One query of the database behind the [try] of a tool: the pool,
    then the rows of the query; the empty list when one of them
    raises. *)
Definition guarded_query `{Python} `{Platform}
  (sql : string) (params : list value) : IO value :=
  try_except
    (db_ensure_pool ;;; db_fetch_documents sql params)
    (fun e => ret (VList [])).

(** ** data_pipeline/processor.py: clean texts *)

Fixpoint all_chars (p : ascii -> bool) (s : string) : bool :=
  match s with
  | EmptyString => true
  | String c s' => p c && all_chars p s'
  end.

(** A character a clean text may hold: a word character, one of the
    kept punctuation marks, or whitespace. *)
Definition is_plain (c : ascii) : bool :=
  negb (FederalRegistryProcessor.is_special c).

(** Every whitespace character is a space that a character other than
    whitespace follows. *)
Fixpoint spaced (s : string) : bool :=
  match s with
  | EmptyString => true
  | String c s' =>
      (if is_space c
       then Ascii.eqb c " "
            && match s' with
               | String c' _ => negb (is_space c')
               | EmptyString => false
               end
       else true)
      && spaced s'
  end.

Definition starts_clean (s : string) : bool :=
  match s with
  | String c _ => negb (is_space c)
  | EmptyString => true
  end.

(** A clean text: words of word characters and kept punctuation, one
    space between two words, no whitespace at either end. *)
Definition normalized (s : string) : bool :=
  starts_clean s && spaced s && all_chars is_plain s.

(** A character of a word of a clean text. *)
Definition is_word_char (c : ascii) : bool :=
  negb (is_space c) && is_plain c.

(** A word of a clean text. *)
Definition clean_word (w : string) : Prop :=
  w <> EmptyString /\ all_chars is_word_char w = true.

(** A pattern that matches no empty text. *)
Definition shrinks (match_here : string -> option string) : Prop :=
  forall s rest,
    match_here s = Some rest -> (String.length rest < String.length s)%nat.

(** ** data_pipeline/processor.py: processed documents and files *)

(** The keys of a processed document, in their order. *)
Definition processed_keys : list string :=
  [ "document_number"; "publication_date"; "title"; "type"; "abstract";
    "html_url"; "pdf_url"; "full_text_xml_url"; "agencies"; "docket_ids";
    "regulation_id_numbers"; "comments_close_date"; "effective_date";
    "citation"; "page_length"; "start_page"; "end_page"; "raw_text";
    "processed_at" ].

(** The fields a processed document takes over as they are, None when
    the raw document lacks them. *)
Definition copied_keys : list string :=
  [ "document_number"; "publication_date"; "type"; "html_url"; "pdf_url";
    "full_text_xml_url"; "comments_close_date"; "effective_date"; "citation";
    "page_length"; "start_page"; "end_page" ].

(** Fields that the database manager reads from a document it stores,
    or that the search returns, and that no processed document has. *)
Definition missing_keys : list string :=
  [ "topics"; "presidential_document_type"; "signing_date";
    "executive_order_number"; "document_type" ].

(** The path of the processed file of a raw file. *)
Definition processed_path `{Files} (file_path : string) : string :=
  path_join PROCESSED_DATA_DIR ("processed_" ++ basename file_path).

(** [kept] holds some of the elements of [l], in their order. *)
Inductive subsequence {A : Type} : list A -> list A -> Prop :=
| subsequence_nil : subsequence [] []
| subsequence_keep (x : A) (kept l : list A) :
    subsequence kept l -> subsequence (x :: kept) (x :: l)
| subsequence_drop (x : A) (kept l : list A) :
    subsequence kept l -> subsequence kept (x :: l).

(** Files in memory, for the examples: a file is a path and a text; the
    clock stands still. *)
Definition FileNotFoundError : exn := Exn "FileNotFoundError" "No such file or directory".

Fixpoint basename_from (name s : string) : string :=
  match s with
  | EmptyString => name
  | String c s' =>
      if Ascii.eqb c "/" then basename_from EmptyString s'
      else basename_from (name ++ String c EmptyString) s'
  end.

Definition memory_files : Files := {|
  Disk := list (string * string);
  read_text := fun path disk =>
    match assoc path disk with
    | Some text => (Return text, disk)
    | None => (Raise FileNotFoundError, disk)
    end;
  write_text := fun path text disk => (Return tt, (path, text) :: disk);
  now_isoformat := fun disk => (Return "2025-01-01T00:00:00", disk);
  basename := basename_from EmptyString;
  path_join := fun directory name => directory ++ "/" ++ name;
  json_dumps_indent := dumps;
  PROCESSED_DATA_DIR := "data/processed"
|}.

(** A response model that takes nothing but a str. *)
Definition strict_pydantic : Pydantic := {|
  validate_str := fun _ => Raise (Exn "ValidationError" "Input should be a valid string")
|}.

(** ** Scenarios of the endpoint and of the processor *)

(** The second reply of the model has an object as content, with a
    text as message. *)
Definition dict_answer : dict := [("message", VStr "no content here")].

Definition dict_answer_agent : @agent scripted :=
  fresh_agent
    (january [reply (VStr (fenced get_topics_call)); reply (VDict dict_answer)]
       topics_tool).

(** A raw document with a tag in its title and with fields that the
    processor does not take over. *)
Definition raw_document : dict :=
  [ ("document_number", VStr "2025-00001");
    ("title", VStr "<b>Order</b>  14000");
    ("topics", VList [VDict [("name", VStr "Trade")]]);
    ("presidential_document_type", VStr "Executive Order") ].

(** A raw file whose results hold a document and a text. *)
Definition broken_file : string :=
  "{" ++ quoted "results" ++ ": [{" ++ quoted "title" ++ ": " ++ quoted "a"
  ++ "}, " ++ quoted "oops" ++ "]}".

Definition broken_disk : @Disk memory_files :=
  [("raw/federal_registry_2025-01-01.json", broken_file)].

(** The value a computation returned, None when it raised. *)
Definition fst_value {State : Type} (r : outcome value * State) : value :=
  match fst r with Return v => v | Raise _ => VNone end.

(** * Properties *)

(** ** Strings *)

Lemma append_nil_r (s : string) : s ++ EmptyString = s.
Proof. induction s as [|c s IH]; simpl; [reflexivity | now rewrite IH]. Qed.

Lemma append_assoc (a b c : string) : (a ++ b) ++ c = a ++ (b ++ c).
Proof. induction a as [|x a IH]; simpl; [reflexivity | now rewrite IH]. Qed.

Lemma length_append (a b : string) :
  String.length (a ++ b) = (String.length a + String.length b)%nat.
Proof. induction a as [|x a IH]; simpl; [reflexivity | now rewrite IH]. Qed.

(** ** The regular expression on a fenced block *)

Lemma strip_prefix_app_none (p t Y : string) :
  strip_prefix p (t ++ Y) = None -> strip_prefix p t = None.
Proof.
  revert t. induction p as [|a p IH]; intros t; [discriminate|].
  destruct t as [|b t]; [reflexivity|].
  cbn [append strip_prefix]. destruct (Ascii.eqb a b); [apply IH | reflexivity].
Qed.

Lemma strip_prefix_extend (p a Z : string) :
  (String.length p <= String.length a)%nat ->
  strip_prefix p a = None -> strip_prefix p (a ++ Z) = None.
Proof.
  revert a. induction p as [|x p IH]; intros a Hlen; [discriminate|].
  destruct a as [|b a]; [simpl in Hlen; lia|].
  cbn [append strip_prefix]. destruct (Ascii.eqb x b); [|reflexivity].
  apply IH. simpl in Hlen. lia.
Qed.

Lemma free_of_cons (fence : string) (c : ascii) (s : string) :
  free_of fence (String c s) = true ->
  strip_prefix fence (String c s ++ fence) = None /\ free_of fence s = true.
Proof.
  cbn [free_of]. destruct (strip_prefix fence (String c s ++ fence)).
  - discriminate.
  - auto.
Qed.

(** Inside a text free of a fence, no occurrence of the fence starts,
    whatever follows the fence that ends the text. *)
Lemma free_of_before_fence (fence : string) (c : ascii) (s Z : string) :
  free_of fence (String c s) = true ->
  strip_prefix fence (String c s ++ fence ++ Z) = None.
Proof.
  intros Hf. apply free_of_cons in Hf. destruct Hf as [Hhead _].
  rewrite <- append_assoc. apply strip_prefix_extend; [|exact Hhead].
  rewrite length_append. simpl. lia.
Qed.

Lemma free_of_at_end (fence : string) (c : ascii) (s : string) :
  free_of fence (String c s) = true ->
  strip_prefix fence (String c s) = None.
Proof.
  intros Hf. apply free_of_cons in Hf. destruct Hf as [Hhead _].
  exact (strip_prefix_app_none _ _ _ Hhead).
Qed.

Lemma space_not_fence (c : ascii) (s : string) :
  is_space c = true -> strip_prefix fence_close (String c s) = None.
Proof.
  intros Hc. unfold fence_close. cbn [strip_prefix].
  destruct (Ascii.eqb_spec "`"%char c) as [<-|_]; [discriminate Hc | reflexivity].
Qed.

Lemma match_close_spaces (ws X : string) :
  all_space ws = true -> match_close (ws ++ fence_close ++ X) = Some X.
Proof.
  induction ws as [|c ws IH]; intros Hs.
  - reflexivity.
  - simpl in Hs. apply andb_prop in Hs. destruct Hs as [Hc Hws].
    cbn [append match_close]. rewrite Hc, (IH Hws). reflexivity.
Qed.

Lemma match_close_none (body X : string) :
  free_of fence_close body = true -> all_space body = false ->
  match_close (body ++ fence_close ++ X) = None.
Proof.
  induction body as [|c body IH]; intros Hb Hs.
  - discriminate.
  - pose proof (free_of_before_fence _ _ _ X Hb) as Hhead.
    apply free_of_cons in Hb. destruct Hb as [_ Hb].
    cbn [append match_close]. cbn [append] in Hhead. simpl in Hs.
    destruct (is_space c) eqn:Hc.
    + simpl in Hs. rewrite (IH Hb Hs). now apply space_not_fence.
    + exact Hhead.
Qed.

Lemma match_group_unfold (s : string) :
  match_group s =
  match match_close s with
  | Some r => Some (EmptyString, r)
  | None =>
      match s with
      | String c s' =>
          match match_group s' with
          | Some (g, r) => Some (String c g, r)
          | None => None
          end
      | EmptyString => None
      end
  end.
Proof. destruct s; reflexivity. Qed.

Lemma match_group_body (body X : string) :
  free_of fence_close body = true ->
  match_group (body ++ fence_close ++ X) = Some (rstrip body, X).
Proof.
  induction body as [|c body IH]; intros Hb.
  - reflexivity.
  - rewrite match_group_unfold.
    destruct (all_space (String c body)) eqn:Hs.
    + rewrite (match_close_spaces _ _ Hs). cbn [rstrip]. now rewrite Hs.
    + rewrite (match_close_none _ _ Hb Hs).
      apply free_of_cons in Hb. destruct Hb as [_ Hb].
      cbn [append]. rewrite (IH Hb). cbn [rstrip]. now rewrite Hs.
Qed.

Lemma match_open_ws_body (body X : string) :
  free_of fence_close body = true ->
  match_open_ws (body ++ fence_close ++ X) = Some (strip body, X).
Proof.
  induction body as [|c body IH]; intros Hb.
  - reflexivity.
  - pose proof (match_group_body _ X Hb) as Hg.
    apply free_of_cons in Hb. destruct Hb as [_ Hb'].
    cbn [append match_open_ws]. unfold strip. cbn [lstrip].
    destruct (is_space c).
    + rewrite (IH Hb'). reflexivity.
    + exact Hg.
Qed.

Lemma match_here_fenced (body X : string) :
  free_of fence_close body = true ->
  match_here (fenced body ++ X) = Some (strip body, X).
Proof.
  intros Hb. unfold fenced, match_here.
  rewrite !append_assoc.
  change (strip_prefix fence_open (fence_open ++ body ++ fence_close ++ X))
    with (Some (body ++ fence_close ++ X)).
  now apply match_open_ws_body.
Qed.

Lemma findall_skip_prose (g : string) :
  free_of fence_open g = true ->
  forall fuel X,
    fence_or_end X ->
    findall_from (String.length g + fuel) (g ++ X) = findall_from fuel X.
Proof.
  induction g as [|c g IH]; intros Hg fuel X HX.
  - reflexivity.
  - assert (Hhead : match_here (String c g ++ X) = None).
    { unfold match_here. destruct HX as [->|[Z ->]].
      - rewrite append_nil_r. now rewrite (free_of_at_end _ _ _ Hg).
      - now rewrite (free_of_before_fence _ _ _ Z Hg). }
    apply free_of_cons in Hg. destruct Hg as [_ Hg].
    cbn [String.length Nat.add findall_from]. rewrite Hhead.
    cbn [append]. now apply IH.
Qed.

Lemma findall_assemble (blocks : list (string * string)) :
  forall prose fuel,
    free_of fence_open prose = true -> clean_blocks blocks ->
    (String.length (assemble prose blocks) <= fuel)%nat ->
    findall_from fuel (assemble prose blocks)
    = map (fun bg => strip (fst bg)) blocks.
Proof.
  induction blocks as [|[body after] rest IH]; intros prose fuel Hp Hb Hlen.
  - simpl in *.
    assert (Hk : exists k, fuel = (String.length prose + k)%nat)
      by (exists (fuel - String.length prose)%nat; lia).
    destruct Hk as [k ->].
    pose proof (findall_skip_prose prose Hp k EmptyString (or_introl eq_refl)) as E.
    rewrite append_nil_r in E. rewrite E.
    destruct k; reflexivity.
  - inversion Hb as [|x l [Hbody Hafter] Hrest]; subst. simpl in Hbody, Hafter.
    cbn [assemble] in *. rewrite !length_append in Hlen.
    assert (Hf : (1 <= String.length (fenced body))%nat) by (simpl; lia).
    assert (Hk : exists k, fuel = (String.length prose + S k)%nat)
      by (exists (fuel - String.length prose - 1)%nat; lia).
    destruct Hk as [k ->].
    rewrite (findall_skip_prose _ Hp).
    + cbn [findall_from]. rewrite (match_here_fenced _ _ Hbody).
      cbn [map fst]. f_equal. apply IH; auto. lia.
    + right. unfold fenced. rewrite append_assoc. eauto.
Qed.

Lemma re_findall_assemble (prose : string) (blocks : list (string * string)) :
  free_of fence_open prose = true -> clean_blocks blocks ->
  re_findall (assemble prose blocks) = map (fun bg => strip (fst bg)) blocks.
Proof.
  intros Hp Hb. unfold re_findall. apply findall_assemble; auto.
Qed.

(** ** The extractor *)






Lemma dict_has_In (k : string) (d : dict) :
  dict_has k d = true <-> In k (keys d).
Proof.
  unfold dict_has. induction d as [|[k' v] d IH]; simpl.
  - split; [discriminate | tauto].
  - destruct (String.eqb_spec k k') as [->|Hne].
    + split; auto.
    + rewrite IH. split; [auto | intros [E|I]; [congruence | exact I]].
Qed.

Lemma is_tool_call_fields (v : value) :
  is_tool_call v = true <->
  exists d, v = VDict d /\ In "name" (keys d) /\ In "parameters" (keys d).
Proof.
  split.
  - destruct v; try discriminate. unfold is_tool_call. cbn [is_dict andb].
    intros Hd. apply andb_prop in Hd. destruct Hd as [Hn Hp].
    exists d. repeat split; apply dict_has_In; assumption.
  - intros (d & -> & Hn & Hp). unfold is_tool_call. cbn [is_dict andb].
    apply dict_has_In in Hn. apply dict_has_In in Hp. now rewrite Hn, Hp.
Qed.

(** C8, amended.  For a fenced region whose content parses as JSON,
    the extractor keeps the parsed value as a request if and only if it
    is an object that has the two fields name and parameters; it does
    not look at other keys, nor at the types of the two fields. *)
Theorem extractor_keeps_objects_with_both_fields `{Python} :
  forall (prose body after : string) (v : value),
    free_of fence_open prose = true -> free_of fence_close body = true ->
    free_of fence_open after = true ->
    json_loads (strip body) = Some v ->
    ((exists d, v = VDict d /\ In "name" (keys d) /\ In "parameters" (keys d))
     -> _extract_tool_calls (VStr (prose ++ fenced body ++ after)) = Return [v])
    /\ (~ (exists d, v = VDict d /\ In "name" (keys d) /\ In "parameters" (keys d))
        -> _extract_tool_calls (VStr (prose ++ fenced body ++ after)) = Return []).
Proof.
  intros prose body after v Hp Hb Ha Hv.
  assert (Hclean : clean_blocks [(body, after)])
    by (constructor; [split; assumption | constructor]).
  assert (E : _extract_tool_calls (VStr (prose ++ fenced body ++ after))
              = Return (if is_tool_call v then [v] else [])).
  { unfold _extract_tool_calls.
    change (prose ++ fenced body ++ after) with (assemble prose [(body, after)]).
    rewrite (re_findall_assemble _ _ Hp Hclean).
    cbn [map fst parse_matches]. rewrite Hv. now destruct (is_tool_call v). }
  rewrite E. split; intros Hf.
  - apply is_tool_call_fields in Hf. now rewrite Hf.
  - destruct (is_tool_call v) eqn:Ht; [|reflexivity].
    apply is_tool_call_fields in Ht. contradiction.
Qed.

(** ** The projection *)

Lemma simplify_doc_idempotent (doc : dict) :
  simplify_doc (simplify_doc doc) = simplify_doc doc.
Proof.
  unfold simplify_doc at 2 3. name_fields doc.
  destruct (truthy v_pdt) eqn:Hpdt, (truthy v_eon) eqn:Heon,
           has_agencies, has_topics;
    unfold simplify_doc; cbn -[truthy]; rewrite ?Hpdt, ?Heon; reflexivity.
Qed.

Lemma simplify_doc_required (doc : dict) (k : string) :
  In k required_fields ->
  dict_get k (simplify_doc doc) = Some (py_get k VNone doc).
Proof.
  intros Hk. unfold simplify_doc.
  destruct (truthy (py_get "presidential_document_type" VNone doc)),
           (truthy (py_get "executive_order_number" VNone doc)),
           (dict_has "agencies" doc), (dict_has "topics" doc);
    simpl in Hk;
    repeat (destruct Hk as [<-|Hk]; [reflexivity|]); contradiction.
Qed.

Lemma simplify_doc_keys (doc : dict) (k : string) :
  In k (keys (simplify_doc doc)) -> In k summary_fields.
Proof.
  unfold simplify_doc.
  destruct (truthy (py_get "presidential_document_type" VNone doc)),
           (truthy (py_get "executive_order_number" VNone doc)),
           (dict_has "agencies" doc), (dict_has "topics" doc);
    cbn; intuition.
Qed.

Lemma simplify_documents_dicts (x : list dict) :
  simplify_documents (map VDict x) = Return (map VDict (map simplify_doc x)).
Proof.
  induction x as [|d x IH]; [reflexivity|].
  cbn [map simplify_documents]. now rewrite IH.
Qed.

(** C6.  The projection is total and idempotent on every list of
    records: it returns and never raises, projecting its result again
    changes nothing; every entry of the result has the six required
    fields id, document_number, document_type, title, publication_date
    and abstract, holding the value of the input record or None when
    the record has no such field; and every field of the result is one
    of the fixed fields of a summary, so that any other field of the
    input is dropped.  When the records have the field
    document_number, this projection is what the dispatcher stores for
    the list. *)
Theorem projection_total_idempotent `{Python} :
  forall x : list dict,
    simplify_documents (map VDict x) = Return (map VDict (map simplify_doc x))
    /\ simplify_documents (map VDict (map simplify_doc x))
       = Return (map VDict (map simplify_doc x))
    /\ (forall doc k, In doc x -> In k required_fields ->
          dict_has k (simplify_doc doc) = true
          /\ (dict_has k doc = false ->
              dict_get k (simplify_doc doc) = Some VNone)
          /\ (forall v, dict_get k doc = Some v ->
              dict_get k (simplify_doc doc) = Some v))
    /\ (forall doc k, In doc x -> In k (keys (simplify_doc doc)) ->
          In k summary_fields)
    /\ ((forall doc, In doc x -> dict_has "document_number" doc = true) ->
        forall tool_name,
          stored_result tool_name (VList (map VDict x))
          = VList (map VDict (map simplify_doc x))).
Proof.
  intros x. split; [apply simplify_documents_dicts|]. split.
  - rewrite simplify_documents_dicts. do 2 f_equal.
    rewrite map_map. apply map_ext. intros d. apply simplify_doc_idempotent.
  - split; [|split].
    + intros doc k _ Hk. pose proof (simplify_doc_required doc k Hk) as E.
      unfold dict_has at 1. rewrite E. split; [reflexivity|]. split.
      * unfold dict_has, py_get. now destruct (dict_get k doc).
      * intros v Hv. unfold py_get. now rewrite Hv.
    + intros doc k _. apply simplify_doc_keys.
    + intros Hdoc tool_name. unfold stored_result.
      destruct x as [|d x]; [reflexivity|].
      pose proof (simplify_documents_dicts (d :: x)) as E.
      unfold is_document_list. cbn [map is_list truthy is_dict andb] in E |- *.
      rewrite (Hdoc d (or_introl eq_refl)). now rewrite E.
Qed.

(** ** The dispatcher *)

Lemma is_document_list_spec (result : value) :
  is_document_list result = true <-> looks_like_documents result.
Proof.
  unfold is_document_list, looks_like_documents. split.
  - destruct result as [| | | | |l|]; try discriminate.
    destruct l as [|r0 rest]; [discriminate|].
    destruct r0; try discriminate. cbn. intros Hd. eauto.
  - intros (d & rest & -> & Hd). cbn. exact Hd.
Qed.

Section Dispatcher.
Context `{Python} `{Platform}.

Lemma execute_tool_unregistered (tool_name parameters : value) (s : agent) :
  lookup_tool tool_name = Return None ->
  _execute_tool tool_name parameters s
  = (Return (error_payload ("Tool not found: " ++ py_str tool_name)), s).
Proof. intros Hl. unfold _execute_tool, bind, lift. now rewrite Hl. Qed.

Lemma execute_tool_unhashable (tool_name parameters : value) (s : agent) :
  hashable tool_name = false ->
  exists e, _execute_tool tool_name parameters s = (Raise e, s).
Proof.
  intros Hh. unfold _execute_tool, bind, lift.
  destruct tool_name; try discriminate; simpl; eauto.
Qed.

Lemma execute_tool_returned
  (tool_name parameters : value) (tool_func : handler) (s : agent)
  (result : value) (w' : World) :
  lookup_tool tool_name = Return (Some tool_func) ->
  tool_func parameters (world s) = (Return result, w') ->
  _execute_tool tool_name parameters s
  = (Return (stored_result tool_name result), with_world s w').
Proof.
  intros Hl Hf.
  unfold _execute_tool, bind, lift, try_except, call_world, ret, stored_result.
  rewrite Hl, Hf.
  destruct (is_document_list result) eqn:Hd; [|reflexivity].
  apply is_document_list_spec in Hd. destruct Hd as (d & rest & -> & _).
  now destruct (simplify_documents (VDict d :: rest)).
Qed.

Lemma execute_tool_raised
  (tool_name parameters : value) (tool_func : handler) (s : agent)
  (e : exn) (w' : World) :
  lookup_tool tool_name = Return (Some tool_func) ->
  tool_func parameters (world s) = (Raise e, w') ->
  _execute_tool tool_name parameters s
  = (Return (error_payload
               ("Error executing tool " ++ py_str tool_name ++ ": " ++ exn_msg e)),
     with_world s w').
Proof.
  intros Hl Hf.
  unfold _execute_tool, bind, lift, try_except, call_world, ret.
  now rewrite Hl, Hf.
Qed.

Lemma lookup_tool_hashable (tool_name : value) :
  hashable tool_name = true -> exists f, lookup_tool tool_name = Return f.
Proof. destruct tool_name; try discriminate; simpl; eauto. Qed.

(** With a hashable name the dispatcher always returns a payload, and
    touches nothing of the agent but the world. *)
Lemma execute_tool_total (tool_name parameters : value) (s : agent) :
  hashable tool_name = true ->
  exists payload w',
    _execute_tool tool_name parameters s = (Return payload, with_world s w').
Proof.
  intros Hh. destruct (lookup_tool_hashable _ Hh) as [[f|] Hl].
  - destruct (f parameters (world s)) as [[result|e] w'] eqn:Hf.
    + rewrite (execute_tool_returned _ _ _ _ _ _ Hl Hf). eauto.
    + rewrite (execute_tool_raised _ _ _ _ _ _ Hl Hf). eauto.
  - rewrite (execute_tool_unregistered _ _ _ Hl).
    exists (error_payload ("Tool not found: " ++ py_str tool_name)), (world s).
    now destruct s.
Qed.

Lemma execute_tool_frame (tool_name parameters : value) (s : agent) :
  exists o w', _execute_tool tool_name parameters s = (o, with_world s w').
Proof.
  destruct (hashable tool_name) eqn:Hh.
  - destruct (execute_tool_total tool_name parameters s Hh) as (p & w' & E).
    eauto.
  - destruct (execute_tool_unhashable tool_name parameters s Hh) as [e E].
    exists (Raise e), (world s). rewrite E. now destruct s.
Qed.

End Dispatcher.


(** ** The orchestrator *)

Section Orchestrator.
Context `{Python} `{Platform}.

Lemma gateway_frame (messages : list value) (s : agent) :
  exists o w',
    _ollama_chat_completion messages s
    = (o, Agent _ (chat_history s) w'
            (gateway_log s ++ [GatewayCall messages o])).
Proof.
  unfold _ollama_chat_completion, logged, bind, call_world, lift, ret.
  destruct (http_post_json _ _ (world s)) as [[data|e] w']; [|simpl; eauto].
  destruct data; simpl; eauto.
  unfold dict_has. destruct (dict_get "message" d) as [msg|]; simpl; eauto.
  destruct msg; simpl; eauto.
Qed.

Lemma run_tool_calls_frame (tool_calls : list value) :
  forall s, exists o w', run_tool_calls tool_calls s = (o, with_world s w').
Proof.
  induction tool_calls as [|tool_call rest IH]; intros s.
  - exists (Return []), (world s). now destruct s.
  - cbn [run_tool_calls]. unfold bind at 1. unfold lift at 1.
    destruct (method_get tool_call "name" VNone) as [tool_name|e];
      [|exists (Raise e), (world s); now destruct s].
    unfold bind at 1. unfold lift at 1.
    destruct (method_get tool_call "parameters" (VDict [])) as [parameters|e];
      [|exists (Raise e), (world s); now destruct s].
    unfold bind at 1.
    destruct (execute_tool_frame tool_name parameters s) as (o & w1 & ->).
    destruct o as [result|e]; [|eauto].
    unfold bind at 1.
    destruct (IH (with_world s w1)) as (o2 & w2 & ->).
    destruct o2 as [tool_results|e]; unfold ret;
      do 2 eexists; unfold with_world; cbn; reflexivity.
Qed.

Lemma try_block_runs (messages : list value) (s : agent) :
  exists o s' calls,
    try_block messages s = (o, s') /\ try_block_run messages s o s' calls.
Proof.
  unfold try_block. unfold bind at 1.
  destruct (gateway_frame messages s) as (o1 & w1 & ->).
  destruct o1 as [response|e]; [|do 3 eexists; split; [reflexivity|constructor]].
  unfold bind at 1. unfold lift at 1.
  destruct (reply_content response) as [model_response|e] eqn:Hc;
    [|do 3 eexists; split; [reflexivity|constructor; now left]].
  unfold bind at 1. unfold lift at 1.
  destruct (_extract_tool_calls model_response) as [tool_calls|e] eqn:He;
    [|do 3 eexists; split; [reflexivity|constructor; right; eauto]].
  assert (Ht : exists text, model_response = VStr text)
    by (destruct model_response; try discriminate; eauto).
  destruct Ht as [text ->].
  destruct tool_calls as [|tc tcs].
  - cbn. do 3 eexists. split; [reflexivity|]. now apply no_tool_calls.
  - cbn [truthy]. unfold answer_with_tools. unfold bind at 1.
    set (s1 := Agent _ (chat_history s) w1
                 (gateway_log s ++ [GatewayCall messages (Return response)])).
    destruct (run_tool_calls_frame (tc :: tcs) s1) as (ot & w2 & Hrun).
    rewrite Hrun.
    destruct ot as [tool_results|e].
    + unfold bind at 1. unfold append_history at 1. cbn [with_world chat_history world gateway_log s1].
      unfold bind at 1. unfold append_history at 1. cbn [chat_history world gateway_log].
      unfold bind at 1.
      match goal with
      | |- context [_ollama_chat_completion ?m ?st] =>
          destruct (gateway_frame m st) as (o2 & w3 & ->)
      end.
      cbn [chat_history world gateway_log].
      rewrite <- !app_assoc. cbn [app].
      destruct o2 as [final|e].
      * unfold bind at 1. unfold lift at 1.
        destruct (reply_content final) as [answer|e] eqn:Hf.
        -- cbn. rewrite <- !app_assoc. do 3 eexists. split; [reflexivity|].
           eapply (second_call_answered messages s response final answer text
                     (tc :: tcs) tool_results w1 w3); auto.
           ++ discriminate.
           ++ fold s1. now rewrite Hrun.
        -- do 3 eexists. split; [reflexivity|].
           eapply (second_reply_unusable messages s response final text
                     (tc :: tcs) tool_results e w1 w3); auto.
           ++ discriminate.
           ++ fold s1. now rewrite Hrun.
      * do 3 eexists. split; [reflexivity|].
        eapply (second_call_failed messages s response text
                  (tc :: tcs) tool_results e w1 w3); auto.
        -- discriminate.
        -- fold s1. now rewrite Hrun.
    + do 3 eexists. split; [reflexivity|].
      eapply (dispatch_raised messages s response text (tc :: tcs) e w1 w2);
        auto.
      * discriminate.
      * fold s1. now rewrite Hrun.
Qed.

Lemma process_message_unfold
  (user_text : string) (chat_id : option string) (s : agent) :
  process_message user_text chat_id s
  = try_except (try_block (turn_messages user_text chat_id s))
      (fun e => ret (VStr apology)) (start_turn user_text chat_id s).
Proof.
  unfold process_message, turn_messages, start_turn, turn_history.
  unfold bind, get_history, set_history, append_history, call_world,
    now_strftime, ret.
  destruct (chat_id_in chat_id (chat_history s)); reflexivity.
Qed.

End Orchestrator.

Section Turn.
Context `{Python} `{Platform}.

Lemma process_message_runs
  (user_text : string) (chat_id : option string) (s : agent) :
  exists o s' calls,
    try_block_run (turn_messages user_text chat_id s)
      (start_turn user_text chat_id s) o s' calls
    /\ process_message user_text chat_id s = (Return (answer_of o), s').
Proof.
  destruct (try_block_runs (turn_messages user_text chat_id s)
              (start_turn user_text chat_id s)) as (o & s' & calls & E & R).
  exists o, s', calls. split; [exact R|].
  rewrite process_message_unfold. unfold try_except. rewrite E.
  now destruct o.
Qed.

Lemma try_block_run_log (messages : list value) (s : agent)
  (o : outcome value) (s' : agent) (calls : list gateway_call) :
  try_block_run messages s o s' calls ->
  gateway_log s' = (gateway_log s ++ calls)%list.
Proof. intros R. destruct R; reflexivity. Qed.


(** C1, amended.  [process_message] never raises: for every text,
    session id, agent and world it returns a value.  Whenever a
    gateway call of the turn fails, that value is the apology string.
    The value is a string in every case but one: the content of the
    second reply is returned as it is, so the answer is a string
    provided that content is one. *)
Theorem process_message_never_raises :
  forall (user_text : string) (chat_id : option string) (s : agent),
  exists answer s' calls,
    process_message user_text chat_id s = (Return answer, s')
    /\ gateway_log s' = (gateway_log s ++ calls)%list
    /\ (existsb failed calls = true -> answer = VStr apology)
    /\ ((forall c final content,
           nth_error calls 1 = Some c ->
           received c = Return final ->
           reply_content final = Return content ->
           is_str content = true) ->
        is_str answer = true).
Proof.
  intros user_text chat_id s.
  destruct (process_message_runs user_text chat_id s)
    as (o & s' & calls & R & E).
  exists (answer_of o), s', calls. split; [exact E|].
  split; [exact (try_block_run_log _ _ _ _ _ R)|].
  destruct R; cbn; (split; [try discriminate; reflexivity|]);
    try reflexivity.
  intros Hstr. eapply Hstr; [reflexivity|reflexivity|eassumption].
Qed.


(** *** The history between turns *)

Lemma chat_id_never_found (chat_id : option string) (h : list value) :
  all_dicts h -> chat_id_in chat_id h = false.
Proof.
  unfold chat_id_in. induction 1 as [|m h Hm _ IH]; [reflexivity|].
  cbn [existsb]. rewrite IH.
  destruct m; try discriminate; now destruct chat_id.
Qed.

Lemma turn_history_restarts
  (user_text : string) (chat_id : option string) (h : list value) :
  all_dicts h ->
  turn_history user_text chat_id h = [message "user" (VStr user_text)].
Proof.
  intros Hh. unfold turn_history. now rewrite (chat_id_never_found _ _ Hh).
Qed.

Lemma all_dicts_app (h1 h2 : list value) :
  all_dicts h1 -> all_dicts h2 -> all_dicts (h1 ++ h2).
Proof. unfold all_dicts. intros. apply Forall_app. now split. Qed.

(** The history only ever holds message dicts. *)
Lemma history_all_dicts
  (user_text : string) (chat_id : option string) (s : agent) :
  all_dicts (chat_history s) ->
  all_dicts (chat_history (snd (process_message user_text chat_id s))).
Proof.
  intros Hh.
  destruct (process_message_runs user_text chat_id s)
    as (o & s' & calls & R & E).
  rewrite E. cbn [snd].
  assert (Hstart : all_dicts (chat_history (start_turn user_text chat_id s))).
  { cbn. rewrite (turn_history_restarts _ _ _ Hh). repeat constructor. }
  destruct R; cbn [chat_history]; try exact Hstart;
    apply all_dicts_app; try exact Hstart; repeat constructor.
Qed.

(** The explicit reset empties the history. *)
Lemma reset_chat_clears (s : agent) :
  chat_history (snd (reset_chat s)) = [].
Proof. reflexivity. Qed.

(** Every turn starts from an empty history, whatever the session id
    and whatever the earlier turns left: the prompt of the first
    completion holds the system message and the new user message
    only. *)
Lemma every_turn_forgets
  (user_text : string) (chat_id : option string) (s : agent) :
  all_dicts (chat_history s) ->
  turn_messages user_text chat_id s
  = [system_message (strftime_ymd (now_ordinal (world s)));
     message "user" (VStr user_text)].
Proof.
  intros Hh. unfold turn_messages. now rewrite (turn_history_restarts _ _ _ Hh).
Qed.

End Turn.

(** ** The capability search_recent_executive_orders *)




(** ** Dispatch in order *)

Section Dispatch.
Context `{Python} `{Platform}.

Lemma execute_tool_result (tool_name parameters : value) (s : agent) :
  hashable tool_name = true ->
  exists payload w',
    _execute_tool tool_name parameters s = (Return payload, with_world s w')
    /\ tool_result_of (world s) tool_name parameters payload w'.
Proof.
  intros Hh. destruct (lookup_tool_hashable _ Hh) as [[f|] Hl].
  - destruct (f parameters (world s)) as [[result|e] w'] eqn:Hf.
    + rewrite (execute_tool_returned _ _ _ _ _ _ Hl Hf).
      do 2 eexists. split; [reflexivity|]. eapply result_returned; eauto.
    + rewrite (execute_tool_raised _ _ _ _ _ _ Hl Hf).
      do 2 eexists. split; [reflexivity|]. eapply result_raised; eauto.
  - rewrite (execute_tool_unregistered _ _ _ Hl).
    exists (error_payload ("Tool not found: " ++ py_str tool_name)), (world s).
    split; [now destruct s | now apply result_not_found].
Qed.

(** When every request has a hashable name, the loop over the
    requests returns one result per request, in the order of the
    requests: the payload for an unregistered name is the error Tool
    not found, a handler that raises gives an error payload, and
    neither keeps the later requests from being served. *)
Lemma dispatch_in_order (tool_calls : list value) :
  Forall hashable_request tool_calls ->
  forall s,
  exists tool_results w',
    run_tool_calls tool_calls s = (Return tool_results, with_world s w')
    /\ dispatched (world s) tool_calls tool_results w'
    /\ List.length tool_results = List.length tool_calls.
Proof.
  induction 1 as [|tool_call rest (d & -> & Hh) _ IH]; intros s.
  - exists [], (world s). split; [now destruct s|]. split; constructor.
  - cbn [run_tool_calls method_get]. unfold bind at 1. unfold lift at 1.
    unfold bind at 1. unfold lift at 1. unfold bind at 1.
    destruct (execute_tool_result _ (py_get "parameters" (VDict []) d) s Hh)
      as (payload & w1 & -> & Hres).
    unfold bind at 1.
    destruct (IH (with_world s w1)) as (results & w2 & -> & Hd & Hlen).
    unfold ret. do 2 eexists. split; [reflexivity|]. split.
    + econstructor; eassumption.
    + cbn. now rewrite Hlen.
Qed.

(** With hashable names and a first reply that holds requests, the
    second gateway call is made, and the message with the serialized
    results is the last one of its prompt. *)
Lemma second_call_embeds_results
  (user_text : string) (chat_id : option string) (s : agent)
  (response : value) (reply_text : string) (tool_calls : list value)
  (s1 : agent) :
  _ollama_chat_completion (turn_messages user_text chat_id s)
    (start_turn user_text chat_id s) = (Return response, s1) ->
  reply_content response = Return (VStr reply_text) ->
  _extract_tool_calls (VStr reply_text) = Return tool_calls ->
  tool_calls <> [] ->
  Forall hashable_request tool_calls ->
  exists tool_results w2 o2,
    dispatched (world s1) tool_calls tool_results w2
    /\ List.length tool_results = List.length tool_calls
    /\ gateway_log (snd (process_message user_text chat_id s))
       = (gateway_log s
          ++ [GatewayCall (turn_messages user_text chat_id s) (Return response);
              GatewayCall
                (turn_messages user_text chat_id s
                 ++ [message "assistant" (VStr reply_text);
                     tool_results_message tool_results]) o2])%list.
Proof.
  intros Hg Hc He Hne Hh.
  destruct (gateway_frame (turn_messages user_text chat_id s)
              (start_turn user_text chat_id s)) as (o & w' & Hf).
  rewrite Hg in Hf. injection Hf as <- ->.
  rewrite process_message_unfold.
  unfold try_except, try_block. unfold bind at 1. rewrite Hg.
  unfold bind at 1. unfold lift at 1. rewrite Hc.
  unfold bind at 1. unfold lift at 1. rewrite He.
  destruct tool_calls as [|tc tcs]; [contradiction|]. cbn [truthy].
  unfold answer_with_tools. unfold bind at 1.
  match goal with
  | |- context [run_tool_calls ?c ?st] =>
      destruct (dispatch_in_order c Hh st) as (results & w2 & -> & Hd & Hlen)
  end.
  unfold bind at 1. unfold append_history at 1.
  unfold bind at 1. unfold append_history at 1.
  unfold bind at 1.
  match goal with
  | |- context [_ollama_chat_completion ?m ?st] =>
      destruct (gateway_frame m st) as (o2 & w3 & ->)
  end.
  exists results, w2, o2. split; [exact Hd|]. split; [exact Hlen|].
  cbn [with_world chat_history world gateway_log].
  destruct o2 as [final|e]; [|cbn; now rewrite <- app_assoc].
  unfold bind at 1. unfold lift at 1.
  destruct (reply_content final); cbn; now rewrite <- app_assoc.
Qed.

End Dispatch.

(** ** The claims on concrete runs *)


(** C8: an object with a number as name, a list as parameters and a
    third key is not in the wire format of the specification, and the
    extractor keeps it. *)
Lemma loose_object_is_kept :
  exists v,
    json_loads_text loose_call = Some v
    /\ is_wire_format v = false
    /\ @_extract_tool_calls text_python (VStr (fenced loose_call)) = Return [v].
Proof.
  exists (VDict [("name", VInt 5); ("parameters", VList []);
                 ("extra", VBool true)]).
  repeat split; vm_compute; reflexivity.
Qed.

Lemma extractor_keeps_objects_with_both_fields_witness :
  @_extract_tool_calls text_python
    (VStr ("Sure: " ++ fenced loose_call ++ " done"))
  = Return [VDict [("name", VInt 5); ("parameters", VList []);
                   ("extra", VBool true)]].
Proof.
  apply (@extractor_keeps_objects_with_both_fields text_python
           "Sure: " loose_call " done"
           (VDict [("name", VInt 5); ("parameters", VList []);
                   ("extra", VBool true)])).
  - reflexivity.
  - reflexivity.
  - reflexivity.
  - vm_compute. reflexivity.
  - eexists. split; [reflexivity|]. simpl. tauto.
Defined.

(** C6 on two records. *)
Lemma projection_total_idempotent_witness :
  simplify_documents (map VDict sample_records)
  = Return (map VDict (map simplify_doc sample_records))
  /\ simplify_documents (map VDict (map simplify_doc sample_records))
     = Return (map VDict (map simplify_doc sample_records)).
Proof.
  split.
  - exact (proj1 (@projection_total_idempotent text_python sample_records)).
  - exact (proj1 (proj2 (@projection_total_idempotent text_python
                           sample_records))).
Defined.




(** C1: the second reply has no text, and the answer is None. *)
Lemma second_reply_content_returned_as_is :
  exists answer, fst null_content_turn = Return answer /\ is_str answer = false.
Proof. exists VNone. split; vm_compute; reflexivity. Qed.

Lemma process_message_never_raises_witness :
  exists answer s' calls,
    second_call_fails_turn = (Return answer, s')
    /\ gateway_log s' = calls
    /\ (existsb failed calls = true -> answer = VStr apology).
Proof.
  destruct (@process_message_never_raises text_python scripted
              "Which topics exist?" None
              (fresh_agent
                 (january [reply (VStr (fenced get_topics_call))] topics_tool)))
    as (answer & s' & calls & E & Hlog & Hfail & _).
  exists answer, s', calls. repeat split; assumption.
Defined.



(** C2: the reply holds a request for get_topics and a request whose
    name is a list.  The extractor returns both; the membership test on
    the list raises outside the try of the dispatcher, the turn ends
    with the apology, no result is kept and no second gateway call is
    made. *)
Theorem list_name_aborts_the_turn :
  @_extract_tool_calls text_python (VStr list_name_reply)
  = Return [ VDict [("name", VStr "get_topics"); ("parameters", VDict [])];
             VDict [("name", VList []); ("parameters", VDict [])] ]
  /\ fst list_name_turn = Return (VStr apology)
  /\ List.length (gateway_log (snd list_name_turn)) = 1%nat
  /\ chat_history (snd list_name_turn)
     = [message "user" (VStr "Which topics exist?")].
Proof. repeat split; vm_compute; reflexivity. Qed.

(** C7: in the second turn of a session the prompt of the completion
    holds the system message and the second question only; the
    question and the answer of the first turn are gone from the
    history. *)
Theorem second_turn_forgets_first_turn :
  chat_history (snd first_turn)
  = [ message "user" (VStr "What is the capital of France?");
      message "assistant" (VStr "Paris.") ]
  /\ map sent (gateway_log (snd second_turn))
     = [ [ system_message "2025-01-01";
           message "user" (VStr "What is the capital of France?") ];
         [ system_message "2025-01-01";
           message "user" (VStr "How many people live there?") ] ]
  /\ chat_history (snd second_turn)
     = [ message "user" (VStr "How many people live there?");
         message "assistant" (VStr "About two million.") ].
Proof. repeat split; vm_compute; reflexivity. Qed.

(** * Further properties of the code *)

(** ** The extractor *)

Lemma parse_matches_tool_calls `{Python} (matches : list string) :
  Forall (fun c => is_tool_call c = true) (parse_matches matches).
Proof.
  induction matches as [|m rest IH]; [constructor|].
  cbn [parse_matches]. destruct (json_loads m) as [v|]; [|exact IH].
  destruct (is_tool_call v) eqn:Hv; [|exact IH]. now constructor.
Qed.

(** X1.  Whatever the text and whatever [json.loads] returns, every
    request the extractor returns is a dict that has the keys name and
    parameters: the two lookups of the dispatch loop cannot fail on
    it. *)
Theorem extracted_requests_have_both_fields `{Python} :
  forall (text : value) (tool_calls : list value),
    _extract_tool_calls text = Return tool_calls ->
    Forall (fun tool_call =>
              exists d name parameters,
                tool_call = VDict d
                /\ dict_get "name" d = Some name
                /\ dict_get "parameters" d = Some parameters
                /\ method_get tool_call "name" VNone = Return name
                /\ method_get tool_call "parameters" (VDict []) = Return parameters)
           tool_calls.
Proof.
  intros text tool_calls He. destruct text; try discriminate.
  cbn in He. injection He as <-.
  eapply Forall_impl; [|apply parse_matches_tool_calls].
  intros c Hc. destruct c; try discriminate.
  unfold is_tool_call, dict_has in Hc. cbn [is_dict andb] in Hc.
  destruct (dict_get "name" d) as [name|] eqn:Hn; [|discriminate].
  destruct (dict_get "parameters" d) as [parameters|] eqn:Hp; [|discriminate].
  exists d, name, parameters. unfold method_get, py_get. rewrite Hn, Hp.
  repeat split.
Qed.

Lemma lacks_cons (fence : string) (c : ascii) (s : string) :
  lacks fence (String c s) = true ->
  strip_prefix fence (String c s) = None /\ lacks fence s = true.
Proof.
  cbn [lacks]. destruct (strip_prefix fence (String c s)); [discriminate|auto].
Qed.

Lemma lacks_head (fence s : string) :
  lacks fence s = true -> strip_prefix fence s = None.
Proof.
  destruct s; cbn [lacks]; now destruct (strip_prefix fence _).
Qed.

Lemma match_close_lacks (s : string) :
  lacks fence_close s = true -> match_close s = None.
Proof.
  induction s as [|c s IH]; intros Hl; [reflexivity|].
  apply lacks_cons in Hl. destruct Hl as [Hhead Hl].
  cbn [match_close]. rewrite (IH Hl), Hhead. now destruct (is_space c).
Qed.

Lemma match_group_lacks (s : string) :
  lacks fence_close s = true -> match_group s = None.
Proof.
  induction s as [|c s IH]; intros Hl.
  - reflexivity.
  - rewrite match_group_unfold, (match_close_lacks _ Hl).
    apply lacks_cons in Hl. destruct Hl as [_ Hl]. now rewrite (IH Hl).
Qed.

Lemma match_open_ws_lacks (s : string) :
  lacks fence_close s = true -> match_open_ws s = None.
Proof.
  induction s as [|c s IH]; intros Hl.
  - reflexivity.
  - pose proof (match_group_lacks _ Hl) as Hg.
    apply lacks_cons in Hl. destruct Hl as [_ Hl].
    cbn [match_open_ws]. rewrite (IH Hl), Hg. now destruct (is_space c).
Qed.

Lemma no_close_no_open (s : string) :
  strip_prefix fence_close s = None -> strip_prefix fence_open s = None.
Proof.
  unfold fence_close, fence_open.
  destruct s as [|a [|b [|c s]]]; cbn [strip_prefix]; try reflexivity;
    destruct (Ascii.eqb "`" a); try reflexivity;
    destruct (Ascii.eqb "`" b); try reflexivity;
    destruct (Ascii.eqb "`" c); try reflexivity; discriminate.
Qed.

Lemma findall_lacks (fuel : nat) :
  forall s, lacks fence_close s = true -> findall_from fuel s = [].
Proof.
  induction fuel as [|fuel IH]; intros s Hl; [reflexivity|].
  cbn [findall_from]. unfold match_here.
  rewrite (no_close_no_open _ (lacks_head _ _ Hl)).
  destruct s as [|c s]; [reflexivity|].
  apply lacks_cons in Hl. now apply IH.
Qed.

Lemma lacks_after_open (rest : string) :
  lacks fence_close rest = true ->
  lacks fence_close ("``json" ++ rest) = true.
Proof. intros Hl. cbn. exact Hl. Qed.

Lemma findall_unclosed (fuel : nat) (rest : string) :
  lacks fence_close rest = true ->
  findall_from fuel (fence_open ++ rest) = [].
Proof.
  intros Hr. destruct fuel as [|fuel]; [reflexivity|].
  cbn [findall_from]. unfold match_here.
  change (strip_prefix fence_open (fence_open ++ rest)) with (Some rest).
  cbv iota beta. rewrite (match_open_ws_lacks _ Hr).
  change (fence_open ++ rest) with (String "`" ("``json" ++ rest)).
  cbv iota beta. apply findall_lacks, lacks_after_open, Hr.
Qed.

(** X2.  A block that is opened and never closed yields nothing: when
    no opening fence starts in the prose and no closing fence occurs
    after the opening fence, the extractor returns the empty list. *)
Theorem unclosed_block_yields_nothing `{Python} :
  forall (prose rest : string),
    free_of fence_open prose = true ->
    lacks fence_close rest = true ->
    _extract_tool_calls (VStr (prose ++ fence_open ++ rest)) = Return [].
Proof.
  intros prose rest Hp Hr. unfold _extract_tool_calls, re_findall.
  rewrite length_append.
  replace (S (String.length prose + String.length (fence_open ++ rest)))
    with (String.length prose + S (String.length (fence_open ++ rest)))%nat
    by lia.
  rewrite (findall_skip_prose _ Hp); [|right; eauto].
  now rewrite (findall_unclosed _ _ Hr).
Qed.

(** ** The gateway *)

Section Gateway.
Context `{Python} `{Platform}.

Lemma gateway_on_body (messages : list value) (s : agent)
  (o : outcome value) (w' : World) :
  http_post_json chat_endpoint (chat_payload messages) (world s) = (o, w') ->
  exists o',
    _ollama_chat_completion messages s
    = (o', Agent _ (chat_history s) w'
             (gateway_log s ++ [GatewayCall messages o']))
    /\ match o' with
       | Return response =>
           match text_content o with
           | Some text => reply_content response = Return (VStr text)
           | None =>
               forall text, reply_content response <> Return (VStr text)
           end
       | Raise e => text_content o = None
       end.
Proof.
  intros Hp.
  unfold _ollama_chat_completion, logged, bind, call_world, lift, ret.
  fold chat_endpoint. fold (chat_payload messages). rewrite Hp.
  destruct o as [data|e]; [|eexists; split; reflexivity].
  destruct data; cbn; try (eexists; split; [reflexivity|cbn; discriminate]).
  unfold dict_has. destruct (dict_get "message" d) as [msg|] eqn:Hm; cbn.
  - destruct msg; cbn;
      try (eexists; split; [reflexivity|reflexivity]).
    eexists. split; [reflexivity|]. cbn.
    destruct (py_get "content" (VStr EmptyString) d0); try reflexivity;
      intros text; discriminate.
  - eexists. split; [reflexivity|]. unfold reply_content, method_get, py_get.
    rewrite Hm. reflexivity.
Qed.

End Gateway.

(** X3.  When the server answers with an object whose message is an
    object, the gateway returns the content and the role of that
    message and nothing else of the body, with the empty text for a
    missing content and assistant for a missing role; it leaves the
    history as it is and makes one call. *)
Theorem gateway_keeps_content_and_role `{Platform} :
  forall (messages : list value) (s : agent) (body msg : dict) (w' : World),
    http_post_json chat_endpoint (chat_payload messages) (world s)
    = (Return (VDict body), w') ->
    dict_get "message" body = Some (VDict msg) ->
    let response :=
      VDict [("message",
              VDict [("content", py_get "content" (VStr EmptyString) msg);
                     ("role", py_get "role" (VStr "assistant") msg)])] in
    _ollama_chat_completion messages s
    = (Return response,
       Agent _ (chat_history s) w'
         (gateway_log s ++ [GatewayCall messages (Return response)]))
    /\ reply_content response
       = Return (py_get "content" (VStr EmptyString) msg).
Proof.
  intros messages s body msg w' Hp Hm response.
  split; [|reflexivity].
  unfold _ollama_chat_completion, logged, bind, call_world, lift, ret.
  fold chat_endpoint. fold (chat_payload messages). rewrite Hp.
  unfold dict_has, getitem. cbn [is_dict andb]. rewrite Hm. reflexivity.
Qed.

Section Turns.
Context `{Python} `{Platform}.

Lemma extract_empty_text : _extract_tool_calls (VStr EmptyString) = Return [].
Proof. reflexivity. Qed.

Lemma turn_on_body
  (user_text : string) (chat_id : option string) (s : agent)
  (o : outcome value) (w' : World) :
  http_post_json chat_endpoint
    (chat_payload (turn_messages user_text chat_id s)) (world s) = (o, w') ->
  exists o',
    _ollama_chat_completion (turn_messages user_text chat_id s)
      (start_turn user_text chat_id s)
    = (o', Agent _ (turn_history user_text chat_id (chat_history s)) w'
             (gateway_log s
              ++ [GatewayCall (turn_messages user_text chat_id s) o']))
    /\ match o' with
       | Return response =>
           match text_content o with
           | Some text => reply_content response = Return (VStr text)
           | None =>
               forall text, reply_content response <> Return (VStr text)
           end
       | Raise e => text_content o = None
       end.
Proof.
  intros Hp.
  exact (gateway_on_body (turn_messages user_text chat_id s)
           (start_turn user_text chat_id s) o w' Hp).
Qed.

(** X4.  When the server answers the first completion with an object
    that has no message, the turn does not fail: it answers with the
    empty text, appends an assistant message with the empty text after
    the user message, and makes one gateway call. *)
Theorem body_without_message_gives_empty_answer :
  forall (user_text : string) (chat_id : option string) (s : agent)
         (body : dict) (w' : World),
    http_post_json chat_endpoint
      (chat_payload (turn_messages user_text chat_id s)) (world s)
    = (Return (VDict body), w') ->
    dict_get "message" body = None ->
    process_message user_text chat_id s
    = (Return (VStr EmptyString),
       Agent _
         (turn_history user_text chat_id (chat_history s)
          ++ [message "assistant" (VStr EmptyString)])
         w'
         (gateway_log s
          ++ [GatewayCall (turn_messages user_text chat_id s)
                (Return (VDict body))])).
Proof.
  intros user_text chat_id s body w' Hp Hm.
  rewrite process_message_unfold.
  unfold try_except, try_block. unfold bind at 1.
  unfold _ollama_chat_completion, logged, bind, call_world, lift, ret.
  fold chat_endpoint. fold (chat_payload (turn_messages user_text chat_id s)).
  cbn [start_turn world]. rewrite Hp.
  cbn [is_dict andb]. unfold dict_has. rewrite Hm.
  unfold reply_content, method_get, py_get. rewrite Hm.
  cbn [dict_get]. rewrite extract_empty_text. reflexivity.
Qed.

(** X5.  When the first completion yields no text (the request
    raises, or the body is not an object, or its message is not an
    object, or the content of the message is not a text), the turn
    answers with the apology, makes this one gateway call, and leaves
    in the history the user message and nothing after it. *)
Theorem unusable_first_reply_gives_apology :
  forall (user_text : string) (chat_id : option string) (s : agent)
         (o : outcome value) (w' : World),
    http_post_json chat_endpoint
      (chat_payload (turn_messages user_text chat_id s)) (world s) = (o, w') ->
    text_content o = None ->
    exists o',
      process_message user_text chat_id s
      = (Return (VStr apology),
         Agent _ (turn_history user_text chat_id (chat_history s)) w'
           (gateway_log s
            ++ [GatewayCall (turn_messages user_text chat_id s) o'])).
Proof.
  intros user_text chat_id s o w' Hp Hnone.
  destruct (turn_on_body user_text chat_id s o w' Hp) as (o' & Hg & Ho').
  exists o'. rewrite process_message_unfold.
  unfold try_except, try_block. unfold bind at 1. rewrite Hg.
  destruct o' as [response|e]; [|reflexivity].
  rewrite Hnone in Ho'.
  unfold bind at 1. unfold lift at 1.
  destruct (reply_content response) as [model_response|e]; [|reflexivity].
  unfold bind at 1. unfold lift at 1.
  destruct model_response; try reflexivity.
  exfalso. exact (Ho' s0 eq_refl).
Qed.



End Turns.

(** ** The history of reachable agents *)

Section Reachable.
Context `{Python} `{Platform}.

Lemma message_is_dict (m : value) : is_message m -> is_dict m = true.
Proof. intros (role & content & -> & _). reflexivity. Qed.

Lemma messages_all_dicts (h : list value) :
  Forall is_message h -> all_dicts h.
Proof. intros Hh. eapply Forall_impl; [|exact Hh]. apply message_is_dict. Qed.

Lemma user_is_message (content : value) : is_message (message "user" content).
Proof. exists "user", content. split; [reflexivity|]. simpl. tauto. Qed.

Lemma assistant_is_message (content : value) :
  is_message (message "assistant" content).
Proof. exists "assistant", content. split; [reflexivity|]. simpl. tauto. Qed.

Lemma tool_results_is_message (tool_results : list value) :
  is_message (tool_results_message tool_results).
Proof.
  eexists "system", _. split; [reflexivity|]. simpl. tauto.
Qed.

(** The shape of the history a turn leaves. *)
Definition turn_shape (h : list value) : Prop :=
  Forall is_message h
  /\ (List.length h <= 4)%nat
  /\ (h = [] \/ exists user_text rest, h = message "user" (VStr user_text) :: rest).

Lemma history_after_turn
  (user_text : string) (chat_id : option string) (s : agent) :
  all_dicts (chat_history s) ->
  turn_shape (chat_history (snd (process_message user_text chat_id s))).
Proof.
  intros Hh.
  destruct (process_message_runs user_text chat_id s)
    as (o & s' & calls & R & E).
  rewrite E. cbn [snd].
  pose proof (turn_history_restarts user_text chat_id _ Hh) as Hstart.
  pose proof (user_is_message (VStr user_text)) as Hu.
  destruct R; cbn [chat_history start_turn]; rewrite Hstart; cbn [app];
    (split; [|split; [cbn; lia | right; eauto]]);
    repeat constructor; auto using assistant_is_message, tool_results_is_message.
Qed.

Lemma reachable_shape (s : agent) : reachable s -> turn_shape (chat_history s).
Proof.
  induction 1 as [w | s user_text chat_id _ IH | s _ IH | s w _ IH].
  - split; [constructor|]. split; [cbn; lia | now left].
  - apply history_after_turn, messages_all_dicts, IH.
  - split; [constructor|]. split; [cbn; lia | now left].
  - exact IH.
Qed.

End Reachable.

(** X8.  The history of every reachable agent holds at most four
    messages, each a dict with a role among user, assistant and system
    and a content, and is empty or starts with a user message: a turn
    leaves the user message, and after it nothing, or the assistant
    message, or the assistant message and the tool results, or these
    and the final assistant message. *)
Theorem reachable_history_shape `{Python} `{Platform} :
  forall s : agent,
    reachable s ->
    Forall is_message (chat_history s)
    /\ (List.length (chat_history s) <= 4)%nat
    /\ (chat_history s = []
        \/ exists user_text rest,
             chat_history s = message "user" (VStr user_text) :: rest).
Proof. intros s Hs. exact (reachable_shape s Hs). Qed.

(** X9.  For every reachable agent, every session id and every user
    text, the prompt of the first completion of a turn holds the system
    message and the new user message and nothing of the earlier turns,
    and the history after the turn starts with this user message. *)
Theorem reachable_agent_forgets `{Python} `{Platform} :
  forall (s : agent) (user_text : string) (chat_id : option string),
    reachable s ->
    turn_messages user_text chat_id s
    = [ system_message (strftime_ymd (now_ordinal (world s)));
        message "user" (VStr user_text) ]
    /\ exists rest,
         chat_history (snd (process_message user_text chat_id s))
         = message "user" (VStr user_text) :: rest.
Proof.
  intros s user_text chat_id Hs.
  pose proof (messages_all_dicts _ (proj1 (reachable_shape s Hs))) as Hd.
  split; [now apply every_turn_forgets|].
  destruct (process_message_runs user_text chat_id s)
    as (o & s' & calls & R & E).
  rewrite E. cbn [snd].
  pose proof (turn_history_restarts user_text chat_id _ Hd) as Hstart.
  destruct R; cbn [chat_history start_turn]; rewrite Hstart; cbn [app]; eauto.
Qed.

(** ** The dispatcher *)

Lemma assoc_absent {A : Type} (k : string) (l : list (string * A)) :
  ~ In k (map fst l) -> assoc k l = None.
Proof.
  induction l as [|[k' a] l IH]; intros Hn; [reflexivity|].
  cbn [assoc]. destruct (String.eqb_spec k k') as [->|_].
  - exfalso. apply Hn. now left.
  - apply IH. intros Hin. apply Hn. now right.
Qed.

(** X10.  A request whose name is hashable and not registered (a text
    that is none of the ten names, a number, a boolean or null) gets
    the payload error Tool not found with the name; no handler runs,
    and the agent and the world are as before. *)
Theorem unregistered_name_is_reported `{Python} `{Platform} :
  forall (tool_name parameters : value) (s : agent),
    hashable tool_name = true ->
    ~ registered tool_name ->
    _execute_tool tool_name parameters s
    = (Return (error_payload ("Tool not found: " ++ py_str tool_name)), s).
Proof.
  intros tool_name parameters s Hh Hn.
  apply execute_tool_unregistered.
  destruct tool_name; try discriminate; try reflexivity.
  cbn [lookup_tool]. rewrite assoc_absent; [reflexivity|].
  intros Hin. apply Hn. exists s0. now split.
Qed.

(** X11.  When every request has a hashable name, the dispatch loop
    returns exactly one result per request, in the order of the
    requests, each holding the name, the parameters and the payload of
    its request; the requests are served one after the other, a
    request that is not registered or whose handler raises gets an
    error payload, and the requests after it are served all the same.
    The loop changes neither the history nor the gateway log. *)
Theorem hashable_requests_are_served_in_order `{Python} `{Platform} :
  forall (tool_calls : list value) (s : agent),
    Forall hashable_request tool_calls ->
    exists tool_results w',
      run_tool_calls tool_calls s
      = (Return tool_results, Agent _ (chat_history s) w' (gateway_log s))
      /\ dispatched (world s) tool_calls tool_results w'
      /\ List.length tool_results = List.length tool_calls.
Proof.
  intros tool_calls s Hh.
  destruct (dispatch_in_order tool_calls Hh s) as (results & w' & E & Hd & Hl).
  exists results, w'. repeat split; assumption.
Qed.

(** X12.  When the first reply is a text with requests that all have
    hashable names, the turn makes the second gateway call, and the
    prompt of that call is the first prompt followed by the assistant
    message with the first reply and by the system message whose
    content is Tool call results: and the serialized list of the
    results, one per request. *)
Theorem results_reach_the_second_prompt `{Python} `{Platform} :
  forall (user_text : string) (chat_id : option string) (s : agent)
         (response : value) (reply_text : string) (tool_calls : list value)
         (s1 : agent),
    _ollama_chat_completion (turn_messages user_text chat_id s)
      (start_turn user_text chat_id s) = (Return response, s1) ->
    reply_content response = Return (VStr reply_text) ->
    _extract_tool_calls (VStr reply_text) = Return tool_calls ->
    tool_calls <> [] ->
    Forall hashable_request tool_calls ->
    exists tool_results w2 o2,
      dispatched (world s1) tool_calls tool_results w2
      /\ List.length tool_results = List.length tool_calls
      /\ gateway_log (snd (process_message user_text chat_id s))
         = (gateway_log s
            ++ [GatewayCall (turn_messages user_text chat_id s) (Return response);
                GatewayCall
                  (turn_messages user_text chat_id s
                   ++ [message "assistant" (VStr reply_text);
                       message "system"
                         (VStr ("Tool call results: "
                                ++ json_dumps (VList tool_results)))]) o2])%list.
Proof.
  intros user_text chat_id s response reply_text tool_calls s1 Hg Hc He Hne Hh.
  exact (second_call_embeds_results user_text chat_id s response reply_text
           tool_calls s1 Hg Hc He Hne Hh).
Qed.

(** ** The projection *)

Lemma simplify_documents_returns (docs : list value) :
  (exists simplified, simplify_documents docs = Return simplified)
  <-> all_dicts docs.
Proof.
  induction docs as [|doc docs IH].
  - split; [constructor | intros _; exists []; reflexivity].
  - split.
    + intros [simplified E]. cbn [simplify_documents] in E.
      destruct doc; try discriminate.
      destruct (simplify_documents docs) as [l|e] eqn:El; [|discriminate].
      constructor; [reflexivity|]. apply IH. eauto.
    + intros Hd. inversion Hd as [|x l Hx Hl]; subst.
      destruct doc; try discriminate.
      apply IH in Hl. destruct Hl as [l El].
      cbn [simplify_documents]. rewrite El. eauto.
Qed.

Lemma simplify_documents_length (docs simplified : list value) :
  simplify_documents docs = Return simplified ->
  List.length simplified = List.length docs.
Proof.
  revert simplified. induction docs as [|doc docs IH]; intros simplified E.
  - injection E as <-. reflexivity.
  - cbn [simplify_documents] in E. destruct doc; try discriminate.
    destruct (simplify_documents docs) as [l|e]; [|discriminate].
    injection E as <-. cbn. now rewrite (IH l eq_refl).
Qed.

Lemma simplify_documents_fixed (docs simplified : list value) :
  simplify_documents docs = Return simplified ->
  simplify_documents simplified = Return simplified.
Proof.
  revert simplified. induction docs as [|doc docs IH]; intros simplified E.
  - injection E as <-. reflexivity.
  - cbn [simplify_documents] in E. destruct doc; try discriminate.
    destruct (simplify_documents docs) as [l|e]; [|discriminate].
    injection E as <-. cbn [simplify_documents].
    rewrite (IH l eq_refl). now rewrite simplify_doc_idempotent.
Qed.

(** X13.  A handler returned a list that starts with a document.  If
    every element of the list is a dict, the dispatcher stores a list
    with one summary per element; if some element is not a dict, the
    dispatcher stores an error payload whose text starts with Error
    executing tool and the name: never a partly projected list, and
    not the list itself.  In both cases the dispatcher returns. *)
Theorem mixed_document_list_is_an_error `{Python} `{Platform} :
  forall (tool_name parameters : value) (tool_func : handler) (s : agent)
         (docs : list value) (w' : World),
    lookup_tool tool_name = Return (Some tool_func) ->
    tool_func parameters (world s) = (Return (VList docs), w') ->
    looks_like_documents (VList docs) ->
    (Forall (fun doc => is_dict doc = true) docs ->
       exists simplified,
         _execute_tool tool_name parameters s
         = (Return (VList simplified), with_world s w')
         /\ List.length simplified = List.length docs
         /\ simplify_documents simplified = Return simplified)
    /\ (~ Forall (fun doc => is_dict doc = true) docs ->
          exists m,
            _execute_tool tool_name parameters s
            = (Return (error_payload
                         ("Error executing tool " ++ py_str tool_name ++ ": " ++ m)),
               with_world s w')).
Proof.
  intros tool_name parameters tool_func s docs w' Hl Hf Hd.
  rewrite (execute_tool_returned _ _ _ _ _ _ Hl Hf). unfold stored_result.
  apply is_document_list_spec in Hd. rewrite Hd. split.
  - intros Hall. apply simplify_documents_returns in Hall.
    destruct Hall as [simplified E]. rewrite E. exists simplified.
    split; [reflexivity|]. split; [now apply simplify_documents_length|].
    now apply (simplify_documents_fixed docs).
  - intros Hn. destruct (simplify_documents docs) as [l|e] eqn:E.
    + exfalso. apply Hn. apply simplify_documents_returns. eauto.
    + eauto.
Qed.

(** X14.  The optional fields of a summary follow two rules.  The
    fields presidential_document_type and executive_order_number are
    kept when their value in the record is truthy, and dropped when it
    is None, empty or zero, or when the record lacks them.  The fields
    agencies and topics are kept whenever the record has them, also
    with an empty list or None as value. *)
Theorem summary_optional_fields :
  forall (doc : dict),
    dict_get "presidential_document_type" (simplify_doc doc)
    = (if truthy (py_get "presidential_document_type" VNone doc)
       then dict_get "presidential_document_type" doc else None)
    /\ dict_get "executive_order_number" (simplify_doc doc)
       = (if truthy (py_get "executive_order_number" VNone doc)
          then dict_get "executive_order_number" doc else None)
    /\ dict_get "agencies" (simplify_doc doc) = dict_get "agencies" doc
    /\ dict_get "topics" (simplify_doc doc) = dict_get "topics" doc.
Proof.
  intros doc. unfold simplify_doc, dict_has, py_get.
  destruct (dict_get "presidential_document_type" doc) as [pdt|];
    destruct (dict_get "executive_order_number" doc) as [eon|];
    destruct (dict_get "agencies" doc) as [agencies|];
    destruct (dict_get "topics" doc) as [topics|];
    try destruct (truthy pdt); try destruct (truthy eon);
    repeat split; try reflexivity.
Qed.

(** ** The search of documents *)

Section Search.
Context `{Python} `{Platform}.

(** The query of a search: the conditions of the truthy filters, the
    order and the limit. *)
Lemma search_documents_query (query_params : dict) (w : World) :
  DatabaseManager.search_documents query_params w
  = match db_ensure_pool w with
    | (Return _, w1) =>
        match py_int (py_get "limit" (VInt 10) query_params) with
        | Return limit =>
            match py_int (py_get "offset" (VInt 0) query_params) with
            | Return offset =>
                db_fetch_documents
                  (DatabaseManager.select_documents
                   ++ where_clause query_params ++ order_limit)
                  (where_params query_params ++ [VInt limit; VInt offset])%list
                  w1
            | Raise e => (Raise e, w1)
            end
        | Raise e => (Raise e, w1)
        end
    | (Raise e, w1) => (Raise e, w1)
    end.
Proof.
  unfold DatabaseManager.search_documents, bind, lift.
  destruct (db_ensure_pool w) as [[u|e] w1]; [|reflexivity].
  unfold where_clause, where_params, active, filter_table.
  cbn [filter fst snd].
  destruct (truthy (py_get "date_from" VNone query_params));
    destruct (truthy (py_get "date_to" VNone query_params));
    destruct (truthy (py_get "document_type" VNone query_params));
    destruct (truthy (py_get "agency" VNone query_params));
    destruct (truthy (py_get "topic" VNone query_params));
    destruct (truthy (py_get "presidential_doc_type" VNone query_params));
    destruct (truthy (py_get "keywords" VNone query_params));
    destruct (truthy (py_get "executive_order" VNone query_params));
    cbn [map flat_map fst snd params_of app];
    destruct (py_int (py_get "limit" (VInt 10) query_params)) as [limit|e];
    try reflexivity;
    destruct (py_int (py_get "offset" (VInt 0) query_params)) as [offset|e];
    reflexivity.
Qed.

Lemma query_placeholders (query_params : dict) (limit offset : Z) :
  let sql := DatabaseManager.select_documents
             ++ where_clause query_params ++ order_limit in
  placeholders sql
  = List.length (where_params query_params ++ [VInt limit; VInt offset])%list
  /\ percent_signs sql = placeholders sql.
Proof.
  unfold where_clause, where_params, active, filter_table.
  cbn [filter fst snd].
  destruct (truthy (py_get "date_from" VNone query_params));
    destruct (truthy (py_get "date_to" VNone query_params));
    destruct (truthy (py_get "document_type" VNone query_params));
    destruct (truthy (py_get "agency" VNone query_params));
    destruct (truthy (py_get "topic" VNone query_params));
    destruct (truthy (py_get "presidential_doc_type" VNone query_params));
    destruct (truthy (py_get "keywords" VNone query_params));
    destruct (truthy (py_get "executive_order" VNone query_params));
    cbn [map flat_map fst snd params_of app List.length];
    split; reflexivity.
Qed.

Lemma where_params_values (query_params : dict) :
  Forall (fun p =>
            exists k,
              In k filter_keys
              /\ truthy (py_get k VNone query_params) = true
              /\ (p = py_get k VNone query_params
                  \/ p = VStr ("%" ++ py_str (py_get k VNone query_params) ++ "%")))
         (where_params query_params).
Proof.
  unfold where_params. apply Forall_flat_map, Forall_forall.
  intros entry Hin. unfold active in Hin. apply filter_In in Hin.
  destruct Hin as [Hin Ht].
  assert (Hk : In (fst entry) filter_keys) by (now apply in_map).
  destruct entry as [k [condition form]]. cbn [fst snd] in *.
  destruct form; cbn [params_of]; repeat constructor; exists k; auto.
Qed.

End Search.

(** X15.  A search of the database manager, when the pool is there and
    the limit and the offset are ints, runs one query.  Its text is
    the SELECT, the conditions of the filters whose value is truthy in
    the order date_from, date_to, document_type, agency, topic,
    presidential_doc_type, keywords, executive_order, the ORDER BY and
    LIMIT %s OFFSET %s: it depends on which filters are given, never
    on their values.  The values go into the parameters, as they are
    or between two percent signs; the query has as many placeholders
    as parameters, and every percent sign of its text belongs to a
    placeholder. *)
Theorem search_query_is_parametrised `{Python} `{Platform} :
  forall (query_params : dict) (w w1 : World) (limit offset : Z),
    db_ensure_pool w = (Return tt, w1) ->
    py_int (py_get "limit" (VInt 10) query_params) = Return limit ->
    py_int (py_get "offset" (VInt 0) query_params) = Return offset ->
    exists sql filter_params,
      DatabaseManager.search_documents query_params w
      = db_fetch_documents sql
          (filter_params ++ [VInt limit; VInt offset])%list w1
      /\ sql = DatabaseManager.select_documents
               ++ where_clause query_params ++ order_limit
      /\ placeholders sql
         = List.length (filter_params ++ [VInt limit; VInt offset])%list
      /\ percent_signs sql = placeholders sql
      /\ Forall (fun p =>
                   exists k,
                     In k filter_keys
                     /\ truthy (py_get k VNone query_params) = true
                     /\ (p = py_get k VNone query_params
                         \/ p = VStr ("%" ++ py_str (py_get k VNone query_params)
                                      ++ "%")))
                filter_params.
Proof.
  intros query_params w w1 limit offset Hpool Hl Ho.
  exists (DatabaseManager.select_documents
          ++ where_clause query_params ++ order_limit),
         (where_params query_params).
  split.
  - rewrite search_documents_query, Hpool, Hl, Ho. reflexivity.
  - split; [reflexivity|].
    destruct (query_placeholders query_params limit offset) as [Hp Hs].
    split; [exact Hp|]. split; [exact Hs|]. apply where_params_values.
Qed.

(** ** The search of the tools *)

Lemma dict_get_absent (k : string) (d : dict) :
  ~ In k (map fst d) -> dict_get k d = None.
Proof.
  induction d as [|[k' v] d IH]; intros Hn; [reflexivity|].
  cbn [dict_get]. destruct (String.eqb_spec k k') as [->|_].
  - exfalso. apply Hn. now left.
  - apply IH. intros Hin. apply Hn. now right.
Qed.

Lemma filter_keeps_absent (k : string) (f : string * value -> bool) (d : dict) :
  ~ In k (map fst d) -> ~ In k (map fst (filter f d)).
Proof.
  intros Hn Hin. apply Hn. apply in_map_iff in Hin.
  destruct Hin as (kv & <- & Hkv). apply filter_In in Hkv.
  apply in_map. tauto.
Qed.

(** Dropping the None values of a dict with distinct keys: a lookup
    finds what it found before, unless that was None. *)
Lemma dict_get_not_None (k : string) (d : dict) :
  NoDup (map fst d) ->
  dict_get k (filter (fun kv => FederalRegistryTools.is_not_None (snd kv)) d)
  = match dict_get k d with
    | Some VNone => None
    | found => found
    end.
Proof.
  induction d as [|[k' v] d IH]; intros Hd; [reflexivity|].
  inversion Hd as [|x l Hk Hd']; subst.
  cbn [filter snd dict_get].
  destruct (FederalRegistryTools.is_not_None v) eqn:Hv.
  - cbn [dict_get]. destruct (String.eqb k k').
    + now destruct v.
    + now apply IH.
  - destruct v; try discriminate Hv.
    destruct (String.eqb_spec k k') as [->|_].
    + apply dict_get_absent, filter_keeps_absent, Hk.
    + now apply IH.
Qed.

Lemma py_get_not_None (k : string) (d : dict) :
  NoDup (map fst d) ->
  py_get k VNone
    (filter (fun kv => FederalRegistryTools.is_not_None (snd kv)) d)
  = py_get k VNone d.
Proof.
  intros Hd. unfold py_get. rewrite (dict_get_not_None k d Hd).
  now destruct (dict_get k d) as [[]|].
Qed.

Lemma py_get_or_default (k : string) (default : value) (d : dict) :
  NoDup (map fst d) -> dict_has k d = true ->
  py_get k default
    (filter (fun kv => FederalRegistryTools.is_not_None (snd kv)) d)
  = or_default (py_get k VNone d) default.
Proof.
  intros Hd Hk. unfold py_get, dict_has in *.
  rewrite (dict_get_not_None k d Hd).
  now destruct (dict_get k d) as [[]|].
Qed.

Lemma truthy_given (v : value) : truthy (given v) = truthy v.
Proof. unfold given. now destruct (truthy v) eqn:E. Qed.

Lemma given_truthy (v : value) : truthy v = true -> given v = v.
Proof. unfold given. now intros ->. Qed.

Section SearchTool.
Context `{Python} `{Platform}.

(** The conditions and the parameters of a query depend on the truthy
    values of the filters only. *)
Lemma where_given (query_params query_params' : dict) :
  (forall k, In k filter_keys ->
     py_get k VNone query_params' = given (py_get k VNone query_params)) ->
  where_clause query_params' = where_clause query_params
  /\ where_params query_params' = where_params query_params.
Proof.
  intros Hsame.
  assert (Ha : active query_params' = active query_params).
  { unfold active. apply filter_ext_in. intros entry Hin.
    rewrite (Hsame (fst entry)) by (now apply in_map).
    apply truthy_given. }
  unfold where_clause, where_params. rewrite Ha. split; [reflexivity|].
  rewrite !flat_map_concat_map. f_equal. apply map_ext_in.
  intros entry Hin. unfold active in Hin. apply filter_In in Hin.
  destruct Hin as [Hin Ht].
  rewrite (Hsame (fst entry)) by (now apply in_map).
  now rewrite (given_truthy _ Ht).
Qed.

Lemma where_same (query_params query_params' : dict) :
  (forall k, In k filter_keys ->
     py_get k VNone query_params' = py_get k VNone query_params) ->
  where_clause query_params' = where_clause query_params
  /\ where_params query_params' = where_params query_params.
Proof.
  intros Hsame.
  assert (Ha : active query_params' = active query_params).
  { unfold active. apply filter_ext_in. intros entry Hin.
    now rewrite (Hsame (fst entry)) by (now apply in_map). }
  unfold where_clause, where_params. rewrite Ha. split; [reflexivity|].
  rewrite !flat_map_concat_map. f_equal. apply map_ext_in.
  intros entry Hin. unfold active in Hin. apply filter_In in Hin.
  destruct Hin as [Hin Ht].
  now rewrite (Hsame (fst entry)) by (now apply in_map).
Qed.

Lemma search_arguments_keys
  (keywords date_from date_to document_type agency topic
   presidential_doc_type executive_order limit offset : value) :
  NoDup (map fst (search_arguments keywords date_from date_to document_type
                    agency topic presidential_doc_type executive_order
                    limit offset)).
Proof.
  cbn. repeat constructor; cbn; intuition discriminate.
Qed.

(** The search of the tools in terms of its arguments. *)
Lemma search_tool_unfold
  (keywords date_from date_to document_type agency topic
   presidential_doc_type executive_order limit offset : value) (w : World) :
  let arguments :=
    search_arguments keywords date_from date_to document_type agency topic
      presidential_doc_type executive_order limit offset in
  FederalRegistryTools.search_documents keywords date_from date_to
    document_type agency topic presidential_doc_type executive_order
    limit offset w
  = match db_ensure_pool w with
    | (Return _, w1) =>
        match py_int (or_default limit (VInt 10)) with
        | Return limit' =>
            match py_int (or_default offset (VInt 0)) with
            | Return offset' =>
                match db_fetch_documents
                        (DatabaseManager.select_documents
                         ++ where_clause arguments ++ order_limit)
                        (where_params arguments
                         ++ [VInt limit'; VInt offset'])%list w1 with
                | (Return documents, w2) => (Return documents, w2)
                | (Raise e, w2) => (Return (VList []), w2)
                end
            | Raise e => (Return (VList []), w1)
            end
        | Raise e => (Return (VList []), w1)
        end
    | (Raise e, w1) => (Return (VList []), w1)
    end.
Proof.
  intros arguments.
  pose proof (search_arguments_keys keywords date_from date_to document_type
                agency topic presidential_doc_type executive_order
                limit offset) as Hd.
  fold arguments in Hd.
  unfold FederalRegistryTools.search_documents.
  fold (search_arguments keywords date_from date_to document_type agency topic
          presidential_doc_type executive_order limit offset).
  fold arguments.
  unfold try_except, bind at 1, ret.
  rewrite search_documents_query.
  rewrite (py_get_or_default "limit" (VInt 10) arguments Hd eq_refl).
  rewrite (py_get_or_default "offset" (VInt 0) arguments Hd eq_refl).
  change (py_get "limit" VNone arguments) with limit.
  change (py_get "offset" VNone arguments) with offset.
  destruct (where_same arguments
              (filter (fun kv => FederalRegistryTools.is_not_None (snd kv))
                 arguments)) as [Hc Hp].
  { intros k _. now apply py_get_not_None. }
  rewrite Hc, Hp.
  destruct (db_ensure_pool w) as [[u|e] w1]; [|reflexivity].
  destruct (py_int (or_default limit (VInt 10))) as [limit'|e]; [|reflexivity].
  destruct (py_int (or_default offset (VInt 0))) as [offset'|e]; [|reflexivity].
  now destruct (db_fetch_documents _ _ w1) as [[documents|e] w2].
Qed.

Lemma guarded_query_unfold (sql : string) (params : list value) (w : World) :
  guarded_query sql params w
  = match db_ensure_pool w with
    | (Return _, w1) =>
        match db_fetch_documents sql params w1 with
        | (Return documents, w2) => (Return documents, w2)
        | (Raise e, w2) => (Return (VList []), w2)
        end
    | (Raise e, w1) => (Return (VList []), w1)
    end.
Proof.
  unfold guarded_query, try_except, bind, ret.
  destruct (db_ensure_pool w) as [[u|e] w1]; reflexivity.
Qed.

Lemma or_default_twice (v default : value) :
  default <> VNone -> or_default (or_default v default) default = or_default v default.
Proof. intros Hd. destruct v; try reflexivity. cbn. now destruct default. Qed.

End SearchTool.

(** X16.  The search of the tools never raises.  It returns the empty
    list when the pool cannot be made, and when the limit or the
    offset is not None and cannot be converted to an int, in both
    cases without a query; whatever it returns is the empty list or
    the rows a query returned. *)
Theorem search_tool_never_raises `{Python} `{Platform} :
  forall (keywords date_from date_to document_type agency topic
          presidential_doc_type executive_order limit offset : value)
         (w : World),
    exists documents w',
      FederalRegistryTools.search_documents keywords date_from date_to
        document_type agency topic presidential_doc_type executive_order
        limit offset w
      = (Return documents, w')
      /\ (forall e w1,
            db_ensure_pool w = (Raise e, w1) ->
            documents = VList [] /\ w' = w1)
      /\ (forall u w1 e,
            db_ensure_pool w = (Return u, w1) ->
            py_int (or_default limit (VInt 10)) = Raise e
            \/ py_int (or_default offset (VInt 0)) = Raise e ->
            documents = VList [] /\ w' = w1)
      /\ (documents = VList []
          \/ exists sql params w1,
               db_fetch_documents sql params w1 = (Return documents, w')).
Proof.
  intros keywords date_from date_to document_type agency topic
         presidential_doc_type executive_order limit offset w.
  rewrite search_tool_unfold. cbv zeta.
  destruct (db_ensure_pool w) as [[u|e] w1].
  2:{ do 2 eexists. split; [reflexivity|]. split; [|split].
      - intros e0 w0 E. injection E as _ <-. auto.
      - intros u w0 e0 E. discriminate E.
      - now left. }
  destruct (py_int (or_default limit (VInt 10))) as [limit'|e].
  2:{ do 2 eexists. split; [reflexivity|]. split; [|split].
      - intros e0 w0 E. discriminate E.
      - intros u0 w0 e0 E _. injection E as _ <-. auto.
      - now left. }
  destruct (py_int (or_default offset (VInt 0))) as [offset'|e].
  2:{ do 2 eexists. split; [reflexivity|]. split; [|split].
      - intros e0 w0 E. discriminate E.
      - intros u0 w0 e0 E _. injection E as _ <-. auto.
      - now left. }
  destruct (db_fetch_documents _ _ w1) as [[documents|e] w2] eqn:Hf.
  - do 2 eexists. split; [reflexivity|]. split; [|split].
    + intros e0 w0 E. discriminate E.
    + intros u0 w0 e0 _ [E|E]; discriminate E.
    + right. eauto.
  - do 2 eexists. split; [reflexivity|]. split; [|split].
    + intros e0 w0 E. discriminate E.
    + intros u0 w0 e0 _ [E|E]; discriminate E.
    + now left.
Qed.

(** X17.  For the search of the tools a filter that is falsy (None,
    the empty text, zero, false, an empty list or dict) is the same
    as a filter left out, and a limit or an offset None is the same
    as the default 10 or 0: the search runs the same query and
    returns the same. *)
Theorem falsy_filters_are_ignored `{Python} `{Platform} :
  forall (keywords date_from date_to document_type agency topic
          presidential_doc_type executive_order limit offset : value)
         (w : World),
    FederalRegistryTools.search_documents keywords date_from date_to
      document_type agency topic presidential_doc_type executive_order
      limit offset w
    = FederalRegistryTools.search_documents
        (given keywords) (given date_from) (given date_to)
        (given document_type) (given agency) (given topic)
        (given presidential_doc_type) (given executive_order)
        (or_default limit (VInt 10)) (or_default offset (VInt 0)) w.
Proof.
  intros keywords date_from date_to document_type agency topic
         presidential_doc_type executive_order limit offset w.
  rewrite !search_tool_unfold. cbv zeta.
  rewrite !or_default_twice by discriminate.
  destruct (where_given
              (search_arguments keywords date_from date_to document_type
                 agency topic presidential_doc_type executive_order
                 limit offset)
              (search_arguments (given keywords) (given date_from)
                 (given date_to) (given document_type) (given agency)
                 (given topic) (given presidential_doc_type)
                 (given executive_order)
                 (or_default limit (VInt 10)) (or_default offset (VInt 0))))
    as [Hc Hp].
  { intros k Hk. cbn in Hk.
    repeat (destruct Hk as [<-|Hk]; [reflexivity|]). contradiction. }
  now rewrite Hc, Hp.
Qed.

(** X18.  The search by date range with two non-empty texts and an int
    limit asks the database for the documents whose publication date
    lies between the two texts, newest first, at most limit of them
    from offset 0; the texts are passed on as they are, neither their
    form nor their order is checked.  With the empty text as start
    date the query has no lower bound. *)
Theorem date_range_search_query `{Python} `{Platform} :
  forall (start_date end_date : string) (limit : Z) (w : World),
    String.eqb start_date EmptyString = false ->
    String.eqb end_date EmptyString = false ->
    FederalRegistryTools.search_documents_by_date_range
      (VStr start_date) (VStr end_date) (VInt limit) w
    = guarded_query
        (DatabaseManager.select_documents
         ++ " AND d.publication_date >= %s AND d.publication_date <= %s"
         ++ order_limit)
        [VStr start_date; VStr end_date; VInt limit; VInt 0] w
    /\ FederalRegistryTools.search_documents_by_date_range
         (VStr EmptyString) (VStr end_date) (VInt limit) w
       = guarded_query
           (DatabaseManager.select_documents
            ++ " AND d.publication_date <= %s" ++ order_limit)
           [VStr end_date; VInt limit; VInt 0] w.
Proof.
  intros start_date end_date limit w Hs He.
  unfold FederalRegistryTools.search_documents_by_date_range.
  rewrite !search_tool_unfold, !guarded_query_unfold. cbv zeta.
  unfold where_clause, where_params, active, filter_table, search_arguments.
  cbn [filter fst snd py_get dict_get String.eqb Ascii.eqb Bool.eqb truthy negb].
  rewrite Hs, He.
  cbn [negb map flat_map fst snd params_of app or_default py_int String.concat].
  split; reflexivity.
Qed.

(** X19.  The search by agency and topic with two non-empty texts and
    an int limit asks the database for the documents with an agency
    whose name contains the first text and a topic whose name contains
    the second, newest first, at most limit of them from offset 0.
    The texts are put between percent signs as they are. *)
Theorem agency_topic_search_query `{Python} `{Platform} :
  forall (agency topic : string) (limit : Z) (w : World),
    String.eqb agency EmptyString = false ->
    String.eqb topic EmptyString = false ->
    FederalRegistryTools.search_by_agency_and_topic
      (VStr agency) (VStr topic) (VInt limit) w
    = guarded_query
        (DatabaseManager.select_documents
         ++ " AND a.agency_name LIKE %s AND t.topic_name LIKE %s"
         ++ order_limit)
        [VStr ("%" ++ agency ++ "%"); VStr ("%" ++ topic ++ "%");
         VInt limit; VInt 0] w.
Proof.
  intros agency topic limit w Ha Ht.
  unfold FederalRegistryTools.search_by_agency_and_topic.
  rewrite search_tool_unfold, guarded_query_unfold. cbv zeta.
  unfold where_clause, where_params, active, filter_table, search_arguments.
  cbn [filter fst snd py_get dict_get String.eqb Ascii.eqb Bool.eqb truthy negb].
  rewrite Ha, Ht.
  cbn [negb map flat_map fst snd params_of app or_default py_int String.concat
       py_str].
  reflexivity.
Qed.

(** X20.  With an int limit the recent documents of the tools are the
    search of the tools with this limit and nothing else: one query
    without conditions, newest first, at most limit rows from offset
    0, and the empty list when the database raises. *)
Theorem recent_documents_is_unfiltered_search `{Python} `{Platform} :
  forall (limit : Z) (w : World),
    FederalRegistryTools.get_recent_documents (VInt limit) w
    = FederalRegistryTools.search_documents
        VNone VNone VNone VNone VNone VNone VNone VNone (VInt limit) (VInt 0) w
    /\ FederalRegistryTools.get_recent_documents (VInt limit) w
       = guarded_query
           (DatabaseManager.select_documents ++ order_limit)
           [VInt limit; VInt 0] w.
Proof.
  intros limit w.
  assert (E : FederalRegistryTools.get_recent_documents (VInt limit) w
              = guarded_query
                  (DatabaseManager.select_documents ++ order_limit)
                  [VInt limit; VInt 0] w).
  { unfold FederalRegistryTools.get_recent_documents,
      DatabaseManager.get_recent_documents, try_except.
    rewrite search_documents_query, guarded_query_unfold.
    destruct (db_ensure_pool w) as [[u|e] w1]; reflexivity. }
  split; [|exact E]. rewrite E.
  rewrite search_tool_unfold, guarded_query_unfold. reflexivity.
Qed.

(** X21.  A limit None is not the same for the two tools.  The recent
    documents pass it on to the database manager, where the
    conversion to an int raises: the tool returns the empty list
    without a query.  The search drops it and asks for ten rows. *)
Theorem none_limit_differs `{Python} `{Platform} :
  forall (w w1 : World) (u : unit) (e : exn),
    py_int_conv VNone = Raise e ->
    db_ensure_pool w = (Return u, w1) ->
    FederalRegistryTools.get_recent_documents VNone w
    = (Return (VList []), w1)
    /\ FederalRegistryTools.search_documents
         VNone VNone VNone VNone VNone VNone VNone VNone VNone (VInt 0) w
       = guarded_query
           (DatabaseManager.select_documents ++ order_limit)
           [VInt 10; VInt 0] w.
Proof.
  intros w w1 u e Hint Hpool. split.
  - unfold FederalRegistryTools.get_recent_documents,
      DatabaseManager.get_recent_documents, try_except.
    rewrite search_documents_query, Hpool.
    cbn [py_get dict_get String.eqb Ascii.eqb Bool.eqb py_int].
    now rewrite Hint.
  - rewrite search_tool_unfold, guarded_query_unfold. reflexivity.
Qed.

(** ** The search endpoint *)

Section Endpoint.
Context `{Python} `{Platform} `{Pydantic}.

Lemma search_text_answer
  (query : string) (chat_id : option string) (s s' : agent) (answer : value) :
  process_message query chat_id s = (Return answer, s') ->
  is_dict answer = false ->
  Api.search query chat_id s = (Api.SearchResponse (py_str answer), s').
Proof.
  intros E Hd. unfold Api.search, Api.search_body, bind. rewrite E.
  destruct answer; try discriminate Hd; reflexivity.
Qed.

End Endpoint.

(** X22.  The search endpoint answers every request whose turn gives
    an answer that is not a dict with the response model holding
    str(answer): the text itself when the answer is a text.  In
    particular a turn in which a gateway call failed is answered with
    the apology in a normal response, not with an HTTP error. *)
Theorem endpoint_answers_in_text `{Python} `{Platform} `{Pydantic} :
  forall (query : string) (chat_id : option string) (s : agent),
  exists answer s' calls,
    process_message query chat_id s = (Return answer, s')
    /\ gateway_log s' = (gateway_log s ++ calls)%list
    /\ (is_dict answer = false ->
        Api.search query chat_id s
        = (Api.SearchResponse (py_str answer), s'))
    /\ (existsb failed calls = true ->
        Api.search query chat_id s = (Api.SearchResponse apology, s')).
Proof.
  intros query chat_id s.
  destruct (process_message_runs query chat_id s) as (o & s' & calls & R & E).
  exists (answer_of o), s', calls. split; [exact E|].
  split; [exact (try_block_run_log _ _ _ _ _ R)|].
  split; [now apply search_text_answer|].
  intros Hf.
  assert (Ho : answer_of o = VStr apology).
  { destruct R; try reflexivity; cbn in Hf; discriminate Hf. }
  rewrite Ho in E. exact (search_text_answer _ _ _ _ _ E eq_refl).
Qed.

(** X23.  When the answer of the turn is a dict, the endpoint looks
    into it.  A dict whose message is a dict with a text as content is
    answered with that text, a dict without such a message and with a
    text as content with that text, a dict with neither key with
    str(answer).  A dict whose message is a text that contains the
    word content is answered with the HTTP error 500: the test finds
    the word in the text, and the lookup that follows raises. *)
Theorem endpoint_on_dict_answers `{Python} `{Platform} `{Pydantic} :
  forall (query : string) (chat_id : option string) (s s' : agent)
         (answer : dict),
    process_message query chat_id s = (Return (VDict answer), s') ->
    (forall msg text,
       dict_get "message" answer = Some (VDict msg) ->
       dict_get "content" msg = Some (VStr text) ->
       Api.search query chat_id s = (Api.SearchResponse text, s'))
    /\ (forall text,
          dict_has "message" answer = false ->
          dict_get "content" answer = Some (VStr text) ->
          Api.search query chat_id s = (Api.SearchResponse text, s'))
    /\ (dict_has "message" answer = false ->
        dict_has "content" answer = false ->
        Api.search query chat_id s
        = (Api.SearchResponse (py_str (VDict answer)), s'))
    /\ (forall text,
          dict_get "message" answer = Some (VStr text) ->
          Api.str_contains "content" text = true ->
          exists detail,
            Api.search query chat_id s = (Api.HTTPException 500 detail, s')).
Proof.
  intros query chat_id s s' answer E.
  unfold Api.search, Api.search_body, bind. rewrite E.
  unfold Api.has_message_content, lift, getitem, dict_has.
  split; [|split; [|split]].
  - intros msg text Hm Hc. rewrite Hm. cbn [Api.py_in].
    unfold dict_has. rewrite Hc. reflexivity.
  - intros text Hm Hc.
    destruct (dict_get "message" answer); [discriminate Hm|].
    rewrite Hc. reflexivity.
  - intros Hm Hc.
    destruct (dict_get "message" answer); [discriminate Hm|].
    destruct (dict_get "content" answer); [discriminate Hc|].
    reflexivity.
  - intros text Hm Hc. rewrite Hm. cbn [Api.py_in]. rewrite Hc.
    eexists. reflexivity.
Qed.

(** ** The clean texts of the processor *)

Module CleanText.
Import FederalRegistryProcessor.

Lemma all_chars_app (p : ascii -> bool) (s t : string) :
  all_chars p (s ++ t) = all_chars p s && all_chars p t.
Proof.
  induction s as [|c s IH]; [reflexivity|].
  cbn [append all_chars]. now rewrite IH, andb_assoc.
Qed.

(** *** The substitutions *)

Lemma tag_end_shrinks (s rest : string) :
  tag_end s = Some rest -> (String.length rest < String.length s)%nat.
Proof.
  revert rest. induction s as [|c s IH]; intros rest E; [discriminate|].
  cbn [tag_end] in E. destruct (Ascii.eqb c ">").
  - injection E as <-. cbn. lia.
  - apply IH in E. cbn. lia.
Qed.

Lemma match_tag_shrinks : shrinks match_tag.
Proof.
  intros s rest E. destruct s as [|c0 [|c1 s']]; try discriminate.
  cbn [match_tag] in E.
  destruct (Ascii.eqb c0 "<" && negb (Ascii.eqb c1 ">")); [|discriminate].
  apply tag_end_shrinks in E. cbn. lia.
Qed.

Lemma sub_from_fuel (match_here : string -> option string) (repl : string) :
  shrinks match_here ->
  forall fuel fuel' s,
    (String.length s <= fuel)%nat -> (String.length s <= fuel')%nat ->
    sub_from match_here repl fuel s = sub_from match_here repl fuel' s.
Proof.
  intros Hs.
  assert (Hempty : forall fuel, sub_from match_here repl fuel EmptyString
                                = EmptyString).
  { intros [|fuel]; [reflexivity|]. cbn [sub_from].
    destruct (match_here EmptyString) as [rest|] eqn:E; [|reflexivity].
    apply Hs in E. cbn in E. lia. }
  induction fuel as [|fuel IH]; intros fuel' s Hl Hl'.
  - destruct s; [|cbn in Hl; lia]. now rewrite !Hempty.
  - destruct fuel' as [|fuel'].
    + destruct s; [|cbn in Hl'; lia]. now rewrite !Hempty.
    + cbn [sub_from]. destruct (match_here s) as [rest|] eqn:E.
      * pose proof (Hs _ _ E). f_equal. apply IH; lia.
      * destruct s as [|c s']; [reflexivity|]. f_equal.
        cbn in Hl, Hl'. apply IH; lia.
Qed.

(** A text without a less-than sign holds no tag. *)
Lemma sub_tags_plain (fuel : nat) :
  forall s,
    all_chars (fun c => negb (Ascii.eqb c "<")) s = true ->
    sub_from match_tag " " fuel s = s.
Proof.
  induction fuel as [|fuel IH]; intros s Hs; [reflexivity|].
  destruct s as [|c0 s']; [reflexivity|].
  cbn [all_chars] in Hs. apply andb_prop in Hs. destruct Hs as [Hc Hs].
  cbn [sub_from].
  assert (E : match_tag (String c0 s') = None).
  { destruct s' as [|c1 s'']; [reflexivity|]. cbn [match_tag].
    destruct (Ascii.eqb c0 "<"); [discriminate Hc | reflexivity]. }
  rewrite E. now rewrite (IH s' Hs).
Qed.

(** Before the first less-than sign nothing changes. *)
Lemma sub_tags_prefix (a : string) :
  all_chars (fun c => negb (Ascii.eqb c "<")) a = true ->
  forall fuel X,
    X <> EmptyString ->
    sub_from match_tag " " (String.length a + fuel) (a ++ X)
    = a ++ sub_from match_tag " " fuel X.
Proof.
  induction a as [|c0 a IH]; intros Ha fuel X HX; [reflexivity|].
  cbn [all_chars] in Ha. apply andb_prop in Ha. destruct Ha as [Hc Ha].
  cbn [String.length Nat.add append sub_from].
  assert (E : match_tag (String c0 (a ++ X)) = None).
  { destruct (a ++ X) as [|c1 s'']; [reflexivity|]. cbn [match_tag].
    destruct (Ascii.eqb c0 "<"); [discriminate Hc | reflexivity]. }
  rewrite E. now rewrite (IH Ha fuel X HX).
Qed.

Lemma tag_end_found (b c : string) :
  all_chars (fun x => negb (Ascii.eqb x ">")) b = true ->
  tag_end (b ++ ">" ++ c) = Some c.
Proof.
  induction b as [|x b IH]; intros Hb; [reflexivity|].
  cbn [all_chars] in Hb. apply andb_prop in Hb. destruct Hb as [Hx Hb].
  cbn [append tag_end]. destruct (Ascii.eqb x ">"); [discriminate Hx|].
  now apply IH.
Qed.

Lemma sub_tags_after_prefix (a X : string) (fuel : nat) :
  all_chars (fun c => negb (Ascii.eqb c "<")) a = true ->
  X <> EmptyString ->
  (String.length (a ++ X) <= fuel)%nat ->
  sub_from match_tag " " fuel (a ++ X)
  = a ++ sub_from match_tag " " (S (String.length X)) X.
Proof.
  intros Ha HX Hl. rewrite length_append in Hl.
  replace fuel with (String.length a + (fuel - String.length a))%nat by lia.
  rewrite (sub_tags_prefix a Ha _ X HX). f_equal.
  apply (sub_from_fuel match_tag " " match_tag_shrinks); lia.
Qed.

Lemma sub_from_step (match_here : string -> option string) (repl : string)
  (fuel : nat) (s : string) :
  sub_from match_here repl (S fuel) s
  = match match_here s with
    | Some rest => repl ++ sub_from match_here repl fuel rest
    | None =>
        match s with
        | EmptyString => EmptyString
        | String c s' => String c (sub_from match_here repl fuel s')
        end
    end.
Proof. reflexivity. Qed.

Lemma match_tag_stretch (b c : string) :
  b <> EmptyString ->
  all_chars (fun x => negb (Ascii.eqb x ">")) b = true ->
  match_tag ("<" ++ b ++ ">" ++ c) = Some c.
Proof.
  intros Hne Hb. destruct b as [|b0 b']; [contradiction|].
  cbn [all_chars] in Hb. apply andb_prop in Hb. destruct Hb as [Hb0 Hb'].
  cbn [append match_tag]. change (Ascii.eqb "<" "<") with true.
  rewrite Hb0. cbn [andb]. exact (tag_end_found b' c Hb').
Qed.

Lemma re_sub_tag_stretch (a b c : string) :
  all_chars (fun x => negb (Ascii.eqb x "<")) a = true ->
  b <> EmptyString ->
  all_chars (fun x => negb (Ascii.eqb x ">")) b = true ->
  re_sub match_tag " " (a ++ "<" ++ b ++ ">" ++ c)
  = re_sub match_tag " " (a ++ " " ++ c).
Proof.
  intros Ha Hne Hb. unfold re_sub.
  rewrite !(sub_tags_after_prefix a) by (try discriminate; try assumption; lia).
  f_equal. rewrite !sub_from_step, (match_tag_stretch b c Hne Hb).
  replace (match_tag (" " ++ c)) with (@None string)
    by (destruct c; reflexivity).
  cbn [append]. f_equal.
  apply (sub_from_fuel match_tag " " match_tag_shrinks);
    cbn [String.length]; rewrite ?length_append; cbn [String.length]; lia.
Qed.

(** A text whose whitespace is single spaces between words holds no
    longer run of whitespace. *)
Lemma lstrip_starts_clean (s : string) : starts_clean s = true -> lstrip s = s.
Proof.
  destruct s as [|c s]; [reflexivity|]. cbn [starts_clean lstrip].
  now destruct (is_space c).
Qed.

Lemma sub_spaces_spaced (fuel : nat) :
  forall s, spaced s = true -> sub_from match_spaces " " fuel s = s.
Proof.
  induction fuel as [|fuel IH]; intros s Hs; [reflexivity|].
  destruct s as [|c s']; [reflexivity|].
  cbn [spaced] in Hs. apply andb_prop in Hs. destruct Hs as [Hc Hs].
  cbn [sub_from match_spaces]. destruct (is_space c).
  - apply andb_prop in Hc. destruct Hc as [Hc Hnext].
    apply Ascii.eqb_eq in Hc. subst c.
    rewrite lstrip_starts_clean by (destruct s'; [discriminate Hnext | exact Hnext]).
    cbn [append]. now rewrite (IH s' Hs).
  - now rewrite (IH s' Hs).
Qed.

Lemma sub_special_plain (fuel : nat) :
  forall s, all_chars is_plain s = true -> sub_from match_special " " fuel s = s.
Proof.
  induction fuel as [|fuel IH]; intros s Hs; [reflexivity|].
  destruct s as [|c s']; [reflexivity|].
  cbn [all_chars] in Hs. apply andb_prop in Hs. destruct Hs as [Hc Hs].
  cbn [sub_from match_special]. unfold is_plain in Hc.
  destruct (is_special c); [discriminate Hc|]. now rewrite (IH s' Hs).
Qed.

(** After the last substitution every character is plain. *)
Lemma sub_special_all_plain (fuel : nat) :
  forall s,
    (String.length s <= fuel)%nat ->
    all_chars is_plain (sub_from match_special " " fuel s) = true.
Proof.
  induction fuel as [|fuel IH]; intros s Hl.
  - destruct s; [reflexivity | cbn in Hl; lia].
  - destruct s as [|c s']; [reflexivity|]. cbn in Hl.
    cbn [sub_from match_special]. destruct (is_special c) eqn:Hc.
    + cbn [append all_chars]. rewrite IH by lia. reflexivity.
    + cbn [all_chars]. unfold is_plain at 1. rewrite Hc. cbn [negb andb].
      apply IH. lia.
Qed.

(** *** Splitting and joining *)

Lemma split_from_words (s : string) :
  forall word,
    all_chars is_word_char word = true ->
    all_chars is_plain s = true ->
    Forall clean_word (split_from word s).
Proof.
  induction s as [|c s IH]; intros word Hw Hs.
  - cbn [split_from]. destruct word; [constructor|].
    repeat constructor; [discriminate | exact Hw].
  - cbn [all_chars] in Hs. apply andb_prop in Hs. destruct Hs as [Hc Hs].
    cbn [split_from]. destruct (is_space c) eqn:Hsp.
    + destruct word.
      * now apply IH.
      * constructor; [split; [discriminate | exact Hw]|]. now apply IH.
    + apply IH; [|exact Hs]. rewrite all_chars_app, Hw. cbn [all_chars].
      unfold is_word_char. now rewrite Hsp, Hc.
Qed.

Lemma word_starts_clean (w rest : string) :
  clean_word w -> starts_clean (w ++ rest) = true.
Proof.
  intros [Hne Hw]. destruct w as [|c w]; [contradiction|].
  cbn [all_chars] in Hw. apply andb_prop in Hw. destruct Hw as [Hc _].
  unfold is_word_char in Hc. apply andb_prop in Hc. now destruct Hc as [Hc _].
Qed.

Lemma word_spaced (w rest : string) :
  all_chars is_word_char w = true -> spaced (w ++ rest) = spaced rest.
Proof.
  induction w as [|c w IH]; intros Hw; [reflexivity|].
  cbn [all_chars] in Hw. apply andb_prop in Hw. destruct Hw as [Hc Hw].
  unfold is_word_char in Hc. apply andb_prop in Hc. destruct Hc as [Hc _].
  cbn [append spaced]. apply negb_true_iff in Hc. rewrite Hc. now apply IH.
Qed.

Lemma word_plain (w : string) :
  all_chars is_word_char w = true -> all_chars is_plain w = true.
Proof.
  induction w as [|c w IH]; intros Hw; [reflexivity|].
  cbn [all_chars] in *. apply andb_prop in Hw. destruct Hw as [Hc Hw].
  unfold is_word_char in Hc. apply andb_prop in Hc. destruct Hc as [_ Hc].
  now rewrite Hc, IH.
Qed.

Lemma concat_cons (w : string) (l : list string) :
  String.concat " " (w :: l)
  = w ++ match l with [] => EmptyString | _ => " " ++ String.concat " " l end.
Proof.
  destruct l; cbn [String.concat]; [now rewrite append_nil_r | reflexivity].
Qed.

Lemma concat_words_normalized (l : list string) :
  Forall clean_word l -> normalized (String.concat " " l) = true.
Proof.
  induction 1 as [|w l Hw Hl IH]; [reflexivity|].
  rewrite concat_cons. unfold normalized in *.
  apply andb_prop in IH. destruct IH as [IH Hplain].
  apply andb_prop in IH. destruct IH as [Hstart Hspaced].
  rewrite (word_starts_clean _ _ Hw). destruct Hw as [Hne Hw].
  rewrite (word_spaced _ _ Hw), all_chars_app, (word_plain _ Hw).
  destruct l as [|x l']; [reflexivity|].
  cbn [append spaced all_chars andb].
  change (is_space " ") with true. change (Ascii.eqb " " " ") with true.
  change (is_plain " ") with true. cbn [andb].
  rewrite Hspaced, Hplain.
  destruct (String.concat " " (x :: l')) as [|c rest] eqn:E.
  - exfalso. inversion Hl as [|y l0 [Hx _] _]; subst.
    rewrite concat_cons in E. destruct x; [contradiction | discriminate E].
  - cbn [starts_clean] in Hstart. now rewrite Hstart.
Qed.

Lemma split_from_nonempty (s : string) :
  forall word, word <> EmptyString -> split_from word s <> [].
Proof.
  induction s as [|c s IH]; intros word Hw.
  - cbn [split_from]. destruct word; [contradiction | discriminate].
  - cbn [split_from]. destruct (is_space c).
    + destruct word; [contradiction | discriminate].
    + apply IH. destruct word; discriminate.
Qed.

(** Joining the words of a text whose whitespace is single spaces
    between words gives the text back. *)
Lemma join_split_spaced (s : string) :
  forall word,
    spaced s = true ->
    (word = EmptyString -> starts_clean s = true) ->
    String.concat " " (split_from word s) = word ++ s.
Proof.
  induction s as [|c s IH]; intros word Hs Hstart.
  - cbn [split_from]. destruct word; [reflexivity|].
    cbn [String.concat]. now rewrite append_nil_r.
  - cbn [spaced] in Hs. apply andb_prop in Hs. destruct Hs as [Hc Hs].
    cbn [split_from]. destruct (is_space c) eqn:Hsp.
    + apply andb_prop in Hc. destruct Hc as [Hc Hnext].
      apply Ascii.eqb_eq in Hc. subst c.
      destruct word as [|w0 word].
      * specialize (Hstart eq_refl). cbn [starts_clean] in Hstart.
        rewrite Hsp in Hstart. discriminate Hstart.
      * rewrite concat_cons.
        assert (Hs' : starts_clean s = true)
          by (destruct s; [discriminate Hnext | exact Hnext]).
        pose proof (IH EmptyString Hs (fun _ => Hs')) as E. cbn [append] in E.
        destruct (split_from EmptyString s) as [|x l] eqn:El.
        -- destruct s as [|c' s']; [discriminate Hnext|].
           cbn [split_from] in El. cbn [starts_clean] in Hs'.
           apply negb_true_iff in Hs'. rewrite Hs' in El.
           exfalso. revert El. apply split_from_nonempty. discriminate.
        -- now rewrite E.
    + rewrite IH; [|exact Hs|].
      * now rewrite append_assoc.
      * intros E. destruct word; discriminate E.
Qed.

(** *** Stripping *)

Lemma spaced_not_all_space (s : string) :
  spaced s = true -> s <> EmptyString -> all_space s = false.
Proof.
  destruct s as [|c s]; intros Hs Hne; [contradiction|].
  cbn [spaced] in Hs. apply andb_prop in Hs. destruct Hs as [Hc _].
  cbn [all_space]. destruct (is_space c); [|reflexivity].
  apply andb_prop in Hc. destruct Hc as [_ Hnext].
  destruct s as [|c' s']; [discriminate Hnext|].
  cbn [all_space]. apply negb_true_iff in Hnext. now rewrite Hnext.
Qed.

Lemma rstrip_spaced (s : string) : spaced s = true -> rstrip s = s.
Proof.
  induction s as [|c s IH]; intros Hs; [reflexivity|].
  cbn [rstrip]. rewrite (spaced_not_all_space _ Hs) by discriminate.
  cbn [spaced] in Hs. apply andb_prop in Hs. destruct Hs as [_ Hs].
  now rewrite IH.
Qed.

Lemma strip_normalized (s : string) : normalized s = true -> strip s = s.
Proof.
  unfold normalized. intros Hn.
  apply andb_prop in Hn. destruct Hn as [Hn _].
  apply andb_prop in Hn. destruct Hn as [Hstart Hs].
  unfold strip. rewrite (lstrip_starts_clean _ Hstart). now apply rstrip_spaced.
Qed.

(** *** The clean text of a text *)

Lemma clean_text_of_str (s : string) :
  exists clean,
    _clean_text (VStr s) = Return clean /\ normalized clean = true.
Proof.
  unfold _clean_text. cbn [truthy]. destruct (String.eqb s EmptyString).
  - exists EmptyString. split; reflexivity.
  - cbn [negb]. eexists. split; [reflexivity|].
    set (t := re_sub match_special " " _).
    assert (Hn : normalized (String.concat " " (split t)) = true).
    { apply concat_words_normalized, split_from_words; [reflexivity|].
      apply sub_special_all_plain. lia. }
    now rewrite (strip_normalized _ Hn).
Qed.

Lemma clean_text_fixed (clean : string) :
  normalized clean = true -> _clean_text (VStr clean) = Return clean.
Proof.
  intros Hn. unfold _clean_text. cbn [truthy].
  destruct (String.eqb_spec clean EmptyString) as [->|_]; [reflexivity|].
  cbn [negb]. pose proof Hn as Hn'. unfold normalized in Hn'.
  apply andb_prop in Hn'. destruct Hn' as [Hn' Hplain].
  apply andb_prop in Hn'. destruct Hn' as [Hstart Hs].
  unfold re_sub at 3. rewrite sub_tags_plain.
  2:{ clear -Hplain. induction clean as [|c s IH]; [reflexivity|].
      cbn [all_chars] in *. apply andb_prop in Hplain.
      destruct Hplain as [Hc Hp]. rewrite (IH Hp), andb_true_r.
      destruct (Ascii.eqb_spec c "<") as [->|_]; [discriminate Hc | reflexivity]. }
  unfold re_sub at 2. rewrite (sub_spaces_spaced _ _ Hs).
  unfold re_sub. rewrite (sub_special_plain _ _ Hplain).
  unfold split. rewrite (join_split_spaced clean EmptyString Hs (fun _ => Hstart)).
  cbn [append]. now rewrite (strip_normalized _ Hn).
Qed.

End CleanText.

(** X24.  The clean text of a falsy value (None, the empty text, zero,
    false, an empty list) is the empty text; the clean text of a text
    of characters below 256 is normalized: it holds word characters,
    the punctuation . , ; : ! ? - and single spaces between words,
    with no whitespace at either end; for a truthy value that is not a
    text the function raises. *)
Theorem clean_text_is_normalized :
  forall text : value,
    (truthy text = false ->
     FederalRegistryProcessor._clean_text text = Return EmptyString)
    /\ (forall s,
          text = VStr s ->
          exists clean,
            FederalRegistryProcessor._clean_text text = Return clean
            /\ normalized clean = true)
    /\ (truthy text = true -> is_str text = false ->
        exists e, FederalRegistryProcessor._clean_text text = Raise e).
Proof.
  intros text. split; [|split].
  - intros Ht. unfold FederalRegistryProcessor._clean_text. now rewrite Ht.
  - intros s ->. apply CleanText.clean_text_of_str.
  - intros Ht Hs. unfold FederalRegistryProcessor._clean_text. rewrite Ht.
    destruct text; try discriminate Hs; eexists; reflexivity.
Qed.

(** X25.  The normalized texts are exactly the texts that cleaning
    leaves as they are, and cleaning is idempotent: the clean text of
    a clean text is this text. *)
Theorem clean_text_fixed_points :
  forall clean : string,
    (normalized clean = true
     <-> FederalRegistryProcessor._clean_text (VStr clean) = Return clean)
    /\ (forall text,
          FederalRegistryProcessor._clean_text text = Return clean ->
          FederalRegistryProcessor._clean_text (VStr clean) = Return clean).
Proof.
  intros clean.
  assert (Hfix : FederalRegistryProcessor._clean_text (VStr clean) = Return clean
                 -> normalized clean = true).
  { intros E. destruct (CleanText.clean_text_of_str clean) as (c & E' & Hn).
    rewrite E in E'. injection E' as <-. exact Hn. }
  split; [split; [apply CleanText.clean_text_fixed | exact Hfix]|].
  intros text E. apply CleanText.clean_text_fixed.
  destruct (truthy text) eqn:Ht.
  - destruct text; unfold FederalRegistryProcessor._clean_text in E;
      rewrite Ht in E; try discriminate E.
    destruct (CleanText.clean_text_of_str s) as (c & E' & Hn).
    unfold FederalRegistryProcessor._clean_text in E'. rewrite Ht in E'.
    cbn [negb] in E, E'. rewrite E in E'. injection E' as <-. exact Hn.
  - unfold FederalRegistryProcessor._clean_text in E. rewrite Ht in E.
    injection E as <-. reflexivity.
Qed.

(** X26.  Cleaning deletes every stretch from a less-than sign to the
    next greater-than sign, whether it is a tag or not: a text in
    which such a stretch follows a part without a less-than sign has
    the clean text of the text with a space in place of the stretch.
    So of a comparison like x < 5 and y > 3 only x 3 is left. *)
Theorem tag_like_stretch_is_deleted :
  forall a b c : string,
    all_chars (fun x => negb (Ascii.eqb x "<")) a = true ->
    b <> EmptyString ->
    all_chars (fun x => negb (Ascii.eqb x ">")) b = true ->
    FederalRegistryProcessor._clean_text (VStr (a ++ "<" ++ b ++ ">" ++ c))
    = FederalRegistryProcessor._clean_text (VStr (a ++ " " ++ c)).
Proof.
  intros a b c Ha Hne Hb. unfold FederalRegistryProcessor._clean_text.
  cbn [truthy].
  replace (String.eqb (a ++ "<" ++ b ++ ">" ++ c) EmptyString) with false
    by (destruct a; reflexivity).
  replace (String.eqb (a ++ " " ++ c) EmptyString) with false
    by (destruct a; reflexivity).
  cbn [negb]. now rewrite (CleanText.re_sub_tag_stretch a b c Ha Hne Hb).
Qed.

(** ** The documents and the files of the processor *)

Section Processor.
Context `{Files}.
Import FederalRegistryProcessor.

Lemma clean_text_normalized (text : value) (clean : string) :
  _clean_text text = Return clean -> normalized clean = true.
Proof.
  intros E. destruct (truthy text) eqn:Ht.
  - destruct text; unfold _clean_text in E; rewrite Ht in E;
      try discriminate E.
    destruct (CleanText.clean_text_of_str s) as (c & E' & Hn).
    unfold _clean_text in E'. rewrite Ht in E'.
    cbn [negb] in E, E'. rewrite E in E'. injection E' as <-. exact Hn.
  - unfold _clean_text in E. rewrite Ht in E. injection E as <-. reflexivity.
Qed.

(** The document that the body of the loop builds. *)
Lemma process_doc_dict (d : dict) (disk : Disk) :
  process_doc (VDict d) disk
  = match agency_names d with
    | Raise e => (Raise e, disk)
    | Return agencies =>
        match now_isoformat disk with
        | (Raise e, disk1) => (Raise e, disk1)
        | (Return processed_at, disk1) =>
            match _clean_text (py_get "title" VNone d) with
            | Raise e => (Raise e, disk1)
            | Return title =>
                match _clean_text (py_get "abstract" (VStr EmptyString) d) with
                | Raise e => (Raise e, disk1)
                | Return abstract =>
                    match _clean_text (py_get "raw_text" (VStr EmptyString) d) with
                    | Raise e => (Raise e, disk1)
                    | Return raw_text =>
                        (Return
                           (VDict
                              [ ("document_number", py_get "document_number" VNone d);
                                ("publication_date", py_get "publication_date" VNone d);
                                ("title", VStr title);
                                ("type", py_get "type" VNone d);
                                ("abstract", VStr abstract);
                                ("html_url", py_get "html_url" VNone d);
                                ("pdf_url", py_get "pdf_url" VNone d);
                                ("full_text_xml_url", py_get "full_text_xml_url" VNone d);
                                ("agencies", VList agencies);
                                ("docket_ids", py_get "docket_ids" (VList []) d);
                                ("regulation_id_numbers",
                                 py_get "regulation_id_numbers" (VList []) d);
                                ("comments_close_date", py_get "comments_close_date" VNone d);
                                ("effective_date", py_get "effective_date" VNone d);
                                ("citation", py_get "citation" VNone d);
                                ("page_length", py_get "page_length" VNone d);
                                ("start_page", py_get "start_page" VNone d);
                                ("end_page", py_get "end_page" VNone d);
                                ("raw_text", VStr raw_text);
                                ("processed_at", VStr processed_at) ]),
                         disk1)
                    end
                end
            end
        end
    end.
Proof.
  unfold process_doc, bind, lift, ret.
  destruct (agency_names d) as [agencies|e]; [|reflexivity].
  destruct (now_isoformat disk) as [[processed_at|e] disk1]; [|reflexivity].
  unfold clean_fields, dict_has, getitem.
  cbn [dict_get dict_set String.eqb Ascii.eqb Bool.eqb].
  destruct (_clean_text (py_get "title" VNone d)) as [title|e]; [|reflexivity].
  cbn [dict_get dict_set String.eqb Ascii.eqb Bool.eqb].
  destruct (_clean_text (py_get "abstract" (VStr EmptyString) d))
    as [abstract|e]; [|reflexivity].
  cbn [dict_get dict_set String.eqb Ascii.eqb Bool.eqb].
  destruct (_clean_text (py_get "raw_text" (VStr EmptyString) d))
    as [raw_text|e]; reflexivity.
Qed.

Lemma process_doc_not_dict (doc : value) (disk : Disk) :
  is_dict doc = false ->
  exists e, process_doc doc disk = (Raise e, disk).
Proof.
  intros Hd. destruct doc; try discriminate Hd; eexists; reflexivity.
Qed.

(** The loop on a document that is not a dict: the handler raises. *)
Lemma process_documents_not_dict (doc : value) (rest : list value) (disk : Disk) :
  is_dict doc = false ->
  exists e, process_documents (doc :: rest) disk = (Raise e, disk).
Proof.
  intros Hd. cbn [process_documents]. unfold bind at 1, try_except.
  destruct (process_doc_not_dict doc disk Hd) as [e E].
  unfold bind at 1. rewrite E. unfold bind, lift, method_get.
  destruct doc; try discriminate Hd; eexists; reflexivity.
Qed.

(** The loop on a dict: the document is processed or left out, and the
    loop goes on. *)
Lemma process_documents_dict (d : dict) (rest : list value) (disk : Disk) :
  exists disk1,
    snd (process_doc (VDict d) disk) = disk1
    /\ process_documents (VDict d :: rest) disk
       = match process_documents rest disk1 with
         | (Return processed_docs, disk') =>
             (Return (match fst (process_doc (VDict d) disk) with
                      | Return processed_doc => processed_doc :: processed_docs
                      | Raise _ => processed_docs
                      end), disk')
         | (Raise e, disk') => (Raise e, disk')
         end.
Proof.
  eexists. split; [reflexivity|].
  cbn [process_documents]. unfold bind at 1, try_except. unfold bind at 1.
  destruct (process_doc (VDict d) disk) as [[processed_doc|e] disk1];
    cbn [fst snd ret lift method_get bind];
    unfold bind, ret;
    now destruct (process_documents rest disk1) as [[processed_docs|e'] disk'].
Qed.

Lemma process_documents_returns (documents : list value) :
  Forall (fun doc => is_dict doc = true) documents ->
  forall disk,
  exists processed_docs disk',
    process_documents documents disk = (Return processed_docs, disk')
    /\ (List.length processed_docs <= List.length documents)%nat.
Proof.
  induction 1 as [|doc documents Hd _ IH]; intros disk.
  - exists [], disk. split; [reflexivity | cbn; lia].
  - destruct doc; try discriminate Hd.
    destruct (process_documents_dict d documents disk) as (disk1 & _ & E).
    rewrite E. destruct (IH disk1) as (processed_docs & disk' & E' & Hl).
    rewrite E'. do 2 eexists. split; [reflexivity|].
    destruct (fst (process_doc (VDict d) disk)); cbn [List.length]; lia.
Qed.

Lemma process_documents_raises (documents : list value) :
  Exists (fun doc => is_dict doc = false) documents ->
  forall disk,
  exists e disk', process_documents documents disk = (Raise e, disk').
Proof.
  induction documents as [|doc documents IH]; intros Hex disk.
  - inversion Hex.
  - destruct (is_dict doc) eqn:Hd.
    + destruct doc; try discriminate Hd.
      destruct (process_documents_dict d documents disk) as (disk1 & _ & E).
      rewrite E. inversion Hex as [x l Hx|x l Hrest]; subst.
      * cbn in Hx. discriminate Hx.
      * destruct (IH Hrest disk1) as (e & disk' & E'). rewrite E'. eauto.
    + destruct (process_documents_not_dict doc documents disk Hd) as [e E].
      eauto.
Qed.

End Processor.

(** X27.  Every document that the body of the loop of process_data
    builds comes from a dict and is a dict with the nineteen keys of
    the code in their order.  Its title, abstract and raw_text are
    normalized clean texts; document_number, publication_date, type,
    the three urls, the two dates, citation, page_length and the two
    pages are those of the raw document, None when it lacks them.
    It has none of the keys topics, presidential_document_type,
    signing_date, executive_order_number and document_type, whatever
    the raw document holds. *)
Theorem processed_document_shape `{Files} :
  forall (doc processed : value) (disk disk' : Disk),
    FederalRegistryProcessor.process_doc doc disk = (Return processed, disk') ->
    exists d p,
      doc = VDict d /\ processed = VDict p
      /\ keys p = processed_keys
      /\ Forall (fun field =>
                   exists clean,
                     dict_get field p = Some (VStr clean)
                     /\ normalized clean = true)
                ["title"; "abstract"; "raw_text"]
      /\ Forall (fun k => dict_get k p = Some (py_get k VNone d)) copied_keys
      /\ Forall (fun k => dict_get k p = None) missing_keys.
Proof.
  intros doc processed disk disk' E.
  destruct (is_dict doc) eqn:Hd.
  2:{ destruct (process_doc_not_dict doc disk Hd) as [e E'].
      rewrite E' in E. discriminate E. }
  destruct doc; try discriminate Hd. rewrite process_doc_dict in E.
  destruct (FederalRegistryProcessor.agency_names d) as [agencies|e];
    [|discriminate E].
  destruct (now_isoformat disk) as [[processed_at|e] disk1]; [|discriminate E].
  destruct (FederalRegistryProcessor._clean_text (py_get "title" VNone d))
    as [title|e] eqn:Ht; [|discriminate E].
  destruct (FederalRegistryProcessor._clean_text
              (py_get "abstract" (VStr EmptyString) d))
    as [abstract|e] eqn:Ha; [|discriminate E].
  destruct (FederalRegistryProcessor._clean_text
              (py_get "raw_text" (VStr EmptyString) d))
    as [raw_text|e] eqn:Hr; [|discriminate E].
  injection E as <- <-.
  apply clean_text_normalized in Ht, Ha, Hr.
  do 2 eexists. split; [reflexivity|]. split; [reflexivity|].
  split; [reflexivity|]. split; [|split].
  - repeat constructor; eexists; (split; [reflexivity | assumption]).
  - repeat constructor.
  - repeat constructor.
Qed.

(** X28.  In the loop over the documents of a file, a document that is
    not a dict ends the loop with an exception: the handler of the
    inner try asks the document for its number and raises itself.  A
    dict whose processing raises is left out and the loop goes on
    with the next document; a dict that is processed is put before
    the documents the rest of the loop gives. *)
Theorem document_skipped_or_loop_aborted `{Files} :
  forall (doc : value) (rest : list value) (disk : Disk),
    (is_dict doc = false ->
     exists e,
       FederalRegistryProcessor.process_documents (doc :: rest) disk
       = (Raise e, disk))
    /\ (forall e disk1,
          is_dict doc = true ->
          FederalRegistryProcessor.process_doc doc disk = (Raise e, disk1) ->
          FederalRegistryProcessor.process_documents (doc :: rest) disk
          = FederalRegistryProcessor.process_documents rest disk1)
    /\ (forall processed disk1,
          FederalRegistryProcessor.process_doc doc disk
          = (Return processed, disk1) ->
          FederalRegistryProcessor.process_documents (doc :: rest) disk
          = match FederalRegistryProcessor.process_documents rest disk1 with
            | (Return processed_docs, disk') =>
                (Return (processed :: processed_docs), disk')
            | (Raise e, disk') => (Raise e, disk')
            end).
Proof.
  intros doc rest disk. split; [|split].
  - apply process_documents_not_dict.
  - intros e disk1 Hd E. destruct doc; try discriminate Hd.
    destruct (process_documents_dict d rest disk) as (disk2 & Hs & E').
    rewrite E', E in *. cbn [fst snd] in *. subst disk2.
    now destruct (FederalRegistryProcessor.process_documents rest disk1)
      as [[processed_docs|e'] disk'].
  - intros processed disk1 E.
    destruct (is_dict doc) eqn:Hd.
    2:{ destruct (process_doc_not_dict doc disk Hd) as [e E'].
        rewrite E' in E. discriminate E. }
    destruct doc; try discriminate Hd.
    destruct (process_documents_dict d rest disk) as (disk2 & Hs & E').
    rewrite E', E in *. cbn [fst snd] in *. now subst disk2.
Qed.

Section ProcessorFiles.
Context `{Python} `{Files}.
Import FederalRegistryProcessor.

Lemma process_path_result (file_path : string) (disk : Disk) :
  exists processed disk',
    process_path file_path disk = (Return processed, disk')
    /\ (processed = None \/ processed = Some (processed_path file_path)).
Proof.
  unfold process_path, try_except, bind, lift, ret, processed_path.
  destruct (read_text file_path disk) as [[content|e] disk1]; [|eauto].
  destruct (json_loads content) as [data|]; [|eauto].
  destruct (method_get data "results" (VList [])) as [results|e]; [|eauto].
  destruct (py_iter results) as [documents|e]; [|eauto].
  destruct (process_documents documents disk1)
    as [[processed_docs|e] disk2]; [|eauto].
  destruct processed_docs as [|processed_doc processed_docs]; [eauto|].
  destruct (write_text _ _ disk2) as [[u|e] disk3]; eauto.
Qed.

End ProcessorFiles.

(** X29.  A raw file whose results hold an element that is not an
    object gives no processed file, whatever the other documents are:
    the loop over the documents raises, the handler of the file
    catches it, nothing is written and process_data leaves the file
    out. *)
Theorem non_object_document_drops_the_file `{Python} `{Files} :
  forall (file_path content : string) (disk disk1 : Disk) (data : dict)
         (documents : list value),
    read_text file_path disk = (Return content, disk1) ->
    json_loads content = Some (VDict data) ->
    dict_get "results" data = Some (VList documents) ->
    Exists (fun doc => is_dict doc = false) documents ->
    exists e disk',
      FederalRegistryProcessor.process_documents documents disk1
      = (Raise e, disk')
      /\ FederalRegistryProcessor.process_path file_path disk
         = (Return None, disk')
      /\ FederalRegistryProcessor.process_data [file_path] disk
         = (Return [], disk').
Proof.
  intros file_path content disk disk1 data documents Hread Hjson Hres Hex.
  destruct (process_documents_raises documents Hex disk1) as (e & disk' & E).
  exists e, disk'. split; [exact E|].
  assert (Hp : FederalRegistryProcessor.process_path file_path disk
               = (Return None, disk')).
  { unfold FederalRegistryProcessor.process_path, try_except, bind, lift.
    rewrite Hread, Hjson. unfold method_get, py_get. rewrite Hres.
    cbn [FederalRegistryProcessor.py_iter]. now rewrite E. }
  split; [exact Hp|].
  cbn [FederalRegistryProcessor.process_data]. unfold bind, ret.
  now rewrite Hp.
Qed.

(** X30.  process_data never raises.  It returns the paths of the
    processed files of some of the raw files, in the order of the raw
    files: for a raw file either nothing, or the path made of the
    processed directory and of processed_ followed by the base name
    of the raw file. *)
Theorem process_data_returns_processed_paths `{Python} `{Files} :
  forall (file_paths : list string) (disk : Disk),
  exists kept disk',
    FederalRegistryProcessor.process_data file_paths disk
    = (Return (map processed_path kept), disk')
    /\ subsequence kept file_paths.
Proof.
  induction file_paths as [|file_path rest IH]; intros disk.
  - exists [], disk. split; [reflexivity | constructor].
  - destruct (process_path_result file_path disk)
      as (processed & disk1 & E & Hp).
    destruct (IH disk1) as (kept & disk' & E' & Hk).
    cbn [FederalRegistryProcessor.process_data]. unfold bind, ret.
    rewrite E, E'. destruct Hp as [->| ->].
    + exists kept, disk'. split; [reflexivity | now constructor].
    + exists (file_path :: kept), disk'. split; [reflexivity | now constructor].
Qed.

(** ** The further properties on concrete runs *)

(** X1 on a reply with two well-formed blocks and a malformed one. *)
Lemma extracted_requests_have_both_fields_witness :
  Forall (fun tool_call =>
            exists d name parameters,
              tool_call = VDict d
              /\ dict_get "name" d = Some name
              /\ dict_get "parameters" d = Some parameters
              /\ method_get tool_call "name" VNone = Return name
              /\ method_get tool_call "parameters" (VDict []) = Return parameters)
         two_requests.
Proof.
  apply (@extracted_requests_have_both_fields text_python
           (VStr (assemble "Sure: " mixed_blocks)) two_requests).
  vm_compute. reflexivity.
Defined.

(** X2 on a reply whose block is never closed. *)
Lemma unclosed_block_yields_nothing_witness :
  @_extract_tool_calls text_python
    (VStr ("Sure: " ++ fence_open ++ get_topics_call))
  = Return [].
Proof.
  apply (@unclosed_block_yields_nothing text_python "Sure: " get_topics_call).
  - reflexivity.
  - reflexivity.
Defined.

(** X3 on a body with a model name and a message with a second
    field. *)
Lemma gateway_keeps_content_and_role_witness :
  fst (@_ollama_chat_completion scripted [message "user" (VStr "Hello")]
         verbose_agent)
  = Return (VDict [("message", VDict [("content", VStr "Hi");
                                      ("role", VStr "assistant")])]).
Proof.
  pose proof (@gateway_keeps_content_and_role scripted
                [message "user" (VStr "Hello")] verbose_agent verbose_body
                [("content", VStr "Hi"); ("thinking", VStr "...")]
                (january [] topics_tool) eq_refl eq_refl) as E.
  cbv zeta in E. destruct E as [E _]. rewrite E. reflexivity.
Defined.

(** X4 on the body of an error. *)
Lemma body_without_message_gives_empty_answer_witness :
  fst (@process_message text_python scripted "Hello" None error_body_agent)
  = Return (VStr EmptyString).
Proof.
  rewrite (@body_without_message_gives_empty_answer text_python scripted
             "Hello" None error_body_agent error_body
             (january [] topics_tool) eq_refl eq_refl).
  reflexivity.
Defined.

(** X5 on a reply whose content is a number. *)
Lemma unusable_first_reply_gives_apology_witness :
  fst (@process_message text_python scripted "Hello" None number_content_agent)
  = Return (VStr apology).
Proof.
  destruct (@unusable_first_reply_gives_apology text_python scripted
              "Hello" None number_content_agent (reply (VInt 5))
              (january [] topics_tool) eq_refl eq_refl) as [o' E].
  rewrite E. reflexivity.
Defined.

(** X8 after two turns of a session. *)
Lemma reachable_history_shape_witness :
  (List.length (chat_history (snd second_turn)) <= 4)%nat.
Proof.
  refine (proj1 (proj2 (@reachable_history_shape text_python scripted
                          (snd second_turn) _))).
  apply reach_turn, reach_turn, reach_new.
Defined.

(** X9 for the second turn of a session. *)
Lemma reachable_agent_forgets_witness :
  @turn_messages scripted "How many people live there?" (Some "s1")
    (snd first_turn)
  = [ system_message "2025-01-01";
      message "user" (VStr "How many people live there?") ].
Proof.
  refine (proj1 (@reachable_agent_forgets text_python scripted
                   (snd first_turn) "How many people live there?" (Some "s1")
                   _)).
  apply reach_turn, reach_new.
Defined.

(** X10 on a name that is not in the registry. *)
Lemma unregistered_name_is_reported_witness :
  fst (@_execute_tool text_python scripted (VStr "translate") (VDict [])
         (fresh_agent (january [] topics_tool)))
  = Return (error_payload "Tool not found: translate").
Proof.
  rewrite (@unregistered_name_is_reported text_python scripted
             (VStr "translate") (VDict [])
             (fresh_agent (january [] topics_tool))).
  - reflexivity.
  - reflexivity.
  - intros (s & E & Hin). injection E as <-.
    simpl in Hin. intuition discriminate.
Defined.

(** X11 on a request for get_topics and one for a tool that does not
    exist. *)
Lemma hashable_requests_are_served_in_order_witness :
  exists tool_results,
    fst (@run_tool_calls text_python scripted two_requests
           (fresh_agent (january [] topics_tool)))
    = Return tool_results
    /\ List.length tool_results = 2%nat.
Proof.
  destruct (@hashable_requests_are_served_in_order text_python scripted
              two_requests (fresh_agent (january [] topics_tool)))
    as (tool_results & w' & E & _ & Hl).
  - repeat constructor; eexists; split; reflexivity.
  - exists tool_results. rewrite E. split; [reflexivity | exact Hl].
Defined.

(** X12 on a turn with one request. *)
Lemma results_reach_the_second_prompt_witness :
  exists tool_results,
    List.length tool_results = 1%nat
    /\ map sent (gateway_log (snd null_content_turn))
       = [ @turn_messages scripted "Which topics exist?" None
             (fresh_agent
                (january [reply (VStr (fenced get_topics_call)); reply VNone]
                   topics_tool));
           (@turn_messages scripted "Which topics exist?" None
              (fresh_agent
                 (january [reply (VStr (fenced get_topics_call)); reply VNone]
                    topics_tool))
            ++ [ message "assistant" (VStr (fenced get_topics_call));
                 message "system"
                   (VStr ("Tool call results: "
                          ++ dumps (VList tool_results))) ])%list ].
Proof.
  destruct (@results_reach_the_second_prompt text_python scripted
              "Which topics exist?" None
              (fresh_agent
                 (january [reply (VStr (fenced get_topics_call)); reply VNone]
                    topics_tool))
              (VDict [("message", VDict [("content", VStr (fenced get_topics_call));
                                         ("role", VStr "assistant")])])
              (fenced get_topics_call)
              [VDict [("name", VStr "get_topics"); ("parameters", VDict [])]]
              _ eq_refl eq_refl eq_refl)
    as (tool_results & w2 & o2 & _ & Hl & E).
  - discriminate.
  - repeat constructor. eexists. split; reflexivity.
  - exists tool_results. split; [exact Hl|].
    unfold null_content_turn, run. rewrite E. reflexivity.
Defined.

(** X13 on a result that starts with a document and holds a text. *)
Lemma mixed_document_list_is_an_error_witness :
  exists m,
    fst (@_execute_tool text_python scripted (VStr "get_topics") (VDict [])
           broken_documents_agent)
    = Return (error_payload ("Error executing tool get_topics: " ++ m)).
Proof.
  destruct (proj2 (@mixed_document_list_is_an_error text_python scripted
                     (VStr "get_topics") (VDict []) scripted_tool
                     broken_documents_agent broken_documents
                     (january [] (fun _ => Return (VList broken_documents)))
                     eq_refl eq_refl
                     (ex_intro _ _ (ex_intro _ _ (conj eq_refl eq_refl)))))
    as [m E].
  - intros Hall. inversion Hall as [|x l _ Hrest]; subst.
    inversion Hrest as [|y l' Hy _]; subst. discriminate Hy.
  - exists m. rewrite E. reflexivity.
Defined.

(** X15 on a search by agency with a limit. *)
Lemma search_query_is_parametrised_witness :
  fst (@DatabaseManager.search_documents text_python scripted
         [("agency", VStr "Energy"); ("limit", VInt 5)]
         (january [] topics_tool))
  = Return (VList []).
Proof.
  destruct (@search_query_is_parametrised text_python scripted
              [("agency", VStr "Energy"); ("limit", VInt 5)]
              (january [] topics_tool) (january [] topics_tool) 5 0
              eq_refl eq_refl eq_refl) as (sql & filter_params & E & _).
  rewrite E. reflexivity.
Defined.

(** X18 on January 2025. *)
Lemma date_range_search_query_witness :
  @FederalRegistryTools.search_documents_by_date_range text_python scripted
    (VStr "2025-01-01") (VStr "2025-01-31") (VInt 10) (january [] topics_tool)
  = @guarded_query text_python scripted
      (DatabaseManager.select_documents
       ++ " AND d.publication_date >= %s AND d.publication_date <= %s"
       ++ order_limit)
      [VStr "2025-01-01"; VStr "2025-01-31"; VInt 10; VInt 0]
      (january [] topics_tool).
Proof.
  exact (proj1 (@date_range_search_query text_python scripted
                  "2025-01-01" "2025-01-31" 10 (january [] topics_tool)
                  eq_refl eq_refl)).
Defined.

(** X19 on an agency and a topic. *)
Lemma agency_topic_search_query_witness :
  @FederalRegistryTools.search_by_agency_and_topic text_python scripted
    (VStr "Energy") (VStr "Trade") (VInt 10) (january [] topics_tool)
  = @guarded_query text_python scripted
      (DatabaseManager.select_documents
       ++ " AND a.agency_name LIKE %s AND t.topic_name LIKE %s"
       ++ order_limit)
      [VStr "%Energy%"; VStr "%Trade%"; VInt 10; VInt 0]
      (january [] topics_tool).
Proof.
  exact (@agency_topic_search_query text_python scripted
           "Energy" "Trade" 10 (january [] topics_tool) eq_refl eq_refl).
Defined.

(** X21 with a runtime where the conversion of None raises. *)
Lemma none_limit_differs_witness :
  @FederalRegistryTools.get_recent_documents text_python scripted VNone
    (january [] topics_tool)
  = (Return (VList []), january [] topics_tool).
Proof.
  exact (proj1 (@none_limit_differs text_python scripted
                  (january [] topics_tool) (january [] topics_tool) tt
                  (TypeError "int() argument") eq_refl eq_refl)).
Defined.

(** X23 on a turn whose answer is an object with a text as message. *)
Lemma endpoint_on_dict_answers_witness :
  exists detail,
    fst (@Api.search text_python scripted strict_pydantic "Which topics exist?"
           None dict_answer_agent)
    = Api.HTTPException 500 detail.
Proof.
  destruct (proj2 (proj2 (proj2
              (@endpoint_on_dict_answers text_python scripted strict_pydantic
                 "Which topics exist?" None dict_answer_agent
                 (snd (@process_message text_python scripted
                         "Which topics exist?" None dict_answer_agent))
                 dict_answer eq_refl)))
              "no content here" eq_refl eq_refl) as [detail E].
  exists detail. rewrite E. reflexivity.
Defined.

(** X26 on a comparison. *)
Lemma tag_like_stretch_is_deleted_witness :
  FederalRegistryProcessor._clean_text (VStr "if x < 5 and y > 3")
  = Return "if x 3".
Proof.
  transitivity (FederalRegistryProcessor._clean_text
                  (VStr ("if x " ++ " " ++ " 3"))).
  - apply (tag_like_stretch_is_deleted "if x " " 5 and y " " 3").
    + reflexivity.
    + discriminate.
    + reflexivity.
  - reflexivity.
Defined.

(** X27 on a raw document with a tag in its title, topics and a
    presidential document type. *)
Lemma processed_document_shape_witness :
  exists p,
    fst (@FederalRegistryProcessor.process_doc memory_files
           (VDict raw_document) [])
    = Return (VDict p)
    /\ dict_get "title" p = Some (VStr "Order 14000")
    /\ dict_get "topics" p = None.
Proof.
  destruct (@processed_document_shape memory_files (VDict raw_document)
              (fst_value (@FederalRegistryProcessor.process_doc memory_files
                            (VDict raw_document) []))
              [] [] eq_refl)
    as (d & p & _ & Ep & _ & _ & _ & Hm).
  exists p. inversion Hm as [|k l Htopics _]; subst.
  split; [|split; [|exact Htopics]].
  - rewrite <- Ep. reflexivity.
  - injection Ep as <-. reflexivity.
Defined.

(** X29 on a file whose results hold a document and a text. *)
Lemma non_object_document_drops_the_file_witness :
  @FederalRegistryProcessor.process_data text_python memory_files
    ["raw/federal_registry_2025-01-01.json"] broken_disk
  = (Return [], broken_disk).
Proof.
  assert (Hex : Exists (fun doc => is_dict doc = false)
                  [VDict [("title", VStr "a")]; VStr "oops"])
    by (right; left; reflexivity).
  destruct (@non_object_document_drops_the_file text_python memory_files
              "raw/federal_registry_2025-01-01.json" broken_file
              broken_disk broken_disk
              [("results", VList [VDict [("title", VStr "a")]; VStr "oops"])]
              [VDict [("title", VStr "a")]; VStr "oops"]
              eq_refl eq_refl eq_refl Hex)
    as (e & disk' & Hloop & _ & E).
  rewrite E. f_equal.
  assert (Hd : snd (@FederalRegistryProcessor.process_documents memory_files
                      [VDict [("title", VStr "a")]; VStr "oops"] broken_disk)
               = disk') by (now rewrite Hloop).
  rewrite <- Hd. reflexivity.
Defined.

(** X16 on a search by agency. *)
Lemma search_tool_never_raises_witness :
  exists documents,
    fst (@FederalRegistryTools.search_documents text_python scripted
           VNone VNone VNone VNone (VStr "Energy") VNone VNone VNone
           (VStr "ten") VNone (january [] topics_tool))
    = Return documents
    /\ documents = VList [].
Proof.
  destruct (@search_tool_never_raises text_python scripted
              VNone VNone VNone VNone (VStr "Energy") VNone VNone VNone
              (VStr "ten") VNone (january [] topics_tool))
    as (documents & w' & E & _ & Hint & _).
  exists documents. rewrite E. split; [reflexivity|].
  exact (proj1 (Hint tt (january [] topics_tool) (TypeError "int() argument")
                  eq_refl (or_introl eq_refl))).
Defined.

(** X22 on a turn whose second gateway call fails. *)
Lemma endpoint_answers_in_text_witness :
  fst (@Api.search text_python scripted strict_pydantic "Which topics exist?"
         None
         (fresh_agent
            (january [reply (VStr (fenced get_topics_call))] topics_tool)))
  = Api.SearchResponse apology.
Proof.
  destruct (@endpoint_answers_in_text text_python scripted strict_pydantic
              "Which topics exist?" None
              (fresh_agent
                 (january [reply (VStr (fenced get_topics_call))] topics_tool)))
    as (answer & s' & calls & E & Hlog & _ & Hfail).
  rewrite Hfail; [reflexivity|].
  assert (Hs : s' = snd second_call_fails_turn)
    by (unfold second_call_fails_turn, run; now rewrite E).
  cbn [fresh_agent new_agent gateway_log app] in Hlog.
  rewrite <- Hlog, Hs. vm_compute. reflexivity.
Defined.

(** X24 on a text with tags. *)
Lemma clean_text_is_normalized_witness :
  exists clean,
    FederalRegistryProcessor._clean_text (VStr "<b>Hi</b>  there")
    = Return clean
    /\ normalized clean = true.
Proof.
  exact (proj1 (proj2 (clean_text_is_normalized (VStr "<b>Hi</b>  there")))
           "<b>Hi</b>  there" eq_refl).
Defined.

(** X25 on a clean text. *)
Lemma clean_text_fixed_points_witness :
  FederalRegistryProcessor._clean_text (VStr "Hi there") = Return "Hi there".
Proof.
  exact (proj1 (proj1 (clean_text_fixed_points "Hi there")) eq_refl).
Defined.

(** X28 on a document whose title is a number, before a good one. *)
Lemma document_skipped_or_loop_aborted_witness :
  @FederalRegistryProcessor.process_documents memory_files
    [VDict [("title", VInt 5)]; VDict [("title", VStr "ok")]] []
  = @FederalRegistryProcessor.process_documents memory_files
      [VDict [("title", VStr "ok")]] [].
Proof.
  exact (proj1 (proj2 (@document_skipped_or_loop_aborted memory_files
                         (VDict [("title", VInt 5)])
                         [VDict [("title", VStr "ok")]] []))
           (TypeError "expected string or bytes-like object") []
           eq_refl eq_refl).
Defined.
